(** * DealSpot: the voucher lifecycle (issue, verify, redeem, pay out)

    A shallow embedding of the voucher code paths of the DealSpot server
    and of the page that drives them:
    - [server/storage.ts], the [DatabaseStorage] methods, and the Express
      handlers that follow them in the same source file;
    - the schema module the server imports as [@shared/schema]
      ([unnamed/part_000]), for the tables these touch;
    - the business scanner page, component [BusinessVoucherVerification]
      ([unnamed/part_007]), which runs the redemption flow from the
      browser.

    Conventions.
    - A table is the list of its rows, oldest first.  [insert] appends,
      [update ... where] maps over the rows, [select ... where] filters.
    - A [timestamp] column and a JS [Date] are the number of milliseconds
      since the epoch, in [Z].
    - A [decimal(10,2)] column is its value in hundredths, in [Z].  The
      scanner page sends such a price through [parseFloat] and the server
      stores it back through [toString]; on ten significant digits that
      round trip is exact, so the embedding keeps the hundredths.
    - What a handler reads from its environment (the clock, [randomUUID],
      [Math.random]) is an argument of the embedded handler, one argument
      per read.
    - An exception is the [Thrown] result; every route catches it and
      answers 500.
    - Helpers that the sources import but do not contain are parameters:
      the page's [apiRequest], and the [isAuthenticated] middleware, of
      which only the signed-in caller it lets through appears. *)

From Stdlib Require Import String Ascii List ZArith Lia Bool DecimalString.
Import ListNotations.
Local Open Scope string_scope.
Local Open Scope Z_scope.

Definition Timestamp := Z.
Definition Decimal := Z.

(** ** The schema: the rows.  Only the columns the voucher paths read or
    write are kept. *)

Module User.
Record t := mk { id : string; email : option string }.
End User.

Module Business.
Record t := mk { id : string; name : string; address : string; city : string }.
End Business.

Module Deal.
Record t := mk {
  id : string;
  businessId : string;
  title : string;
  description : string;
  originalPrice : Decimal;
  discountedPrice : Decimal;
  discountPercentage : Z }.
End Deal.

Module Voucher.
(** [status] has a default but no NOT NULL; [usedAt] is nullable. *)
Record t := mk {
  id : string;
  userId : string;
  dealId : string;
  code : string;
  status : option string;
  purchasedAt : option Timestamp;
  usedAt : option Timestamp;
  expiresAt : Timestamp }.
End Voucher.

Module Notification.
Record t := mk {
  id : string;
  userId : string;
  title : string;
  message : string;
  type : string;
  read : option bool;
  createdAt : option Timestamp }.
End Notification.

Module BusinessPayment.
Record t := mk {
  id : string;
  businessId : string;
  voucherId : string;
  amount : Decimal;
  description : option string;
  stripeTransferId : option string;
  status : option string;
  createdAt : option Timestamp }.
End BusinessPayment.

(** The relational store. *)
Record Db := mkDb {
  users : list User.t;
  businesses : list Business.t;
  deals : list Deal.t;
  vouchers : list Voucher.t;
  notifications : list Notification.t;
  business_payments : list BusinessPayment.t }.

Definition set_vouchers (vs : list Voucher.t) (db : Db) : Db :=
  mkDb (users db) (businesses db) (deals db) vs (notifications db) (business_payments db).

Definition set_notifications (ns : list Notification.t) (db : Db) : Db :=
  mkDb (users db) (businesses db) (deals db) (vouchers db) ns (business_payments db).

Definition set_business_payments (ps : list BusinessPayment.t) (db : Db) : Db :=
  mkDb (users db) (businesses db) (deals db) (vouchers db) (notifications db) ps.

(** ** Exceptions *)

Inductive Result (A : Type) : Type :=
| Ok (a : A)
| Thrown.
Arguments Ok {A} a.
Arguments Thrown {A}.

(** ** JS string helpers used by the code generator *)

(** [`${n}`] for an integer [n]. *)
Definition decimal (n : Z) : string := NilZero.string_of_int (Z.to_int n).

(** [s.substr(start, len)] for non-negative arguments. *)
Definition substr (start len : nat) (s : string) : string := substring start len s.

(** [c.toUpperCase()] on an ASCII character. *)
Definition upper (c : ascii) : ascii :=
  let n := nat_of_ascii c in
  if (Nat.leb 97 n && Nat.leb n 122)%bool then ascii_of_nat (n - 32) else c.

(** [s.toUpperCase()] on an ASCII string (what [toString(36)] yields). *)
Fixpoint toUpperCase (s : string) : string :=
  match s with
  | EmptyString => EmptyString
  | String c rest => String (upper c) (toUpperCase rest)
  end.

(** A falsy request field: absent, or the empty string. *)
Definition falsy (field : option string) : bool :=
  match field with
  | None => true
  | Some s => String.eqb s EmptyString
  end.

(** ** server/storage.ts: DatabaseStorage *)

Module InsertVoucher.
(** [z.infer<typeof insertVoucherSchema>]: the voucher columns without
    [id] and [purchasedAt].  [status] is [string | null | undefined]:
    [None] when the caller leaves it out, [Some None] for an explicit
    null.  [usedAt] left out and [usedAt] null both store NULL.
    [expiresAt] is [None] when the caller gives no (truthy) value; a
    [Date] object is always truthy. *)
Record t := mk {
  userId : string;
  dealId : string;
  code : string;
  status : option (option string);
  usedAt : option Timestamp;
  expiresAt : option Timestamp }.
End InsertVoucher.

Module InsertNotification.
(** [InsertNotification] as the routes build it from a JSON body: a field
    the body lacks is [None].  [read] left out takes the column default. *)
Record t := mk {
  userId : option string;
  title : option string;
  message : option string;
  type : option string;
  read : option bool }.
End InsertNotification.

Module InsertBusinessPayment.
Record t := mk {
  businessId : option string;
  voucherId : option string;
  amount : Decimal;
  description : option string;
  status : option string }.
End InsertBusinessPayment.

Module VoucherView.
(** The row [verifyVoucherByCode] selects: voucher columns and the three
    left-joined objects, each null when its join finds no row. *)
Record deal_t := mkDeal {
  deal_id : string;
  deal_title : string;
  deal_description : string;
  deal_originalPrice : Decimal;
  deal_discountedPrice : Decimal;
  deal_discountPercentage : Z }.
Record business_t := mkBusiness {
  business_id : string;
  business_name : string;
  business_address : string;
  business_city : string }.
Record user_t := mkUser { user_id : string; user_email : option string }.
Record t := mk {
  id : string;
  code : string;
  status : option string;
  purchasedAt : option Timestamp;
  usedAt : option Timestamp;
  expiresAt : Timestamp;
  deal : option deal_t;
  business : option business_t;
  user : option user_t }.
End VoucherView.

Module Storage.

Definition thirtyDays : Z := 30 * 24 * 60 * 60 * 1000.

(** [eq(vouchers.status, s)]: NULL matches nothing. *)
Definition statusIs (s : string) (st : option string) : bool :=
  match st with
  | Some x => String.eqb x s
  | None => false
  end.

(** The constraints of the [vouchers] table that an insert can violate:
    the primary key, the unique code and the two foreign keys. *)
Definition vouchersAccept (row : Voucher.t) (db : Db) : bool :=
  (negb (existsb (fun v => String.eqb (Voucher.id v) (Voucher.id row)) (vouchers db))
   && negb (existsb (fun v => String.eqb (Voucher.code v) (Voucher.code row)) (vouchers db))
   && existsb (fun u => String.eqb (User.id u) (Voucher.userId row)) (users db)
   && existsb (fun d => String.eqb (Deal.id d) (Voucher.dealId row)) (deals db))%bool.

(** The code [createVoucher] generates: [nowCode] is [Date.now()] and
    [random36] is [Math.random().toString(36)]. *)
Definition generateCode (nowCode : Timestamp) (random36 : string) : string :=
  ("DS-" ++ decimal nowCode ++ "-" ++ toUpperCase (substr 2 6 random36))%string.

(** [createVoucher]: the caller's fields are spread first, then [id],
    [code] and [expiresAt] are overwritten; [purchasedAt] is the
    database's [now()]. *)
Definition createVoucher (voucher : InsertVoucher.t)
    (nowCode : Timestamp) (random36 : string) (uuid : string)
    (nowExpiry : Timestamp) (dbNow : Timestamp) (db : Db)
    : Result (Voucher.t * Db) :=
  let code := generateCode nowCode random36 in
  let newVoucher :=
    Voucher.mk uuid
      (InsertVoucher.userId voucher)
      (InsertVoucher.dealId voucher)
      code
      (match InsertVoucher.status voucher with
       | None => Some "active"
       | Some given => given
       end)
      (Some dbNow)
      (InsertVoucher.usedAt voucher)
      (match InsertVoucher.expiresAt voucher with
       | Some e => e
       | None => nowExpiry + thirtyDays
       end) in
  if vouchersAccept newVoucher db
  then Ok (newVoucher, set_vouchers (vouchers db ++ [newVoucher]) db)
  else Thrown.

(** The [where] clause of [useVoucher]. *)
Definition usable (voucherId : string) (v : Voucher.t) : bool :=
  (String.eqb (Voucher.id v) voucherId && statusIs "active" (Voucher.status v))%bool.

Definition markUsed (now : Timestamp) (v : Voucher.t) : Voucher.t :=
  Voucher.mk (Voucher.id v) (Voucher.userId v) (Voucher.dealId v) (Voucher.code v)
    (Some "used") (Voucher.purchasedAt v) (Some now) (Voucher.expiresAt v).

(** [useVoucher]: one conditional UPDATE; the answer is whether it
    returned a row. *)
Definition useVoucher (voucherId : string) (now : Timestamp) (db : Db) : bool * Db :=
  let result := filter (usable voucherId) (vouchers db) in
  (Nat.ltb 0 (length result),
   set_vouchers
     (map (fun v => if usable voucherId v then markUsed now v else v) (vouchers db))
     db).

Definition joinDeal (db : Db) (v : Voucher.t) : option Deal.t :=
  find (fun d => String.eqb (Deal.id d) (Voucher.dealId v)) (deals db).

Definition joinBusiness (db : Db) (d : option Deal.t) : option Business.t :=
  match d with
  | Some d => find (fun b => String.eqb (Business.id b) (Deal.businessId d)) (businesses db)
  | None => None
  end.

Definition joinUser (db : Db) (v : Voucher.t) : option User.t :=
  find (fun u => String.eqb (User.id u) (Voucher.userId v)) (users db).

Definition view (db : Db) (v : Voucher.t) : VoucherView.t :=
  let d := joinDeal db v in
  VoucherView.mk (Voucher.id v) (Voucher.code v) (Voucher.status v)
    (Voucher.purchasedAt v) (Voucher.usedAt v) (Voucher.expiresAt v)
    (option_map (fun d => VoucherView.mkDeal (Deal.id d) (Deal.title d) (Deal.description d)
                            (Deal.originalPrice d) (Deal.discountedPrice d)
                            (Deal.discountPercentage d)) d)
    (option_map (fun b => VoucherView.mkBusiness (Business.id b) (Business.name b)
                            (Business.address b) (Business.city b)) (joinBusiness db d))
    (option_map (fun u => VoucherView.mkUser (User.id u) (User.email u)) (joinUser db v)).

(** [verifyVoucherByCode]: the first row of the joined select, or
    undefined. *)
Definition verifyVoucherByCode (code : string) (db : Db) : option VoucherView.t :=
  option_map (view db) (find (fun v => String.eqb (Voucher.code v) code) (vouchers db)).

(** [createNotification]: the insert fails on a missing NOT NULL value, on
    an unknown user and on a primary key already present. *)
Definition createNotification (notification : InsertNotification.t)
    (uuid : string) (dbNow : Timestamp) (db : Db) : Result (Notification.t * Db) :=
  match InsertNotification.userId notification, InsertNotification.title notification,
        InsertNotification.message notification, InsertNotification.type notification with
  | Some userId, Some title, Some message, Some type =>
      if (negb (existsb (fun n => String.eqb (Notification.id n) uuid) (notifications db))
          && existsb (fun u => String.eqb (User.id u) userId) (users db))%bool
      then
        let newNotification :=
          Notification.mk uuid userId title message type
            (match InsertNotification.read notification with
             | Some r => Some r
             | None => Some false
             end)
            (Some dbNow) in
        Ok (newNotification, set_notifications (notifications db ++ [newNotification]) db)
      else Thrown
  | _, _, _, _ => Thrown
  end.

(** [createBusinessPayment]: [createdAt] is the server's [new Date()].
    The amount is one that the [decimal(10,2)] column holds, as every
    stored price is: an amount with more decimals, which the column
    rounds, or of 10^8 and more, on which the insert fails, is not
    embedded. *)
Definition createBusinessPayment (payment : InsertBusinessPayment.t)
    (uuid : string) (createdAt : Timestamp) (db : Db) : Result (BusinessPayment.t * Db) :=
  match InsertBusinessPayment.businessId payment, InsertBusinessPayment.voucherId payment with
  | Some businessId, Some voucherId =>
      if (negb (existsb (fun p => String.eqb (BusinessPayment.id p) uuid) (business_payments db))
          && existsb (fun b => String.eqb (Business.id b) businessId) (businesses db)
          && existsb (fun v => String.eqb (Voucher.id v) voucherId) (vouchers db))%bool
      then
        let newPayment :=
          BusinessPayment.mk uuid businessId voucherId
            (InsertBusinessPayment.amount payment)
            (InsertBusinessPayment.description payment)
            None
            (match InsertBusinessPayment.status payment with
             | Some s => Some s
             | None => Some "pending"
             end)
            (Some createdAt) in
        Ok (newPayment, set_business_payments (business_payments db ++ [newPayment]) db)
      else Thrown
  | _, _ => Thrown
  end.

Definition withStatus (status : string) (p : BusinessPayment.t) : BusinessPayment.t :=
  BusinessPayment.mk (BusinessPayment.id p) (BusinessPayment.businessId p)
    (BusinessPayment.voucherId p) (BusinessPayment.amount p)
    (BusinessPayment.description p) (BusinessPayment.stripeTransferId p)
    (Some status) (BusinessPayment.createdAt p).

(** [updateBusinessPaymentStatus]: [rowCount > 0]. *)
Definition updateBusinessPaymentStatus (id : string) (status : string) (db : Db) : bool * Db :=
  let hit p := String.eqb (BusinessPayment.id p) id in
  (Nat.ltb 0 (length (filter hit (business_payments db))),
   set_business_payments
     (map (fun p => if hit p then withStatus status p else p) (business_payments db))
     db).

(** [getDeal] *)
Definition getDeal (id : string) (db : Db) : option Deal.t :=
  find (fun d => String.eqb (Deal.id d) id) (deals db).

End Storage.

(** ** The Express handlers

    A handler maps the store to its JSON reply and the store it leaves.
    Of a reply's body, the fields that the scanner page or a property below
    reads are kept. *)

Record Reply := mkReply {
  http : Z;
  message : option string;
  valid : option bool;
  success : option bool;
  validFor : option string;
  voucher : option VoucherView.t;
  issued : option Voucher.t }.

Module Routes.

(** [res.status(code).json({ message })] *)
Definition fail (code : Z) (text : string) : Reply :=
  mkReply code (Some text) None None None None None.

(** POST /api/business/vouchers/verify *)
Definition verify (code : option string) (now : Timestamp) (db : Db) : Reply * Db :=
  match code with
  | None => (fail 400 "Voucher code is required", db)
  | Some code =>
    if String.eqb code EmptyString then (fail 400 "Voucher code is required", db) else
    match Storage.verifyVoucherByCode code db with
    | None => (fail 404 "Voucher not found", db)
    | Some voucher =>
      let expiresAt := VoucherView.expiresAt voucher in
      if expiresAt <? now then
        (mkReply 200 (Some "Voucher is expired") (Some false) None None (Some voucher) None, db)
      else if Storage.statusIs "used" (VoucherView.status voucher) then
        (mkReply 200 (Some "Voucher has already been used") (Some false) None None
           (Some voucher) None, db)
      else if negb (Storage.statusIs "active" (VoucherView.status voucher)) then
        (mkReply 200 (Some "Voucher is not active") (Some false) None None (Some voucher) None, db)
      else
        (mkReply 200 (Some "Voucher is valid and ready to use") (Some true) None None
           (Some voucher) None, db)
    end
  end.

(** [{ ...voucher, status: "used", usedAt: new Date() }] *)
Definition shownUsed (replyAt : Timestamp) (v : VoucherView.t) : VoucherView.t :=
  VoucherView.mk (VoucherView.id v) (VoucherView.code v) (Some "used")
    (VoucherView.purchasedAt v) (Some replyAt) (VoucherView.expiresAt v)
    (VoucherView.deal v) (VoucherView.business v) (VoucherView.user v).

(** POST /api/business/vouchers/redeem, in the two parts that the
    handler's database calls cut it into.

    [redeemChecks] is the handler from its start to the last check: the
    lookup and the preconditions, at the handler's clock read [now].  It
    ends in a rejection or in the voucher it is about to mark used.  A null
    [voucher.business] makes [voucher.business.id] throw. *)
Definition redeemChecks (code businessId : option string) (now : Timestamp) (db : Db)
    : Reply + VoucherView.t :=
  if (falsy code || falsy businessId)%bool
  then inl (fail 400 "Voucher code and business ID are required") else
  match code, businessId with
  | Some code, Some businessId =>
    match Storage.verifyVoucherByCode code db with
    | None => inl (fail 404 "Voucher not found")
    | Some voucher =>
      match VoucherView.business voucher with
      | None => inl (fail 500 "Failed to redeem voucher")
      | Some business =>
        if negb (String.eqb (VoucherView.business_id business) businessId) then
          inl (mkReply 403 (Some "This voucher is not valid for your business") None None
                 (Some (VoucherView.business_name business)) None None)
        else if VoucherView.expiresAt voucher <? now then
          inl (fail 400 "Voucher has expired")
        else if negb (Storage.statusIs "active" (VoucherView.status voucher)) then
          inl (fail 400 "Voucher is not active")
        else inr voucher
      end
    end
  | _, _ => inl (fail 400 "Voucher code and business ID are required")
  end.

(** [redeemWrite] is the rest of the handler: [useVoucher], whose clock
    read is [writeAt], and the answer, whose clock read is [replyAt]. *)
Definition redeemWrite (voucher : VoucherView.t) (writeAt replyAt : Timestamp) (db : Db)
    : Reply * Db :=
  let (success, db') := Storage.useVoucher (VoucherView.id voucher) writeAt db in
  if negb success then (fail 400 "Failed to redeem voucher", db')
  else
    (mkReply 200 (Some "Voucher redeemed successfully") None (Some true) None
       (Some (shownUsed replyAt voucher)) None, db').

(** The handler with no other request in between. *)
Definition redeem (code businessId : option string)
    (now writeAt replyAt : Timestamp) (db : Db) : Reply * Db :=
  match redeemChecks code businessId now db with
  | inl rejection => (rejection, db)
  | inr voucher => redeemWrite voucher writeAt replyAt db
  end.

(** PATCH /api/vouchers/:id/use, behind [isAuthenticated]: [user] is the
    signed-in caller, whom the handler never looks at. *)
Definition use (user : string) (id : string) (writeAt : Timestamp) (db : Db) : Reply * Db :=
  let (success, db') := Storage.useVoucher id writeAt db in
  if negb success then (fail 400 "Voucher could not be used", db')
  else (fail 200 "Voucher used successfully", db').

(** POST /api/payments/process, behind [isAuthenticated]: the mocked
    purchase.  [isSuccessful] is [Math.random() > 0.1]; [nowV] and
    [nowExpires] are the route's two clock reads, the remaining ones are
    [createVoucher]'s.  A body without [dealId] fails the insert. *)
Definition purchase (user : string) (dealId : option string) (isSuccessful : bool)
    (nowV nowExpires : Timestamp)
    (nowCode : Timestamp) (random36 : string) (uuid : string)
    (nowExpiry dbNow : Timestamp) (db : Db) : Reply * Db :=
  if negb isSuccessful then (fail 400 "Payment failed", db) else
  match dealId with
  | None => (fail 500 "Failed to process payment", db)
  | Some dealId =>
    match Storage.createVoucher
            (InsertVoucher.mk user dealId ("V" ++ decimal nowV)%string None None
               (Some (nowExpires + 30 * 24 * 60 * 60 * 1000)))
            nowCode random36 uuid nowExpiry dbNow db with
    | Thrown => (fail 500 "Failed to process payment", db)
    | Ok (voucher, db') =>
      let deal := Storage.getDeal dealId db' in
      (mkReply 200 None None (Some true) None None (Some voucher), db')
    end
  end.

(** POST /api/notifications *)
Definition notify (userId title message type : option string)
    (uuid : string) (dbNow : Timestamp) (db : Db) : Reply * Db :=
  match Storage.createNotification
          (InsertNotification.mk userId title message type (Some false)) uuid dbNow db with
  | Thrown => (fail 500 "Failed to create notification", db)
  | Ok (notification, db') => (mkReply 200 None None (Some true) None None None, db')
  end.

(** POST /api/business/payments/process.  [amount.toString()] throws on a
    body without [amount].  Of the reply the [success] field is kept; its
    message and the mocked transfer are left out. *)
Definition payout (businessId voucherId : option string) (amount : option Decimal)
    (description : option string) (uuid : string) (createdAt : Timestamp) (db : Db)
    : Reply * Db :=
  match amount with
  | None => (fail 500 "Failed to process payment", db)
  | Some amount =>
    match Storage.createBusinessPayment
            (InsertBusinessPayment.mk businessId voucherId amount description (Some "pending"))
            uuid createdAt db with
    | Thrown => (fail 500 "Failed to process payment", db)
    | Ok (payment, db') =>
      let (_, db'') := Storage.updateBusinessPaymentStatus (BusinessPayment.id payment)
                         "completed" db' in
      (mkReply 200 None None (Some true) None None None, db'')
    end
  end.

End Routes.

(** ** The business scanner page

    [handleAutoRedeemVoucher] runs four requests in a row; other requests
    can reach the server between any two of them, and between the checks
    and the write of its redeem request, so the page is embedded as the
    stages between these.  [apiRequest] is the page's fetch
    helper: it hands back the parsed JSON body or throws.  Which replies
    make it throw is the parameter [throws]; [trim] is
    [String.prototype.trim]; [businessId] is the page's prop. *)

Module Scanner.

Inductive Stage : Type :=
| Scanned (code : string)
| Verified (code : string) (verification : VoucherView.t)
| Redeeming (verification : VoucherView.t) (voucher : VoucherView.t)
| Redeemed (verification : VoucherView.t)
| Notified (verification : VoucherView.t)
| Finished.

(** What one stage reads from the server's environment. *)
Record Env := mkEnv {
  now : Timestamp;
  writeAt : Timestamp;
  replyAt : Timestamp;
  uuid : string }.

Definition quote : string := String (ascii_of_nat 34) EmptyString.

Section Page.

Variable throws : Reply -> bool.
Variable trim : string -> string.
Variable businessId : string.

(** The verify request and the two checks on its answer. *)
Definition afterScan (code : string) (now : Timestamp) (db : Db) : Stage * Db :=
  let (verification, db') := Routes.verify (Some (trim code)) now db in
  if throws verification then (Finished, db') else
  match valid verification, voucher verification with
  | Some true, Some v =>
    match VoucherView.business v with
    | Some business =>
      if negb (String.eqb (VoucherView.business_id business) businessId)
      then (Finished, db')
      else (Verified code v, db')
    | None => (Finished, db')
    end
  | _, _ => (Finished, db')
  end.

(** What the page does with the answer of its redeem request. *)
Definition afterRedeem (verification : VoucherView.t) (redeemResult : Reply) : Stage :=
  if throws redeemResult then Finished else
  match success redeemResult with
  | Some true => Redeemed verification
  | _ => Finished
  end.

(** The redeem request, up to the server's last check. *)
Definition redeemSent (code : string) (verification : VoucherView.t)
    (now : Timestamp) (db : Db) : Stage * Db :=
  match Routes.redeemChecks (Some (trim code)) (Some businessId) now db with
  | inl rejection => (afterRedeem verification rejection, db)
  | inr voucher => (Redeeming verification voucher, db)
  end.

(** The redeem request, from the server's write to the page. *)
Definition redeemAnswered (verification voucher : VoucherView.t)
    (writeAt replyAt : Timestamp) (db : Db) : Stage * Db :=
  let (redeemResult, db') := Routes.redeemWrite voucher writeAt replyAt db in
  (afterRedeem verification redeemResult, db').

(** [sendRedemptionNotification]: an error, also one raised while the body
    is built from a null join, is logged and dropped. *)
Definition sendRedemptionNotification (v : VoucherView.t)
    (uuid : string) (dbNow : Timestamp) (db : Db) : Db :=
  match VoucherView.user v, VoucherView.deal v, VoucherView.business v with
  | Some user, Some deal, Some business =>
    snd (Routes.notify
           (Some (VoucherView.user_id user))
           (Some "Voucher Ingewisseld ✅")
           (Some ("Uw voucher voor " ++ quote ++ VoucherView.deal_title deal ++ quote
                  ++ " is succesvol gebruikt bij " ++ VoucherView.business_name business)%string)
           (Some "voucher_redeemed")
           uuid dbNow db)
  | _, _, _ => db
  end.

(** [processBusinessPayment] *)
Definition processBusinessPayment (v : VoucherView.t)
    (uuid : string) (createdAt : Timestamp) (db : Db) : Db :=
  match VoucherView.deal v with
  | Some deal =>
    snd (Routes.payout
           (Some businessId)
           (Some (VoucherView.id v))
           (Some (VoucherView.deal_discountedPrice deal))
           (Some ("Voucher uitbetaling: " ++ VoucherView.deal_title deal)%string)
           uuid createdAt db)
  | None => db
  end.

(** One database round of [handleAutoRedeemVoucher]: a request of the
    page, or one of the two parts of its redeem request. *)
Definition advance (stage : Stage) (env : Env) (db : Db) : Stage * Db :=
  match stage with
  | Scanned code => afterScan code (now env) db
  | Verified code v => redeemSent code v (now env) db
  | Redeeming v voucher => redeemAnswered v voucher (writeAt env) (replyAt env) db
  | Redeemed v => (Notified v, sendRedemptionNotification v (uuid env) (now env) db)
  | Notified v => (Finished, processBusinessPayment v (uuid env) (now env) db)
  | Finished => (Finished, db)
  end.

(** [handleAutoRedeemVoucher] up to the answer of its redeem request, with
    no other request in between. *)
Definition verifyAndRedeem (code : string) (e1 e2 : Env) (db : Db) : Stage * Db :=
  let (s1, db1) := advance (Scanned code) e1 db in
  let (s2, db2) := advance s1 e2 db1 in
  advance s2 e2 db2.

(** [handleAutoRedeemVoucher] from the scan to its end, one [Env] per
    request. *)
Definition handleAutoRedeemVoucher (code : string) (e1 e2 e3 e4 : Env) (db : Db) : Stage * Db :=
  let (s2, db2) := verifyAndRedeem code e1 e2 db in
  let (s3, db3) := advance s2 e3 db2 in
  advance s3 e4 db3.

End Page.

End Scanner.

(** ** The server and its scanner pages, request by request *)

Module System.

Record t := mk {
  db : Db;
  pages : list (string * Scanner.Stage) }.

Section Run.

Variable throws : Reply -> bool.
Variable trim : string -> string.

(** One request reaches the server, or one page scans a code.  The
    requests are those of the voucher flow: the scanner pages' own, the
    verify and redeem routes called by hand, the generic use route (which
    also stands for the write of a redeem request whose checks ran
    earlier), the purchase route, and [createVoucher] and
    [createNotification] as the remaining routes call them.  [elsewhere]
    is any other route of the server: none of them writes the [vouchers]
    or the [business_payments] table. *)
Inductive step : t -> t -> Prop :=
| scans (s : t) (businessId code : string) :
    step s (mk (db s) ((businessId, Scanner.Scanned code) :: pages s))
| advances (d d' : Db) (before after : list (string * Scanner.Stage))
    (businessId : string) (stage stage' : Scanner.Stage) (env : Scanner.Env) :
    Scanner.advance throws trim businessId stage env d = (stage', d') ->
    step (mk d (before ++ (businessId, stage) :: after))
         (mk d' (before ++ (businessId, stage') :: after))
| verifies (s : t) (code : option string) (now : Timestamp) :
    step s (mk (snd (Routes.verify code now (db s))) (pages s))
| redeems (s : t) (code businessId : option string) (now writeAt replyAt : Timestamp) :
    step s (mk (snd (Routes.redeem code businessId now writeAt replyAt (db s))) (pages s))
| uses (s : t) (user id : string) (writeAt : Timestamp) :
    step s (mk (snd (Routes.use user id writeAt (db s))) (pages s))
| purchases (s : t) (user : string) (dealId : option string) (isSuccessful : bool)
    (nowV nowExpires nowCode : Timestamp) (random36 uuid : string)
    (nowExpiry dbNow : Timestamp) :
    step s (mk (snd (Routes.purchase user dealId isSuccessful nowV nowExpires
                       nowCode random36 uuid nowExpiry dbNow (db s))) (pages s))
| creates (s : t) (voucher : InsertVoucher.t) (nowCode : Timestamp)
    (random36 uuid : string) (nowExpiry dbNow : Timestamp) (v : Voucher.t) (d' : Db) :
    Storage.createVoucher voucher nowCode random36 uuid nowExpiry dbNow (db s) = Ok (v, d') ->
    step s (mk d' (pages s))
| notifies (s : t) (notification : InsertNotification.t) (uuid : string)
    (dbNow : Timestamp) (n : Notification.t) (d' : Db) :
    Storage.createNotification notification uuid dbNow (db s) = Ok (n, d') ->
    step s (mk d' (pages s))
| elsewhere (s : t) (us : list User.t) (bs : list Business.t) (ds : list Deal.t)
    (ns : list Notification.t) :
    step s (mk (mkDb us bs ds (vouchers (db s)) ns (business_payments (db s))) (pages s)).

Inductive run : t -> t -> Prop :=
| run_nil (s : t) : run s s
| run_step (s s' s'' : t) : run s s' -> step s' s'' -> run s s''.

End Run.

(** A server that has paid nothing out yet and has no page at work. *)
Definition fresh (s : t) : Prop :=
  business_payments (db s) = [] /\ pages s = [].

(** The payment rows that reference a voucher. *)
Definition paymentsOf (voucherId : string) (d : Db) : list BusinessPayment.t :=
  filter (fun p => String.eqb (BusinessPayment.voucherId p) voucherId) (business_payments d).

(** The page has redeemed the voucher and not yet asked for its payment. *)
Definition holds (voucherId : string) (stage : Scanner.Stage) : bool :=
  match stage with
  | Scanner.Redeemed v => String.eqb (VoucherView.id v) voucherId
  | Scanner.Notified v => String.eqb (VoucherView.id v) voucherId
  | _ => false
  end.

Definition weight (voucherId : string) (stage : Scanner.Stage) : nat :=
  if holds voucherId stage then 1%nat else 0%nat.

Definition pending (voucherId : string) (ps : list (string * Scanner.Stage)) : nat :=
  length (filter (fun p => holds voucherId (snd p)) ps).

(** Payments made for the voucher plus payments about to be asked for. *)
Definition owed (voucherId : string) (s : t) : nat :=
  (length (paymentsOf voucherId (db s)) + pending voucherId (pages s))%nat.

(** The voucher is stored and no row of that id is active. *)
Definition spent (voucherId : string) (vs : list Voucher.t) : Prop :=
  In voucherId (map Voucher.id vs)
  /\ forall v, In v vs -> Voucher.id v = voucherId -> Voucher.status v <> Some "active".

(** A page that has verified a code holds the id its code resolves to,
    and its redeem request is about that id. *)
Definition resolved (trim : string -> string) (d : Db) (stage : Scanner.Stage) : Prop :=
  match stage with
  | Scanner.Verified code verification =>
    exists v,
      find (fun r => String.eqb (Voucher.code r) (trim code)) (vouchers d) = Some v
      /\ Voucher.id v = VoucherView.id verification
  | Scanner.Redeeming verification voucher =>
    VoucherView.id voucher = VoucherView.id verification
  | _ => True
  end.

(** What every reachable state satisfies. *)
Definition invariant (trim : string -> string) (s : t) : Prop :=
  (forall voucherId, (owed voucherId s <= 1)%nat)
  /\ (forall voucherId, (1 <= owed voucherId s)%nat -> spent voucherId (vouchers (db s)))
  /\ (forall p, In p (pages s) -> resolved trim (db s) (snd p)).

(** How the voucher table changes: a spent voucher stays spent, and a
    code keeps resolving to the same id. *)
Definition grows (vs vs' : list Voucher.t) : Prop :=
  (forall voucherId, spent voucherId vs -> spent voucherId vs')
  /\ (forall code v,
        find (fun r => String.eqb (Voucher.code r) code) vs = Some v ->
        exists v', find (fun r => String.eqb (Voucher.code r) code) vs' = Some v'
                   /\ Voucher.id v' = Voucher.id v).

End System.

(** ** The specification's words

    The definitions of this module follow the prose of the specification,
    not the code; the theorems compare them with the handlers. *)

Module Spec.

(** The voucher a code resolves to: exact match on the code. *)
Definition lookup (code : string) (db : Db) : option Voucher.t :=
  find (fun v => String.eqb (Voucher.code v) code) (vouchers db).

(** The business a voucher belongs to: the one of its deal. *)
Definition owner (db : Db) (v : Voucher.t) : option Business.t :=
  match find (fun d => String.eqb (Deal.id d) (Voucher.dealId v)) (deals db) with
  | Some d => find (fun b => String.eqb (Business.id b) (Deal.businessId d)) (businesses db)
  | None => None
  end.

(** The foreign keys the schema declares from a voucher: to its user, to
    its deal and from the deal to its business. *)
Definition referential (db : Db) : bool :=
  forallb (fun v => match owner db v, Storage.joinUser db v with
                    | Some _, Some _ => true
                    | _, _ => false
                    end) (vouchers db).

(** *** Verifier: the classification, first match wins. *)
Inductive Verdict : Type := NotFound | Expired | Used | Inactive | Valid.

Definition classify (code : string) (now : Timestamp) (db : Db) : Verdict :=
  match lookup code db with
  | None => NotFound
  | Some v =>
    let status s := match Voucher.status v with
                    | Some x => String.eqb x s
                    | None => false
                    end in
    if Voucher.expiresAt v <? now then Expired
    else if status "used" then Used
    else if negb (status "active") then Inactive
    else Valid
  end.

(** The verdict a verify reply carries. *)
Definition verdictOf (r : Reply) : option Verdict :=
  if http r =? 404 then Some NotFound
  else if http r =? 200 then
    match valid r, message r with
    | Some true, _ => Some Valid
    | Some false, Some m =>
      if String.eqb m "Voucher is expired" then Some Expired
      else if String.eqb m "Voucher has already been used" then Some Used
      else if String.eqb m "Voucher is not active" then Some Inactive
      else None
    | _, _ => None
    end
  else None.

(** *** Redeemer: the preconditions, in order. *)
Inductive Decision : Type :=
| NoSuchVoucher
| WrongBusiness (belongsTo : string)
| HasExpired
| NotActive
| Redeems.

Definition decide (code businessId : string) (now : Timestamp) (db : Db) : option Decision :=
  match lookup code db with
  | None => Some NoSuchVoucher
  | Some v =>
    match owner db v with
    | None => None
    | Some b =>
      if negb (String.eqb (Business.id b) businessId) then Some (WrongBusiness (Business.name b))
      else if Voucher.expiresAt v <? now then Some HasExpired
      else match Voucher.status v with
           | Some s => if negb (String.eqb s "active") then Some NotActive else Some Redeems
           | None => Some NotActive
           end
    end
  end.

(** The decision a redeem reply carries. *)
Definition decisionOf (r : Reply) : option Decision :=
  if http r =? 404 then Some NoSuchVoucher
  else if http r =? 403 then option_map WrongBusiness (validFor r)
  else if http r =? 400 then
    match message r with
    | Some m =>
      if String.eqb m "Voucher has expired" then Some HasExpired
      else if String.eqb m "Voucher is not active" then Some NotActive
      else None
    | None => None
    end
  else if http r =? 200 then
    match success r with
    | Some true => Some Redeems
    | _ => None
    end
  else None.

(** A reply that rejects the request. *)
Definition rejects (r : Reply) : Prop := success r <> Some true.

(** *** Voucher invariant: [usedAt] is set exactly when the status is used. *)
Definition usedAtIffUsed (v : Voucher.t) : Prop :=
  Voucher.usedAt v <> None <-> Voucher.status v = Some "used".

(** The invariant on every stored voucher. *)
Definition wellKept (db : Db) : Prop :=
  forall v, In v (vouchers db) -> usedAtIffUsed v.

(** The ways the voucher table changes: not at all, by one [useVoucher],
    or by one [createVoucher] whose caller gives neither status nor
    [usedAt]. *)
Definition voucherWrite (db db' : Db) : Prop :=
  vouchers db' = vouchers db
  \/ (exists voucherId now,
        vouchers db' = vouchers (snd (Storage.useVoucher voucherId now db)))
  \/ (exists voucher nowCode random36 uuid nowExpiry dbNow v,
        Storage.createVoucher voucher nowCode random36 uuid nowExpiry dbNow db = Ok (v, db')
        /\ InsertVoucher.status voucher = None
        /\ InsertVoucher.usedAt voucher = None).

(** *** After a redemption *)

(** The text mentions the deal's title. *)
Definition mentions (text title : string) : Prop :=
  exists before after : string, text = (before ++ title ++ after)%string.

(** A notification for the user that references the deal. *)
Definition notified (db : Db) (userId dealTitle : string) : Prop :=
  exists n, In n (notifications db)
    /\ Notification.userId n = userId
    /\ mentions (Notification.message n) dealTitle.

(** A completed payment to the business for the amount. *)
Definition paidOut (db : Db) (businessId : string) (amount : Decimal) : Prop :=
  exists p, In p (business_payments db)
    /\ BusinessPayment.businessId p = businessId
    /\ BusinessPayment.amount p = amount
    /\ BusinessPayment.status p = Some "completed".

(** *** Code format: [DS-<epoch-ms>-<6-char-base36>], upper case. *)
Definition base36Upper (c : ascii) : bool :=
  let n := nat_of_ascii c in
  ((Nat.leb 48 n && Nat.leb n 57) || (Nat.leb 65 n && Nat.leb n 90))%bool.

(** A digit as [toString(36)] prints it. *)
Definition base36 (c : ascii) : bool :=
  let n := nat_of_ascii c in
  ((Nat.leb 48 n && Nat.leb n 57) || (Nat.leb 97 n && Nat.leb n 122))%bool.

Definition wellFormedSuffix (suffix : string) : bool :=
  (Nat.eqb (String.length suffix) 6
   && forallb base36Upper (list_ascii_of_string suffix))%bool.

Definition wellFormedCode (code : string) : Prop :=
  exists (ms : Z) (suffix : string),
    code = ("DS-" ++ decimal ms ++ "-" ++ suffix)%string
    /\ wellFormedSuffix suffix = true.

(** *** The statements, as the specification words them *)

(** A voucher with this id is stored with status "active". *)
Definition activeIn (db : Db) (voucherId : string) : Prop :=
  exists v, In v (vouchers db) /\ Voucher.id v = voucherId /\ Voucher.status v = Some "active".

(** Verify classifies the code by the first matching rule and writes
    nothing. *)
Definition verifyClaim (code : string) (now : Timestamp) (db : Db) : Prop :=
  let r := Routes.verify (Some code) now db in
  verdictOf (fst r) = Some (classify code now db) /\ snd r = db.

(** Redeem decides by the first failing precondition, and a rejection
    writes nothing. *)
Definition redeemClaim (code businessId : string) (now writeAt replyAt : Timestamp)
    (db : Db) : Prop :=
  let r := Routes.redeem (Some code) (Some businessId) now writeAt replyAt db in
  decisionOf (fst r) = decide code businessId now db
  /\ (rejects (fst r) -> snd r = db).

(** The stored voucher of that code is used, with [usedAt] set. *)
Definition usedIn (db : Db) (code : string) : Prop :=
  exists v, lookup code db = Some v
    /\ Voucher.status v = Some "used" /\ Voucher.usedAt v <> None.

(** After a successful redeem request the voucher is used, its owner is
    notified about the deal and the business is paid the discounted
    price. *)
Definition redeemEffectsClaim (code businessId : string) (now writeAt replyAt : Timestamp)
    (db : Db) : Prop :=
  let r := Routes.redeem (Some code) (Some businessId) now writeAt replyAt db in
  success (fst r) = Some true ->
  forall v d, lookup code db = Some v -> Storage.joinDeal db v = Some d ->
    usedIn (snd r) code
    /\ notified (snd r) (Voucher.userId v) (Deal.title d)
    /\ paidOut (snd r) businessId (Deal.discountedPrice d).

(** [needle] occurs in [text]. *)
Fixpoint occurs (needle text : string) : bool :=
  (prefix needle text
   || match text with
      | EmptyString => false
      | String _ rest => occurs needle rest
      end)%bool.

(** The reply says that the voucher was already used. *)
Definition reportsAlreadyUsed (r : Reply) : Prop :=
  exists m, message r = Some m /\ mentions m "used".

(** Submitting a redeemed code again reports "already used" and writes
    nothing: no second transition, no payment. *)
Definition resubmitClaim (code businessId : string)
    (now writeAt replyAt now' writeAt' replyAt' : Timestamp) (db : Db) : Prop :=
  let first := Routes.redeem (Some code) (Some businessId) now writeAt replyAt db in
  let second := Routes.redeem (Some code) (Some businessId) now' writeAt' replyAt' (snd first) in
  success (fst first) = Some true ->
  reportsAlreadyUsed (fst second) /\ snd second = snd first.

(** [createVoucher] stores an active voucher without [usedAt]. *)
Definition createdActiveClaim (voucher : InsertVoucher.t)
    (nowCode : Timestamp) (random36 uuid : string) (nowExpiry dbNow : Timestamp)
    (db : Db) : Prop :=
  forall v db',
    Storage.createVoucher voucher nowCode random36 uuid nowExpiry dbNow db = Ok (v, db') ->
    Voucher.status v = Some "active" /\ Voucher.usedAt v = None.

(** [createVoucher] stores a code of the documented form. *)
Definition createdCodeClaim (voucher : InsertVoucher.t)
    (nowCode : Timestamp) (random36 uuid : string) (nowExpiry dbNow : Timestamp)
    (db : Db) : Prop :=
  forall v db',
    Storage.createVoucher voucher nowCode random36 uuid nowExpiry dbNow db = Ok (v, db') ->
    wellFormedCode (Voucher.code v).


End Spec.

(** ** The scenario of the specification: voucher [DS-1700000000000-AB12CD]
    of business [b1], active, expiring a day from now. *)

Module Scenario.

Definition day : Z := 24 * 60 * 60 * 1000.

Definition now : Timestamp := 1700000500000.

Definition db : Db :=
  mkDb
    [User.mk "u1" (Some "koper@example.nl")]
    [Business.mk "b1" "Bistro Een" "Kade 1" "Amsterdam";
     Business.mk "b2" "Salon Twee" "Plein 2" "Utrecht"]
    [Deal.mk "d1" "b1" "Diner voor twee" "Drie gangen" 5000 2500 50]
    [Voucher.mk "v1" "u1" "d1" "DS-1700000000000-AB12CD" (Some "active")
       (Some 1700000000000) None (now + day)]
    []
    [].

(** An [apiRequest] that throws on every reply but a 200. *)
Definition throws (r : Reply) : bool := negb (http r =? 200).

(** A [trim] for codes without surrounding blanks. *)
Definition trim (s : string) : string := s.

Definition env (uuid : string) : Scanner.Env := Scanner.mkEnv now now now uuid.

End Scenario.

From Stdlib Require Import Permutation Sorted SpecFloat.

(** ** server/storage.ts: the listings

    The [select]s that list vouchers, notifications and payments. *)

(** [orderBy(desc(column))] on a nullable timestamp column: the later
    row first.  Postgres puts NULL first under DESC and promises no order
    among rows of equal key; the embedding keeps the table's order among
    those.  [precedes a b]: key [a] sorts strictly before key [b]. *)
Definition precedes (a b : option Timestamp) : bool :=
  match a, b with
  | None, Some _ => true
  | Some x, Some y => y <? x
  | _, _ => false
  end.

Fixpoint insertDesc {A : Type} (key : A -> option Timestamp) (r : A) (sorted : list A)
    : list A :=
  match sorted with
  | [] => [r]
  | x :: rest =>
    if precedes (key x) (key r) then x :: insertDesc key r rest else r :: x :: rest
  end.

Definition orderByDesc {A : Type} (key : A -> option Timestamp) (rows : list A) : list A :=
  fold_right (insertDesc key) [] rows.

(** Newest first: no row is followed by one that sorts strictly before
    it. *)
Definition newestFirst {A : Type} (key : A -> option Timestamp) (rows : list A) : Prop :=
  StronglySorted (fun a b => precedes (key b) (key a) = false) rows.

Module UserVoucher.
(** The row [getUserVouchers] selects: the voucher's columns and the two
    left-joined objects, each null when its join finds no row. *)
Record deal_t := mkDeal {
  deal_id : string;
  deal_title : string;
  deal_discountedPrice : Decimal }.
Record business_t := mkBusiness { business_id : string; business_name : string }.
Record t := mk {
  id : string;
  userId : string;
  dealId : string;
  code : string;
  status : option string;
  purchasedAt : option Timestamp;
  usedAt : option Timestamp;
  expiresAt : Timestamp;
  deal : option deal_t;
  business : option business_t }.
End UserVoucher.

Module BusinessVoucher.
(** The row [getBusinessVouchers] selects.  Its [user] object has the one
    field [email]; a voucher without a user row and a user without email
    both show as [None]. *)
Record deal_t := mkDeal {
  deal_id : string;
  deal_title : string;
  deal_discountedPrice : Decimal }.
Record t := mk {
  id : string;
  code : string;
  status : option string;
  purchasedAt : option Timestamp;
  usedAt : option Timestamp;
  expiresAt : Timestamp;
  deal : option deal_t;
  email : option string }.
End BusinessVoucher.


Module Favorite.
Record t := mk {
  id : string;
  userId : string;
  dealId : string;
  createdAt : option Timestamp }.
End Favorite.

Module InsertFavorite.
Record t := mk { userId : string; dealId : string }.
End InsertFavorite.

Module FavoriteDeal.
(** The row [getUserFavorites] selects: the columns of the left-joined
    deal, all null when the join finds none, and the deal's business. *)
Record business_t := mkBusiness {
  business_id : string;
  business_name : string;
  business_address : string;
  business_city : string }.
Record t := mk { deal : option Deal.t; business : option business_t }.
End FavoriteDeal.

Module BusinessUser.
(** [role] and [isActive] have a default but no NOT NULL. *)
Record t := mk {
  id : string;
  businessId : string;
  email : string;
  password : string;
  name : string;
  role : option string;
  isActive : option bool;
  createdAt : option Timestamp }.
End BusinessUser.

Module InsertBusinessUser.
(** [InsertBusinessUser] as the register route builds it: [name] comes
    from the request body and is [None] when the body lacks it; [role]
    and [isActive] are [None] when left out and [Some None] for an
    explicit null. *)
Record t := mk {
  businessId : string;
  email : string;
  password : string;
  name : option string;
  role : option (option string);
  isActive : option (option bool) }.
End InsertBusinessUser.

Module InsertBusiness.
(** Of [InsertBusiness], the columns [Business.t] keeps. *)
Record t := mk { name : string; address : string; city : string }.
End InsertBusiness.

(** The store with the tables of the favourites and of the business
    accounts beside those of the voucher flow. *)
Record Site := mkSite {
  core : Db;
  favorites : list Favorite.t;
  business_users : list BusinessUser.t }.

Definition set_core (db : Db) (s : Site) : Site :=
  mkSite db (favorites s) (business_users s).

Definition set_favorites (fs : list Favorite.t) (s : Site) : Site :=
  mkSite (core s) fs (business_users s).

Definition set_business_users (us : list BusinessUser.t) (s : Site) : Site :=
  mkSite (core s) (favorites s) us.

Definition set_businesses (bs : list Business.t) (db : Db) : Db :=
  mkDb (users db) bs (deals db) (vouchers db) (notifications db) (business_payments db).

(** [s.split(sep)] for a separator of one character. *)
Fixpoint split (sep : ascii) (s : string) : list string :=
  match s with
  | EmptyString => [EmptyString]
  | String c rest =>
    if Ascii.eqb c sep then EmptyString :: split sep rest
    else match split sep rest with
         | piece :: pieces => String c piece :: pieces
         | [] => [String c EmptyString]
         end
  end.

(** A string as [toString('hex')] prints it. *)
Definition hexDigit (c : ascii) : bool :=
  let n := nat_of_ascii c in
  ((Nat.leb 48 n && Nat.leb n 57) || (Nat.leb 97 n && Nat.leb n 102))%bool.

Definition hex (s : string) : bool := forallb hexDigit (list_ascii_of_string s).


(** ** JS numbers

    A JS number is an IEEE 754 double; [SpecFloat] is the Standard
    Library's executable specification of these. *)

Module Double.

(** An integer as a number. *)
Definition ofInteger (z : Z) : spec_float := binary_normalize 53 1024 z 0 false.

(** [a / b] *)
Definition div (a b : spec_float) : spec_float := SFdiv 53 1024 a b.

(** [x.toFixed(1)], in tenths, for a finite [x] below 10^21: the integer
    [n] for which [n / 10 - x] is closest to zero, the larger one of two,
    taken on the exact value of the double; the sign goes in front. *)
Definition toFixed1 (x : spec_float) : option Z :=
  match x with
  | S754_zero _ => Some 0
  | S754_finite negative m e =>
    let n := if 0 <=? e then 10 * Z.pos m * 2 ^ e
             else (20 * Z.pos m + 2 ^ (- e)) / 2 ^ (- e + 1) in
    Some (if negative then - n else n)
  | _ => None
  end.

(** [(total / count).toFixed(1)], in tenths, for two integers.  A
    quotient that is no number, which takes a [count] of 0, shows as 0
    here; [createReview] divides by the number of reviews after its
    insert, which is 1 at least. *)
Definition average1 (total count : Z) : Z :=
  match toFixed1 (div (ofInteger total) (ofInteger count)) with
  | Some tenths => tenths
  | None => 0
  end.

End Double.

(** [tenths] is a number of one decimal nearest to [total / count]. *)
Definition nearestTenth (total count tenths : Z) : Prop :=
  2 * Z.abs (10 * total - tenths * count) <= count.

(** Whether [tenths] is a tenth nearest to [total / count]. *)
Definition nearestTenthb (total count tenths : Z) : bool :=
  2 * Z.abs (10 * total - tenths * count) <=? count.

(** The integers from [0] up to [n], [n] included. *)
Definition upTo (n : Z) : list Z := map Z.of_nat (seq 0 (S (Z.to_nat n))).

Module Review.
Record t := mk {
  id : string;
  userId : string;
  businessId : string;
  dealId : option string;
  rating : Z;
  comment : option string;
  createdAt : option Timestamp }.
End Review.

Module InsertReview.
Record t := mk {
  userId : string;
  businessId : string;
  dealId : option string;
  rating : Z;
  comment : option string }.
End InsertReview.

Module Listing.
(** A row of [businesses] with the two columns that [createReview]
    writes: [rating], a [decimal(2,1)] kept in tenths, and
    [reviewCount]. *)
Record t := mk {
  business : Business.t;
  rating : option Z;
  reviewCount : option Z }.
End Listing.

(** The tables [createReview] reads and writes. *)
Record Reviewed := mkReviewed {
  members : list User.t;
  offers : list Deal.t;
  listings : list Listing.t;
  reviews : list Review.t }.

Definition set_reviews (rs : list Review.t) (s : Reviewed) : Reviewed :=
  mkReviewed (members s) (offers s) (listings s) rs.

Definition set_listings (ls : list Listing.t) (s : Reviewed) : Reviewed :=
  mkReviewed (members s) (offers s) ls (reviews s).

Module DatabaseStorage.

(** [getVoucher] *)
Definition getVoucher (id : string) (db : Db) : option Voucher.t :=
  find (fun v => String.eqb (Voucher.id v) id) (vouchers db).

Definition userVoucher (db : Db) (v : Voucher.t) : UserVoucher.t :=
  let d := Storage.joinDeal db v in
  UserVoucher.mk (Voucher.id v) (Voucher.userId v) (Voucher.dealId v) (Voucher.code v)
    (Voucher.status v) (Voucher.purchasedAt v) (Voucher.usedAt v) (Voucher.expiresAt v)
    (option_map (fun d => UserVoucher.mkDeal (Deal.id d) (Deal.title d)
                            (Deal.discountedPrice d)) d)
    (option_map (fun b => UserVoucher.mkBusiness (Business.id b) (Business.name b))
       (Storage.joinBusiness db d)).

(** [getUserVouchers] *)
Definition getUserVouchers (userId : string) (db : Db) : list UserVoucher.t :=
  orderByDesc UserVoucher.purchasedAt
    (map (userVoucher db)
       (filter (fun v => String.eqb (Voucher.userId v) userId) (vouchers db))).

Definition businessVoucher (db : Db) (v : Voucher.t) : BusinessVoucher.t :=
  BusinessVoucher.mk (Voucher.id v) (Voucher.code v)
    (Voucher.status v) (Voucher.purchasedAt v) (Voucher.usedAt v) (Voucher.expiresAt v)
    (option_map (fun d => BusinessVoucher.mkDeal (Deal.id d) (Deal.title d)
                            (Deal.discountedPrice d)) (Storage.joinDeal db v))
    (match Storage.joinUser db v with
     | Some u => User.email u
     | None => None
     end).

(** [where(eq(deals.businessId, businessId))] on the left-joined deal: a
    voucher whose deal is missing matches no business. *)
Definition dealOf (businessId : string) (db : Db) (v : Voucher.t) : bool :=
  match Storage.joinDeal db v with
  | Some d => String.eqb (Deal.businessId d) businessId
  | None => false
  end.

(** [getBusinessVouchers] *)
Definition getBusinessVouchers (businessId : string) (db : Db) : list BusinessVoucher.t :=
  orderByDesc BusinessVoucher.purchasedAt
    (map (businessVoucher db) (filter (dealOf businessId db) (vouchers db))).

(** [getUserNotifications] *)
Definition getUserNotifications (userId : string) (db : Db) : list Notification.t :=
  orderByDesc Notification.createdAt
    (filter (fun n => String.eqb (Notification.userId n) userId) (notifications db)).

(** [getBusinessPayments] *)
Definition getBusinessPayments (businessId : string) (db : Db) : list BusinessPayment.t :=
  orderByDesc BusinessPayment.createdAt
    (filter (fun p => String.eqb (BusinessPayment.businessId p) businessId)
       (business_payments db)).


(** *** Favorites *)

(** The [where] clause of [removeFavorite] and [isFavorite]. *)
Definition favoriteOf (userId dealId : string) (f : Favorite.t) : bool :=
  (String.eqb (Favorite.userId f) userId && String.eqb (Favorite.dealId f) dealId)%bool.

(** The constraints of the [favorites] table that an insert can violate:
    the primary key and the two foreign keys.  The table has no unique
    constraint on the pair of user and deal. *)
Definition favoritesAccept (row : Favorite.t) (s : Site) : bool :=
  (negb (existsb (fun f => String.eqb (Favorite.id f) (Favorite.id row)) (favorites s))
   && existsb (fun u => String.eqb (User.id u) (Favorite.userId row)) (users (core s))
   && existsb (fun d => String.eqb (Deal.id d) (Favorite.dealId row)) (deals (core s)))%bool.

(** [addFavorite]: an insert that fails is caught and answered [false]. *)
Definition addFavorite (favorite : InsertFavorite.t) (uuid : string) (dbNow : Timestamp)
    (s : Site) : bool * Site :=
  let row :=
    Favorite.mk uuid (InsertFavorite.userId favorite) (InsertFavorite.dealId favorite)
      (Some dbNow) in
  if favoritesAccept row s
  then (true, set_favorites (favorites s ++ [row]) s)
  else (false, s).

(** [removeFavorite]: one DELETE; the answer is whether it returned a
    row. *)
Definition removeFavorite (userId dealId : string) (s : Site) : bool * Site :=
  let result := filter (favoriteOf userId dealId) (favorites s) in
  (Nat.ltb 0 (length result),
   set_favorites (filter (fun f => negb (favoriteOf userId dealId f)) (favorites s)) s).

(** [isFavorite]: [!!favorite] on the first row selected. *)
Definition isFavorite (userId dealId : string) (s : Site) : bool :=
  match find (favoriteOf userId dealId) (favorites s) with
  | Some _ => true
  | None => false
  end.

Definition favoriteDeal (db : Db) (f : Favorite.t) : FavoriteDeal.t :=
  let d := find (fun d => String.eqb (Deal.id d) (Favorite.dealId f)) (deals db) in
  FavoriteDeal.mk d
    (option_map (fun b => FavoriteDeal.mkBusiness (Business.id b) (Business.name b)
                            (Business.address b) (Business.city b))
       (Storage.joinBusiness db d)).

(** [getUserFavorites]: ordered by the favourite's [createdAt], which is
    not among the columns selected. *)
Definition getUserFavorites (userId : string) (s : Site) : list FavoriteDeal.t :=
  map (favoriteDeal (core s))
    (orderByDesc Favorite.createdAt
       (filter (fun f => String.eqb (Favorite.userId f) userId) (favorites s))).

(** *** Businesses and their accounts *)

(** [getBusiness] *)
Definition getBusiness (id : string) (db : Db) : option Business.t :=
  find (fun b => String.eqb (Business.id b) id) (businesses db).

(** [createBusiness]: the insert fails on a primary key already present. *)
Definition createBusiness (business : InsertBusiness.t) (uuid : string) (db : Db)
    : Result (Business.t * Db) :=
  if existsb (fun b => String.eqb (Business.id b) uuid) (businesses db) then Thrown
  else
    let newBusiness :=
      Business.mk uuid (InsertBusiness.name business) (InsertBusiness.address business)
        (InsertBusiness.city business) in
    Ok (newBusiness, set_businesses (businesses db ++ [newBusiness]) db).

(** [getBusinessOwners]: the e-mail addresses of the active owners and
    managers, in the order of the table (the query gives none). *)
Definition ownerOf (businessId : string) (u : BusinessUser.t) : bool :=
  (String.eqb (BusinessUser.businessId u) businessId
   && (Storage.statusIs "owner" (BusinessUser.role u)
       || Storage.statusIs "manager" (BusinessUser.role u))
   && match BusinessUser.isActive u with
      | Some active => active
      | None => false
      end)%bool.

Definition getBusinessOwners (businessId : string) (s : Site) : list string :=
  map BusinessUser.email (filter (ownerOf businessId) (business_users s)).

(** [eq(users.email, email)]: NULL matches nothing. *)
Definition hasEmail (email : string) (u : User.t) : bool :=
  Storage.statusIs email (User.email u).

(** [notifyBusinessOwners]: the notification goes to the user whose
    e-mail is the first owner's, when there is such a user. *)
Definition notifyBusinessOwners (businessId : string) (notificationData : InsertNotification.t)
    (uuid : string) (dbNow : Timestamp) (s : Site) : Result Site :=
  match getBusinessOwners businessId s with
  | [] => Ok s
  | first :: _ =>
    match find (hasEmail first) (users (core s)) with
    | None => Ok s
    | Some user =>
      match Storage.createNotification
              (InsertNotification.mk (Some (User.id user))
                 (InsertNotification.title notificationData)
                 (InsertNotification.message notificationData)
                 (InsertNotification.type notificationData)
                 (InsertNotification.read notificationData))
              uuid dbNow (core s) with
      | Ok (_, db') => Ok (set_core db' s)
      | Thrown => Thrown
      end
    end
  end.

Section Passwords.

(** [pbkdf2Sync(password, salt, 10000, 64, 'sha512').toString('hex')], of
    Node's [crypto]. *)
Variable pbkdf2 : string -> string -> string.

(** [hashPassword]: [salt] is [randomBytes(32).toString('hex')]. *)
Definition hashPassword (password salt : string) : string :=
  (salt ++ ":" ++ pbkdf2 password salt)%string.

(** [verifyPassword]: [const [salt, hash] = hashedPassword.split(':')];
    without a second piece [hash] is undefined and equals no string. *)
Definition verifyPassword (password hashedPassword : string) : bool :=
  match split ":" hashedPassword with
  | salt :: hash :: _ => String.eqb hash (pbkdf2 password salt)
  | _ => false
  end.

(** The constraints of the [business_users] table that an insert can
    violate: the primary key, the unique e-mail and the foreign key. *)
Definition businessUsersAccept (row : BusinessUser.t) (s : Site) : bool :=
  (negb (existsb (fun u => String.eqb (BusinessUser.id u) (BusinessUser.id row))
           (business_users s))
   && negb (existsb (fun u => String.eqb (BusinessUser.email u) (BusinessUser.email row))
              (business_users s))
   && existsb (fun b => String.eqb (Business.id b) (BusinessUser.businessId row))
        (businesses (core s)))%bool.

(** [createBusinessUser]: the password is stored hashed; an insert
    without the NOT NULL [name] fails. *)
Definition createBusinessUser (user : InsertBusinessUser.t) (salt uuid : string)
    (dbNow : Timestamp) (s : Site) : Result (BusinessUser.t * Site) :=
  let hashedPassword := hashPassword (InsertBusinessUser.password user) salt in
  match InsertBusinessUser.name user with
  | None => Thrown
  | Some name =>
    let newUser :=
      BusinessUser.mk uuid (InsertBusinessUser.businessId user)
        (InsertBusinessUser.email user) hashedPassword name
        (match InsertBusinessUser.role user with
         | None => Some "manager"
         | Some given => given
         end)
        (match InsertBusinessUser.isActive user with
         | None => Some true
         | Some given => given
         end)
        (Some dbNow) in
    if businessUsersAccept newUser s
    then Ok (newUser, set_business_users (business_users s ++ [newUser]) s)
    else Thrown
  end.

(** [getBusinessUser] *)
Definition getBusinessUser (email : string) (s : Site) : option BusinessUser.t :=
  find (fun u => String.eqb (BusinessUser.email u) email) (business_users s).

(** [authenticateBusinessUser] *)
Definition authenticateBusinessUser (email password : string) (s : Site)
    : option BusinessUser.t :=
  match getBusinessUser email s with
  | None => None
  | Some user =>
    match BusinessUser.isActive user with
    | Some true =>
      if verifyPassword password (BusinessUser.password user) then Some user else None
    | _ => None
    end
  end.

End Passwords.


(** *** Reviews *)

(** The constraints an insert into [reviews] can violate: the primary
    key, the foreign keys to the user, the business and, when given, the
    deal, and the range of the [integer] column. *)
Definition reviewsAccept (row : Review.t) (s : Reviewed) : bool :=
  (negb (existsb (fun r => String.eqb (Review.id r) (Review.id row)) (reviews s))
   && existsb (fun u => String.eqb (User.id u) (Review.userId row)) (members s)
   && existsb (fun l => String.eqb (Business.id (Listing.business l)) (Review.businessId row))
        (listings s)
   && match Review.dealId row with
      | Some dealId => existsb (fun d => String.eqb (Deal.id d) dealId) (offers s)
      | None => true
      end
   && (-2147483648 <=? Review.rating row) && (Review.rating row <=? 2147483647))%bool.

Section Rating.

(** [(totalRating / businessReviews.length).toFixed(1)], in tenths.  The
    quotient is a JS double and [toFixed] rounds that double; the
    function of the two integers is a parameter of the method, and
    [Double.average1] is the one JS has. *)
Variable toFixed1 : Z -> Z -> Z.

(** [createReview]: three statements, each committed on its own.  The
    update fails when the average does not fit [decimal(2,1)], that is
    from 10.0 on; the review is stored by then. *)
Definition createReview (review : InsertReview.t) (uuid : string) (dbNow : Timestamp)
    (s : Reviewed) : Result Review.t * Reviewed :=
  let newReview :=
    Review.mk uuid (InsertReview.userId review) (InsertReview.businessId review)
      (InsertReview.dealId review) (InsertReview.rating review)
      (InsertReview.comment review) (Some dbNow) in
  if negb (reviewsAccept newReview s) then (Thrown, s) else
  let s1 := set_reviews (reviews s ++ [newReview]) s in
  let businessReviews :=
    filter (fun r => String.eqb (Review.businessId r) (InsertReview.businessId review))
      (reviews s1) in
  let totalRating := fold_left (fun sum r => sum + Review.rating r) businessReviews 0 in
  let avgRating := toFixed1 totalRating (Z.of_nat (length businessReviews)) in
  if negb (Z.abs avgRating <? 100) then (Thrown, s1) else
  (Ok newReview,
   set_listings
     (map (fun l =>
             if String.eqb (Business.id (Listing.business l)) (InsertReview.businessId review)
             then Listing.mk (Listing.business l) (Some avgRating)
                    (Some (Z.of_nat (length businessReviews)))
             else l)
        (listings s1))
     s1).

End Rating.

End DatabaseStorage.

(** ** More Express handlers: favourites and business accounts *)

Module VoucherBody.
(** The JSON body of POST /api/vouchers: a field the body lacks is
    [None], and a date travels as text. *)
Record t := mk {
  userId : option string;
  dealId : option string;
  code : option string;
  status : option (option string);
  usedAt : option string;
  expiresAt : option string;
  dealTitle : option string }.
End VoucherBody.

Module Session.
(** What the business login and register routes answer.  Of the account
    the fields of the login reply are kept, and the login reply's [token]
    is left out; the password is in neither reply. *)
Record user_t := mkUser {
  user_id : string;
  user_email : string;
  user_name : string;
  user_role : option string }.
Record t := mk {
  http : Z;
  message : option string;
  success : option bool;
  user : option user_t;
  business : option Business.t }.
End Session.

Module Handlers.

(** [res.status(code).json({ message })], and [res.json({ message })]
    with code 200. *)
Definition say (code : Z) (text : string) : Reply :=
  mkReply code (Some text) None None None None None.

(** POST /api/favorites, behind [isAuthenticated]: [user] is the
    signed-in caller, whose id replaces any [userId] of the body;
    [insertFavoriteSchema.parse] throws on a body without [dealId]. *)
Definition addFavorite (user : string) (dealId : option string)
    (uuid : string) (dbNow : Timestamp) (s : Site) : Reply * Site :=
  match dealId with
  | None => (say 500 "Failed to add favorite", s)
  | Some dealId =>
    let (success, s') :=
      DatabaseStorage.addFavorite (InsertFavorite.mk user dealId) uuid dbNow s in
    if negb success then (say 400 "Failed to add favorite", s')
    else (say 200 "Added to favorites", s')
  end.

(** DELETE /api/favorites/:dealId, behind [isAuthenticated] *)
Definition removeFavorite (user : string) (dealId : string) (s : Site) : Reply * Site :=
  let (success, s') := DatabaseStorage.removeFavorite user dealId s in
  if negb success then (say 400 "Failed to remove favorite", s')
  else (say 200 "Removed from favorites", s').

(** GET /api/favorites/:dealId/check, behind [isAuthenticated]: the
    [isFavorite] field of the reply. *)
Definition checkFavorite (user : string) (dealId : string) (s : Site) : bool :=
  DatabaseStorage.isFavorite user dealId s.

Section Vouchers.

(** [insertVoucherSchema.parse], built by drizzle-zod's
    [createInsertSchema]: the insert value it makes of the object, or an
    exception. *)
Variable parse : VoucherBody.t -> Result InsertVoucher.t.

(** [{ ...req.body, userId }] *)
Definition withUser (user : string) (body : VoucherBody.t) : VoucherBody.t :=
  VoucherBody.mk (Some user) (VoucherBody.dealId body) (VoucherBody.code body)
    (VoucherBody.status body) (VoucherBody.usedAt body) (VoucherBody.expiresAt body)
    (VoucherBody.dealTitle body).

(** [`${field}`] for a string, or for a field the body lacks. *)
Definition shown (field : option string) : string :=
  match field with
  | Some s => s
  | None => "undefined"
  end.

(** POST /api/vouchers, behind [isAuthenticated]: what the parsed body
    holds, its [status] and [usedAt] too, goes to [createVoucher]; then
    the caller is notified.  The two inserts are committed one by one;
    [uuidN] and [dbNowN] are the reads of the second. *)
Definition postVoucher (user : string) (body : VoucherBody.t)
    (nowCode : Timestamp) (random36 uuid : string) (nowExpiry dbNow : Timestamp)
    (uuidN : string) (dbNowN : Timestamp) (db : Db) : Reply * Db :=
  match parse (withUser user body) with
  | Thrown => (say 500 "Failed to create voucher", db)
  | Ok voucherData =>
    match Storage.createVoucher voucherData nowCode random36 uuid nowExpiry dbNow db with
    | Thrown => (say 500 "Failed to create voucher", db)
    | Ok (voucher, db') =>
      match Storage.createNotification
              (InsertNotification.mk (Some user) (Some "Nieuwe voucher")
                 (Some ("Uw voucher voor " ++ shown (VoucherBody.dealTitle body)
                        ++ " is aangekocht!")%string)
                 (Some "new_voucher") None)
              uuidN dbNowN db' with
      | Thrown => (say 500 "Failed to create voucher", db')
      | Ok (_, db'') => (mkReply 200 None None None None None (Some voucher), db'')
      end
    end
  end.

End Vouchers.

Section Accounts.

Variable pbkdf2 : string -> string -> string.

Definition refuse (code : Z) (text : string) : Session.t :=
  Session.mk code (Some text) None None None.

Definition sessionUser (u : BusinessUser.t) : Session.user_t :=
  Session.mkUser (BusinessUser.id u) (BusinessUser.email u) (BusinessUser.name u)
    (BusinessUser.role u).

(** POST /api/business/login *)
Definition login (email password : option string) (s : Site) : Session.t :=
  if (falsy email || falsy password)%bool
  then refuse 400 "Email and password are required" else
  match email, password with
  | Some email, Some password =>
    match DatabaseStorage.authenticateBusinessUser pbkdf2 email password s with
    | Some businessUser =>
      Session.mk 200 None None (Some (sessionUser businessUser))
        (DatabaseStorage.getBusiness (BusinessUser.businessId businessUser) (core s))
    | None => refuse 401 "Invalid email or password"
    end
  | _, _ => refuse 400 "Email and password are required"
  end.

(** [x || ''] *)
Definition orEmpty (field : option string) : string :=
  match field with
  | Some s => s
  | None => EmptyString
  end.

(** POST /api/business/register: the business is created first, then the
    account; [uuidB] and [uuidU] are the two [randomUUID()]s. *)
Definition register
    (businessName address city contactName contactEmail contactPassword : option string)
    (uuidB salt uuidU : string) (dbNow : Timestamp) (s : Site) : Session.t * Site :=
  if (falsy businessName || falsy contactEmail || falsy contactPassword)%bool
  then (refuse 400 "Business name, contact email, and password are required", s) else
  match businessName, contactEmail, contactPassword with
  | Some businessName, Some contactEmail, Some contactPassword =>
    match DatabaseStorage.getBusinessUser contactEmail s with
    | Some _ => (refuse 409 "A business account with this email already exists", s)
    | None =>
      match DatabaseStorage.createBusiness
              (InsertBusiness.mk businessName (orEmpty address) (orEmpty city))
              uuidB (core s) with
      | Thrown => (refuse 500 "Registration failed", s)
      | Ok (business, db') =>
        let s' := set_core db' s in
        match DatabaseStorage.createBusinessUser pbkdf2
                (InsertBusinessUser.mk (Business.id business) contactEmail contactPassword
                   contactName (Some (Some "owner")) None)
                salt uuidU dbNow s' with
        | Thrown => (refuse 500 "Registration failed", s')
        | Ok (businessUser, s'') =>
          (Session.mk 200 None (Some true) (Some (sessionUser businessUser)) (Some business),
           s'')
        end
      end
    end
  | _, _, _ => (refuse 400 "Business name, contact email, and password are required", s)
  end.

End Accounts.

End Handlers.

(** ** The business dashboard: submissions and the free limit

    [businessSubmissions] and [businessLimits] are variables of
    [registerRoutes], kept in memory.  A JS number here is an integer or
    none: [None] stands for [undefined] and for [NaN], which compare and
    add alike ([undefined >= 2] and [NaN >= 2] are false,
    [undefined + 1] and [NaN + 1] are [NaN]).  Of a submission the fields
    kept are those a handler below writes, and the title. *)

Module Submission.
Record business_t := mkBusiness {
  business_name : string;
  business_city : string;
  business_address : string }.
Record t := mk {
  id : string;
  title : option string;
  status : option string;
  businessId : option string;
  business : business_t;
  adminNotes : option string }.
End Submission.

Module Limits.
Record t := mk {
  freeDealsUsed : option Z;
  totalDeals : option Z;
  subscriptionStatus : string }.
End Limits.

Module SubmitBody.
(** The body of a submit request: a field the body lacks is [None]. *)
Record t := mk {
  id : option string;
  title : option string;
  adminNotes : option string;
  businessName : option string;
  businessCity : option string;
  businessAddress : option string }.
End SubmitBody.

Module SubmitReply.
Record t := mk {
  http : Z;
  message : option string;
  success : option bool;
  requiresPayment : option bool;
  freeDealsUsed : option Z;
  submission : option Submission.t;
  limits : option Limits.t }.
End SubmitReply.

Module LimitsReply.
Record t := mk {
  freeDealsUsed : option Z;
  totalDeals : option Z;
  subscriptionStatus : string;
  maxFreeDeals : Z;
  remainingFreeDeals : option Z }.
End LimitsReply.

Module ReviewReply.
Record t := mk {
  http : Z;
  message : option string;
  success : option bool;
  deal : option Submission.t }.
End ReviewReply.

Module Dashboard.

(** The two variables.  [businessLimits] is a JS object used as a map
    from business id to limits. *)
Record Memory := mkMemory {
  businessSubmissions : list Submission.t;
  businessLimits : list (string * Limits.t) }.

(** [object[key]] *)
Definition get (key : string) (object : list (string * Limits.t)) : option Limits.t :=
  option_map snd (find (fun entry => String.eqb (fst entry) key) object).

(** [object[key] = value] *)
Definition assign (key : string) (value : Limits.t) (object : list (string * Limits.t))
    : list (string * Limits.t) :=
  (key, value) :: filter (fun entry => negb (String.eqb (fst entry) key)) object.

(** The initial values; the seeded submissions carry no [businessId]. *)
Definition initial : Memory :=
  mkMemory
    [Submission.mk "1" (Some "3-gangen menu voor â‚¬25") (Some "approved") None
       (Submission.mkBusiness "Restaurant De Smaak" "Amsterdam" "Prinsengracht 123")
       (Some "Goedgekeurd - mooie deal");
     Submission.mk "2" (Some "20% korting op alle hoofdgerechten") (Some "pending") None
       (Submission.mkBusiness "Bistro Central" "Utrecht" "Oudegracht 45")
       None]
    [("demo-business-1", Limits.mk (Some 0) (Some 0) "free")].

(** [const businessId = 'demo-business-1'] *)
Definition businessId : string := "demo-business-1".

(** [businessLimits[businessId] || { freeDealsUsed: 0, totalDeals: 0,
    subscriptionStatus: 'free' }] *)
Definition account (m : Memory) : Limits.t :=
  match get businessId (businessLimits m) with
  | Some limits => limits
  | None => Limits.mk (Some 0) (Some 0) "free"
  end.

(** [n >= 2] *)
Definition atLeastTwo (n : option Z) : bool :=
  match n with
  | Some n => 2 <=? n
  | None => false
  end.

(** [n + 1] *)
Definition plusOne (n : option Z) : option Z := option_map (fun n => n + 1) n.

(** [field || fallback] *)
Definition orElse (field : option string) (fallback : string) : string :=
  if falsy field then fallback else
  match field with
  | Some s => s
  | None => fallback
  end.

(** POST /api/business/deals/submit.  [random36] is
    [Math.random().toString(36)]; the body is spread after the generated
    [id] and before the other fields the handler sets. *)
Definition submit (body : SubmitBody.t) (random36 : string) (m : Memory)
    : SubmitReply.t * Memory :=
  let businessAccount := account m in
  if (atLeastTwo (Limits.freeDealsUsed businessAccount)
      && String.eqb (Limits.subscriptionStatus businessAccount) "free")%bool
  then
    (SubmitReply.mk 402 (Some "Free limit reached") None (Some true)
       (Limits.freeDealsUsed businessAccount) None None, m)
  else
    let submission :=
      Submission.mk
        (match SubmitBody.id body with
         | Some id => id
         | None => substring 2 6 random36
         end)
        (SubmitBody.title body)
        (Some "pending")
        (Some businessId)
        (Submission.mkBusiness
           (orElse (SubmitBody.businessName body) "Demo Restaurant")
           (orElse (SubmitBody.businessCity body) "Amsterdam")
           (orElse (SubmitBody.businessAddress body) "Prinsengracht 123"))
        (SubmitBody.adminNotes body) in
    let limits :=
      Limits.mk (plusOne (Limits.freeDealsUsed businessAccount))
        (plusOne (Limits.totalDeals businessAccount))
        (Limits.subscriptionStatus businessAccount) in
    (SubmitReply.mk 200 None (Some true) None None (Some submission) (Some limits),
     mkMemory (submission :: businessSubmissions m)
       (assign businessId limits (businessLimits m))).

(** GET /api/business/limits *)
Definition limits (m : Memory) : LimitsReply.t :=
  let limits := account m in
  LimitsReply.mk (Limits.freeDealsUsed limits) (Limits.totalDeals limits)
    (Limits.subscriptionStatus limits) 2
    (option_map (fun used => Z.max 0 (2 - used)) (Limits.freeDealsUsed limits)).

(** POST /api/business/purchase-deal-credits: the mocked payment always
    succeeds; [{ ...businessLimits[businessId], subscriptionStatus:
    'paid' }] has no counters when the key is missing. *)
Definition purchaseDealCredits (m : Memory) : Memory :=
  mkMemory (businessSubmissions m)
    (assign businessId
       (match get businessId (businessLimits m) with
        | Some limits =>
          Limits.mk (Limits.freeDealsUsed limits) (Limits.totalDeals limits) "paid"
        | None => Limits.mk None None "paid"
        end)
       (businessLimits m)).

(** GET /api/business/submissions and GET /api/admin/pending-deals *)
Definition submissions (m : Memory) : list Submission.t := businessSubmissions m.

(** [businessSubmissions[dealIndex].status = status] and, for a truthy
    [adminNotes], [.adminNotes = adminNotes], at the index [findIndex]
    gives: the first submission of that id. *)
Fixpoint decideFirst (dealId : string) (status adminNotes : option string)
    (subs : list Submission.t) : option (Submission.t * list Submission.t) :=
  match subs with
  | [] => None
  | x :: rest =>
    if String.eqb (Submission.id x) dealId then
      let x' :=
        Submission.mk (Submission.id x) (Submission.title x) status
          (Submission.businessId x) (Submission.business x)
          (if falsy adminNotes then Submission.adminNotes x else adminNotes) in
      Some (x', x' :: rest)
    else
      match decideFirst dealId status adminNotes rest with
      | Some (x', rest') => Some (x', x :: rest')
      | None => None
      end
  end.

(** PATCH /api/admin/deals/:dealId, as far as the memory and the reply
    go.  For the status [approved] the handler then copies the submission
    into the database as a business and a deal, inside a [try] of its
    own whose failure is logged; that part reads nothing back and is not
    embedded. *)
Definition review (dealId : string) (status adminNotes : option string) (m : Memory)
    : ReviewReply.t * Memory :=
  match decideFirst dealId status adminNotes (businessSubmissions m) with
  | None => (ReviewReply.mk 404 (Some "Deal not found") None None, m)
  | Some (deal, subs) =>
    (ReviewReply.mk 200 None (Some true) (Some deal), mkMemory subs (businessLimits m))
  end.

(** One request to the dashboard. *)
Inductive step : Memory -> Memory -> Prop :=
| submits (m : Memory) (body : SubmitBody.t) (random36 : string) :
    step m (snd (submit body random36 m))
| purchases (m : Memory) : step m (purchaseDealCredits m)
| reviews (m : Memory) (dealId : string) (status adminNotes : option string) :
    step m (snd (review dealId status adminNotes m))
| reads (m : Memory) : step m m.

Inductive run : Memory -> Memory -> Prop :=
| run_nil (m : Memory) : run m m
| run_step (m m' m'' : Memory) : run m m' -> step m' m'' -> run m m''.

(** What every state reached from [initial] satisfies: the two counters
    are numbers and agree, they count the submissions beyond the two
    seeded ones, and a free account has used at most two. *)
Definition kept (m : Memory) : Prop :=
  exists (n : Z) (plan : string),
    get businessId (businessLimits m) = Some (Limits.mk (Some n) (Some n) plan)
    /\ 0 <= n
    /\ Z.of_nat (length (businessSubmissions m)) = 2 + n
    /\ ((plan = "free" /\ n <= 2) \/ plan = "paid").

End Dashboard.

(** ** The scanner page: the input field and its two buttons *)

Module Manual.

(** The two state variables the manual flow uses: the text of the input
    and the last verification reply, null at first. *)
Record Page := mkPage {
  voucherCode : string;
  verificationResult : option Reply }.

Section Controls.

Variable throws : Reply -> bool.
Variable trim : string -> string.
Variable businessId : string.

(** [onChange] of the input: the text changes, the verification shown
    stays. *)
Definition setVoucherCode (text : string) (p : Page) : Page :=
  mkPage text (verificationResult p).

(** [handleVerifyVoucher]: a blank input ends in a toast; otherwise the
    result is cleared, and set again when the request does not throw. *)
Definition handleVerifyVoucher (now : Timestamp) (p : Page) (db : Db) : Page * Db :=
  if String.eqb (trim (voucherCode p)) EmptyString then (p, db) else
  let (result, db') := Routes.verify (Some (trim (voucherCode p))) now db in
  if throws result then (mkPage (voucherCode p) None, db')
  else (mkPage (voucherCode p) (Some result), db').

(** The condition under which the page renders the redeem button;
    [now] is the [new Date()] of the render. *)
Definition redeemButton (now : Timestamp) (p : Page) : bool :=
  match verificationResult p with
  | Some result =>
    match valid result, voucher result with
    | Some true, Some shown =>
      (Storage.statusIs "active" (VoucherView.status shown)
       && negb (VoucherView.expiresAt shown <? now))%bool
    | _, _ => false
    end
  | None => false
  end.

(** [handleRedeemVoucher]: the request carries the text of the input as
    it is now; on success the voucher of the verification shown is
    marked used on the page, [pageAt] being the page's [new Date()]. *)
Definition handleRedeemVoucher (now writeAt replyAt pageAt : Timestamp) (p : Page) (db : Db)
    : Page * Db :=
  match verificationResult p with
  | None => (p, db)
  | Some prev =>
    match voucher prev with
    | None => (p, db)
    | Some shown =>
      let (result, db') :=
        Routes.redeem (Some (trim (voucherCode p))) (Some businessId)
          now writeAt replyAt db in
      if throws result then (p, db') else
      match success result with
      | Some true =>
        (mkPage (voucherCode p)
           (Some (mkReply (http prev) (message prev) (valid prev) (success prev)
                    (validFor prev) (Some (Routes.shownUsed pageAt shown)) (issued prev))),
         db')
      | _ => (p, db')
      end
    end
  end.

End Controls.

End Manual.

(** ** What the requests keep of the tables *)

Module Ledger.

(** The ways one request changes the voucher table: not at all, by the
    update of one [useVoucher], or by an insert under a new id and a new
    code. *)
Definition changes (vs vs' : list Voucher.t) : Prop :=
  vs' = vs
  \/ (exists voucherId now,
        vs' = map (fun v => if Storage.usable voucherId v then Storage.markUsed now v else v) vs)
  \/ (exists v,
        vs' = (vs ++ [v])%list
        /\ ~ In (Voucher.id v) (map Voucher.id vs)
        /\ ~ In (Voucher.code v) (map Voucher.code vs)).

(** The ways one request changes the vouchers that payments are for: not
    at all, or by one more payment for a stored voucher. *)
Definition pays (d d' : Db) : Prop :=
  map BusinessPayment.voucherId (business_payments d')
  = map BusinessPayment.voucherId (business_payments d)
  \/ exists voucherId,
       In voucherId (map Voucher.id (vouchers d))
       /\ map BusinessPayment.voucherId (business_payments d')
          = (map BusinessPayment.voucherId (business_payments d) ++ [voucherId])%list.

(** Every payment is for a stored voucher. *)
Definition referenced (d : Db) : Prop :=
  forall p, In p (business_payments d) ->
    In (BusinessPayment.voucherId p) (map Voucher.id (vouchers d)).

(** No two stored vouchers share an id or a code. *)
Definition distinct (d : Db) : Prop :=
  NoDup (map Voucher.id (vouchers d)) /\ NoDup (map Voucher.code (vouchers d)).

End Ledger.

(** ** A site for the examples: the scenario's rows, no favourite and no
    business account yet. *)

Module Demo.

Definition site : Site := mkSite Scenario.db [] [].

Definition hexDigitOf (n : nat) : ascii :=
  if Nat.ltb n 10 then ascii_of_nat (48 + n) else ascii_of_nat (87 + n).

(** Two hex digits per character. *)
Fixpoint hexOf (s : string) : string :=
  match s with
  | EmptyString => EmptyString
  | String c rest =>
    let n := nat_of_ascii c in
    String (hexDigitOf (n / 16)) (String (hexDigitOf (n mod 16)) (hexOf rest))
  end.

(** A stand-in for [pbkdf2Sync]: it prints salt and password in hex. *)
Definition pbkdf2 (password salt : string) : string := hexOf (salt ++ password).

(** The average in tenths as JS computes it. *)
Definition toFixed1 (total count : Z) : Z := Double.average1 total count.

Definition reviewed : Reviewed :=
  mkReviewed (users Scenario.db) (deals Scenario.db)
    (map (fun b => Listing.mk b (Some 0) (Some 0)) (businesses Scenario.db)) [].

End Demo.

(** * Properties *)

(** ** Lists as tables *)

Section Tables.

Context {A : Type}.
Variable hit : A -> bool.
Variable change : A -> A.

Lemma update_none (rows : list A) :
  (forall r, In r rows -> hit r = false) ->
  map (fun r => if hit r then change r else r) rows = rows.
Proof.
  induction rows as [|r rows IH]; intros H; simpl; [reflexivity|].
  rewrite (H r (or_introl eq_refl)).
  f_equal. apply IH. intros x Hx. apply H. right. exact Hx.
Qed.

Lemma returned_some (rows : list A) :
  Nat.ltb 0 (length (filter hit rows)) = true <-> exists r, In r rows /\ hit r = true.
Proof.
  split.
  - intros H. apply Nat.ltb_lt in H.
    destruct (filter hit rows) as [|r rest] eqn:E; [simpl in H; lia|].
    exists r. apply filter_In. rewrite E. left. reflexivity.
  - intros [r Hr]. apply Nat.ltb_lt. apply filter_In in Hr.
    destruct (filter hit rows); [destruct Hr | simpl; lia].
Qed.

Lemma returned_none (rows : list A) :
  Nat.ltb 0 (length (filter hit rows)) = false <-> forall r, In r rows -> hit r = false.
Proof.
  split.
  - intros H r Hr. destruct (hit r) eqn:E; [|reflexivity].
    assert (Nat.ltb 0 (length (filter hit rows)) = true) as T
      by (apply returned_some; exists r; auto).
    congruence.
  - intros H. destruct (Nat.ltb 0 (length (filter hit rows))) eqn:E; [|reflexivity].
    apply returned_some in E. destruct E as [r [Hr Hh]]. rewrite (H r Hr) in Hh. discriminate.
Qed.

Lemma update_at (rows : list A) (n : nat) (r : A) :
  nth_error rows n = Some r ->
  nth_error (map (fun r => if hit r then change r else r) rows) n
  = Some (if hit r then change r else r).
Proof.
  intros H. rewrite nth_error_map, H. reflexivity.
Qed.

End Tables.

(** ** useVoucher *)

Lemma statusIs_spec (s : string) (st : option string) :
  Storage.statusIs s st = true <-> st = Some s.
Proof.
  destruct st as [x|]; simpl.
  - rewrite String.eqb_eq. split; [intros ->; reflexivity | intros H; injection H; auto].
  - split; discriminate.
Qed.

Lemma usable_spec (voucherId : string) (v : Voucher.t) :
  Storage.usable voucherId v = true
  <-> Voucher.id v = voucherId /\ Voucher.status v = Some "active".
Proof.
  unfold Storage.usable. rewrite andb_true_iff, String.eqb_eq, statusIs_spec. reflexivity.
Qed.

Lemma usable_markUsed (voucherId : string) (now : Timestamp) (v : Voucher.t) :
  Storage.usable voucherId (Storage.markUsed now v) = false.
Proof.
  unfold Storage.usable, Storage.markUsed. simpl. apply andb_false_r.
Qed.

(** After [useVoucher] no row with that id is active any more. *)
Lemma useVoucher_spent (voucherId : string) (now : Timestamp) (db : Db) (v : Voucher.t) :
  In v (vouchers (snd (Storage.useVoucher voucherId now db))) ->
  Storage.usable voucherId v = false.
Proof.
  simpl. intros H. apply in_map_iff in H. destruct H as [w [E _]].
  destruct (Storage.usable voucherId w) eqn:U; subst v.
  - apply usable_markUsed.
  - exact U.
Qed.

Lemma useVoucher_false (voucherId : string) (now : Timestamp) (db : Db) :
  fst (Storage.useVoucher voucherId now db) = false ->
  snd (Storage.useVoucher voucherId now db) = db.
Proof.
  simpl. intros H. rewrite returned_none in H.
  rewrite update_none by exact H. destruct db; reflexivity.
Qed.

Lemma useVoucher_true (voucherId : string) (now : Timestamp) (db : Db) :
  fst (Storage.useVoucher voucherId now db) = true <-> Spec.activeIn db voucherId.
Proof.
  simpl. rewrite returned_some. unfold Spec.activeIn.
  split; intros [v [Hv H]]; exists v; (split; [exact Hv|]); apply usable_spec; exact H.
Qed.

(** The write of the redeem handler: the answer follows [useVoucher]'s. *)
Lemma redeemWrite_answers (voucher : VoucherView.t) (writeAt replyAt : Timestamp) (db : Db) :
  let used := Storage.useVoucher (VoucherView.id voucher) writeAt db in
  snd (Routes.redeemWrite voucher writeAt replyAt db) = snd used
  /\ (fst used = true ->
        fst (Routes.redeemWrite voucher writeAt replyAt db)
        = mkReply 200 (Some "Voucher redeemed successfully") None (Some true) None
            (Some (Routes.shownUsed replyAt voucher)) None)
  /\ (fst used = false ->
        fst (Routes.redeemWrite voucher writeAt replyAt db)
        = Routes.fail 400 "Failed to redeem voucher").
Proof.
  unfold Routes.redeemWrite.
  destruct (Storage.useVoucher (VoucherView.id voucher) writeAt db) as [ok db'].
  destruct ok; simpl; repeat split; auto; discriminate.
Qed.

(** C1.  The redemption transition is a compare-and-set on the status.
    [useVoucher voucherId] answers true exactly when a row with that id is
    stored with status "active"; such a row becomes "used" with [usedAt]
    stamped, every other row and every other table stays as it is, and a
    false answer leaves the store untouched.  A second attempt on the same
    id always answers false and changes nothing, so of two successive
    attempts on an active voucher exactly the first succeeds.  In the
    redeem route, of two handlers that both passed their checks on the
    voucher, the one that writes first answers success and the other one
    answers 400 "Failed to redeem voucher". *)
Theorem useVoucher_compare_and_set :
  forall (db : Db) (voucherId : string) (t1 t2 : Timestamp),
    let first := Storage.useVoucher voucherId t1 db in
    let second := Storage.useVoucher voucherId t2 (snd first) in
    (fst first = true <-> Spec.activeIn db voucherId)
    /\ (fst first = false -> snd first = db)
    /\ (forall n v, nth_error (vouchers db) n = Some v ->
          (Voucher.id v = voucherId -> Voucher.status v = Some "active" ->
             nth_error (vouchers (snd first)) n
             = Some (Voucher.mk (Voucher.id v) (Voucher.userId v) (Voucher.dealId v)
                       (Voucher.code v) (Some "used") (Voucher.purchasedAt v)
                       (Some t1) (Voucher.expiresAt v)))
          /\ (Voucher.id v <> voucherId \/ Voucher.status v <> Some "active" ->
                nth_error (vouchers (snd first)) n = Some v))
    /\ length (vouchers (snd first)) = length (vouchers db)
    /\ users (snd first) = users db
    /\ businesses (snd first) = businesses db
    /\ deals (snd first) = deals db
    /\ notifications (snd first) = notifications db
    /\ business_payments (snd first) = business_payments db
    /\ fst second = false
    /\ snd second = snd first
    /\ (Spec.activeIn db voucherId -> fst first = true /\ fst second = false)
    /\ (forall (voucher : VoucherView.t) (r1 r2 : Timestamp),
          VoucherView.id voucher = voucherId ->
          Spec.activeIn db voucherId ->
          let winner := Routes.redeemWrite voucher t1 r1 db in
          let loser := Routes.redeemWrite voucher t2 r2 (snd winner) in
          success (fst winner) = Some true
          /\ fst loser = Routes.fail 400 "Failed to redeem voucher"
          /\ snd loser = snd winner).
Proof.
  intros db voucherId t1 t2 first second.
  assert (fst second = false) as Second.
  { subst second. simpl. apply returned_none. intros v Hv.
    apply (useVoucher_spent voucherId t1 db). exact Hv. }
  split; [apply useVoucher_true|].
  split; [apply useVoucher_false|].
  split.
  { intros n v H. split.
    - intros Hid Hst. subst first. simpl.
      rewrite (update_at _ _ _ _ _ H).
      assert (Storage.usable voucherId v = true) as U by (apply usable_spec; auto).
      rewrite U. reflexivity.
    - intros Hno. subst first. simpl.
      rewrite (update_at _ _ _ _ _ H).
      destruct (Storage.usable voucherId v) eqn:U; [|reflexivity].
      apply usable_spec in U. destruct U, Hno; contradiction. }
  split; [subst first; simpl; apply length_map|].
  do 5 (split; [reflexivity|]).
  split; [exact Second|].
  split; [apply useVoucher_false; exact Second|].
  split.
  { intros H. split; [apply useVoucher_true; exact H | exact Second]. }
  intros voucher r1 r2 Hid Hact winner loser.
  destruct (redeemWrite_answers voucher t1 r1 db) as [W1 [T1 _]].
  rewrite Hid in W1, T1. fold first in W1, T1.
  assert (fst first = true) as First by (apply useVoucher_true; exact Hact).
  subst loser. subst winner.
  destruct (redeemWrite_answers voucher t2 r2 (snd (Routes.redeemWrite voucher t1 r1 db)))
    as [W2 [_ F2]].
  rewrite Hid, W1 in W2, F2. fold second in W2, F2.
  split; [rewrite (T1 First); reflexivity|].
  rewrite W1. split; [exact (F2 Second)|].
  rewrite W2. apply useVoucher_false. exact Second.
Qed.

(** ** The verifier *)

Lemma verify_reads_only (code : option string) (now : Timestamp) (db : Db) :
  snd (Routes.verify code now db) = db.
Proof.
  unfold Routes.verify.
  destruct code as [code|]; [|reflexivity].
  destruct (String.eqb code EmptyString); [reflexivity|].
  destruct (Storage.verifyVoucherByCode code db) as [v|]; [|reflexivity].
  destruct (VoucherView.expiresAt v <? now); [reflexivity|].
  destruct (Storage.statusIs "used" (VoucherView.status v)); [reflexivity|].
  destruct (negb (Storage.statusIs "active" (VoucherView.status v))); reflexivity.
Qed.

Lemma verifyVoucherByCode_lookup (code : string) (db : Db) :
  Storage.verifyVoucherByCode code db = option_map (Storage.view db) (Spec.lookup code db).
Proof. reflexivity. Qed.

Lemma verify_verdict (code : string) (now : Timestamp) (db : Db) :
  code <> EmptyString ->
  Spec.verdictOf (fst (Routes.verify (Some code) now db)) = Some (Spec.classify code now db).
Proof.
  intros Hcode. unfold Routes.verify, Spec.classify.
  apply String.eqb_neq in Hcode. rewrite Hcode.
  rewrite verifyVoucherByCode_lookup.
  destruct (Spec.lookup code db) as [v|]; simpl; [|reflexivity].
  destruct (Voucher.expiresAt v <? now); [reflexivity|].
  destruct (Voucher.status v) as [s|]; simpl; [|reflexivity].
  destruct (String.eqb s "used"); [reflexivity|].
  destruct (String.eqb s "active"); reflexivity.
Qed.

(** An expired voucher is classified expired, whatever its status. *)
Lemma verify_expired_regardless (code : string) (now : Timestamp) (db : Db) (v : Voucher.t) :
  code <> EmptyString ->
  Spec.lookup code db = Some v ->
  Voucher.expiresAt v < now ->
  Spec.verdictOf (fst (Routes.verify (Some code) now db)) = Some Spec.Expired.
Proof.
  intros Hcode Hv Hexp.
  rewrite (verify_verdict code now db Hcode).
  unfold Spec.classify. rewrite Hv.
  apply Z.ltb_lt in Hexp. rewrite Hexp. reflexivity.
Qed.

(** C2, as worded, fails on the empty code: the handler answers 400
    "Voucher code is required" before it looks anything up, where the
    classification says not found. *)
Lemma verify_empty_code_not_classified :
  ~ Spec.verifyClaim EmptyString Scenario.now Scenario.db
  /\ Spec.classify EmptyString Scenario.now Scenario.db = Spec.NotFound
  /\ http (fst (Routes.verify (Some EmptyString) Scenario.now Scenario.db)) = 400
  /\ message (fst (Routes.verify (Some EmptyString) Scenario.now Scenario.db))
     = Some "Voucher code is required".
Proof.
  repeat split.
  intros [H _]. vm_compute in H. discriminate H.
Qed.

(** C2, amended.  For every non-empty code string, verify classifies by
    first match in the order: no voucher with that code, not found;
    [expiresAt] earlier than now, expired, whatever the stored status;
    status "used", used; status not "active", inactive; otherwise valid.
    It leaves the store as it found it. *)
Theorem verify_classifies :
  forall (code : string) (now : Timestamp) (db : Db),
    code <> EmptyString ->
    Spec.verifyClaim code now db.
Proof.
  intros code now db Hcode. unfold Spec.verifyClaim.
  split; [apply verify_verdict; exact Hcode | apply verify_reads_only].
Qed.

Lemma verify_classifies_witness :
  "DS-1700000000000-AB12CD" <> EmptyString
  /\ Spec.verifyClaim "DS-1700000000000-AB12CD" Scenario.now Scenario.db.
Proof.
  split; [discriminate | apply verify_classifies; discriminate].
Defined.

(** ** The redeemer *)

Lemma redeemChecks_rejected (code businessId : option string) (now : Timestamp) (db : Db)
    (rejection : Reply) :
  Routes.redeemChecks code businessId now db = inl rejection ->
  success rejection = None.
Proof.
  unfold Routes.redeemChecks.
  destruct (falsy code || falsy businessId)%bool; [intros E; injection E as <-; reflexivity|].
  destruct code as [code|]; [|intros E; injection E as <-; reflexivity].
  destruct businessId as [businessId|]; [|intros E; injection E as <-; reflexivity].
  destruct (Storage.verifyVoucherByCode code db) as [v|];
    [|intros E; injection E as <-; reflexivity].
  destruct (VoucherView.business v) as [b|]; [|intros E; injection E as <-; reflexivity].
  destruct (negb (String.eqb (VoucherView.business_id b) businessId));
    [intros E; injection E as <-; reflexivity|].
  destruct (VoucherView.expiresAt v <? now); [intros E; injection E as <-; reflexivity|].
  destruct (negb (Storage.statusIs "active" (VoucherView.status v)));
    [intros E; injection E as <-; reflexivity | discriminate].
Qed.

Lemma redeem_rejection_writes_nothing
    (code businessId : option string) (now writeAt replyAt : Timestamp) (db : Db) :
  Spec.rejects (fst (Routes.redeem code businessId now writeAt replyAt db)) ->
  snd (Routes.redeem code businessId now writeAt replyAt db) = db.
Proof.
  unfold Routes.redeem, Spec.rejects.
  destruct (Routes.redeemChecks code businessId now db) as [rejection|v]; [reflexivity|].
  destruct (redeemWrite_answers v writeAt replyAt db) as [W [T F]].
  destruct (fst (Storage.useVoucher (VoucherView.id v) writeAt db)) eqn:U.
  - rewrite (T eq_refl). intros H. exfalso. apply H. reflexivity.
  - intros _. rewrite W. apply useVoucher_false. exact U.
Qed.

Lemma view_business (db : Db) (v : Voucher.t) :
  VoucherView.business (Storage.view db v)
  = option_map (fun b => VoucherView.mkBusiness (Business.id b) (Business.name b)
                           (Business.address b) (Business.city b)) (Spec.owner db v).
Proof.
  unfold Storage.view, Spec.owner, Storage.joinBusiness, Storage.joinDeal. simpl.
  destruct (find _ (deals db)); reflexivity.
Qed.

Lemma view_expiresAt (db : Db) (v : Voucher.t) :
  VoucherView.expiresAt (Storage.view db v) = Voucher.expiresAt v.
Proof. reflexivity. Qed.

Lemma view_status (db : Db) (v : Voucher.t) :
  VoucherView.status (Storage.view db v) = Voucher.status v.
Proof. reflexivity. Qed.

Lemma view_id (db : Db) (v : Voucher.t) :
  VoucherView.id (Storage.view db v) = Voucher.id v.
Proof. reflexivity. Qed.

Lemma lookup_stored (code : string) (db : Db) (v : Voucher.t) :
  Spec.lookup code db = Some v -> In v (vouchers db) /\ Voucher.code v = code.
Proof.
  intros H. apply find_some in H. destruct H as [H1 H2].
  split; [exact H1 | apply String.eqb_eq; exact H2].
Qed.

(** The write of a redeem request whose voucher passed the checks. *)
Lemma useVoucher_found (code : string) (now : Timestamp) (db : Db) (v : Voucher.t) :
  Spec.lookup code db = Some v ->
  Voucher.status v = Some "active" ->
  fst (Storage.useVoucher (Voucher.id v) now db) = true.
Proof.
  intros Hv Hs. apply useVoucher_true. exists v.
  destruct (lookup_stored _ _ _ Hv). auto.
Qed.

(** The checks decide as the specification orders them. *)
Lemma redeemChecks_decides (code businessId : string) (now : Timestamp) (db : Db) :
  code <> EmptyString ->
  businessId <> EmptyString ->
  match Routes.redeemChecks (Some code) (Some businessId) now db with
  | inl rejection => Spec.decisionOf rejection = Spec.decide code businessId now db
  | inr voucher =>
    Spec.decide code businessId now db = Some Spec.Redeems
    /\ exists v, Spec.lookup code db = Some v
         /\ voucher = Storage.view db v
         /\ Voucher.status v = Some "active"
  end.
Proof.
  intros Hcode Hbiz. unfold Routes.redeemChecks, Spec.decide. simpl falsy.
  apply String.eqb_neq in Hcode. apply String.eqb_neq in Hbiz.
  rewrite Hcode, Hbiz. cbn [orb].
  rewrite verifyVoucherByCode_lookup.
  destruct (Spec.lookup code db) as [v|] eqn:Hv; cbn [option_map]; [|reflexivity].
  rewrite view_business, view_expiresAt, view_status.
  destruct (Spec.owner db v) as [b|]; cbn [option_map]; [|reflexivity].
  cbn [VoucherView.business_id VoucherView.business_name].
  destruct (String.eqb (Business.id b) businessId); cbn [negb]; [|reflexivity].
  destruct (Voucher.expiresAt v <? now); [reflexivity|].
  destruct (Voucher.status v) as [s|] eqn:Hs; simpl; [|reflexivity].
  destruct (String.eqb s "active") eqn:Hact; simpl; [|reflexivity].
  apply String.eqb_eq in Hact. subst s.
  split; [reflexivity|]. exists v. auto.
Qed.

(** C3, as worded, fails on a request with an empty field: the handler
    answers 400 "Voucher code and business ID are required" before the
    first precondition. *)
Lemma redeem_empty_code_not_decided :
  ~ Spec.redeemClaim EmptyString "b1" Scenario.now Scenario.now Scenario.now Scenario.db
  /\ Spec.decide EmptyString "b1" Scenario.now Scenario.db = Some Spec.NoSuchVoucher
  /\ message (fst (Routes.redeem (Some EmptyString) (Some "b1")
                     Scenario.now Scenario.now Scenario.now Scenario.db))
     = Some "Voucher code and business ID are required".
Proof.
  repeat split.
  intros [H _]. vm_compute in H. discriminate H.
Qed.

(** C3, amended.  For every redemption request with a non-empty code and
    a non-empty business id, redeem checks in this order: the voucher
    exists (404 otherwise); its deal belongs to the claiming business (403
    otherwise, [validFor] naming the business it does belong to); it has
    not expired; its status is "active".  The reply carries no decision
    only where the voucher's deal or business is missing, which the foreign
    keys exclude.  Whatever the request, a rejection leaves the store, and
    so the voucher row, unchanged. *)
Theorem redeem_checks_in_order :
  forall (code businessId : string) (now writeAt replyAt : Timestamp) (db : Db),
    code <> EmptyString ->
    businessId <> EmptyString ->
    Spec.redeemClaim code businessId now writeAt replyAt db
    /\ (Spec.referential db = true -> Spec.decide code businessId now db <> None)
    /\ (forall code' businessId',
          Spec.rejects (fst (Routes.redeem code' businessId' now writeAt replyAt db)) ->
          snd (Routes.redeem code' businessId' now writeAt replyAt db) = db).
Proof.
  intros code businessId now writeAt replyAt db Hcode Hbiz.
  split; [|split].
  - split; [|apply redeem_rejection_writes_nothing].
    unfold Routes.redeem.
    pose proof (redeemChecks_decides code businessId now db Hcode Hbiz) as D.
    destruct (Routes.redeemChecks (Some code) (Some businessId) now db) as [rejection|voucher].
    + exact D.
    + destruct D as [D [v [Hv [Hw Hs]]]].
      destruct (redeemWrite_answers voucher writeAt replyAt db) as [_ [T _]].
      rewrite T; [rewrite D; reflexivity|].
      rewrite Hw, view_id. exact (useVoucher_found code writeAt db v Hv Hs).
  - intros Href. unfold Spec.decide.
    destruct (Spec.lookup code db) as [v|] eqn:Hv; [|discriminate].
    unfold Spec.referential in Href. rewrite forallb_forall in Href.
    specialize (Href v (proj1 (lookup_stored _ _ _ Hv))).
    destruct (Spec.owner db v) as [b|]; [|discriminate Href].
    destruct (negb (String.eqb (Business.id b) businessId)); [discriminate|].
    destruct (Voucher.expiresAt v <? now); [discriminate|].
    destruct (Voucher.status v) as [s|]; [|discriminate].
    destruct (String.eqb s "active"); discriminate.
  - intros code' businessId'. apply redeem_rejection_writes_nothing.
Qed.

(** The scenario of the specification: business [b2] redeeming the voucher
    of [b1] is told the name of [b1], and the store stays as it was. *)
Lemma redeem_checks_in_order_witness :
  "DS-1700000000000-AB12CD" <> EmptyString
  /\ "b2" <> EmptyString
  /\ Spec.redeemClaim "DS-1700000000000-AB12CD" "b2"
       Scenario.now Scenario.now Scenario.now Scenario.db
  /\ Spec.decide "DS-1700000000000-AB12CD" "b2" Scenario.now Scenario.db
     = Some (Spec.WrongBusiness "Bistro Een").
Proof.
  split; [discriminate|]. split; [discriminate|].
  split; [|reflexivity].
  apply (redeem_checks_in_order "DS-1700000000000-AB12CD" "b2"
           Scenario.now Scenario.now Scenario.now Scenario.db); discriminate.
Defined.

(** What a successful redeem request went through. *)
(** What a redeem request that passed its checks went through. *)
Lemma redeemChecks_passed (code businessId : option string) (now : Timestamp) (db : Db)
    (voucher : VoucherView.t) :
  Routes.redeemChecks code businessId now db = inr voucher ->
  exists c b v o,
    code = Some c /\ businessId = Some b
    /\ c <> EmptyString /\ b <> EmptyString
    /\ Spec.lookup c db = Some v
    /\ voucher = Storage.view db v
    /\ Spec.owner db v = Some o /\ Business.id o = b
    /\ now <= Voucher.expiresAt v
    /\ Voucher.status v = Some "active".
Proof.
  unfold Routes.redeemChecks.
  destruct code as [c|]; [|discriminate].
  destruct businessId as [b|]; [|simpl; rewrite orb_true_r; discriminate].
  simpl falsy.
  destruct (String.eqb c EmptyString) eqn:Hc; [discriminate|].
  destruct (String.eqb b EmptyString) eqn:Hb; [discriminate|].
  cbn [orb]. rewrite verifyVoucherByCode_lookup.
  destruct (Spec.lookup c db) as [v|] eqn:Hv; cbn [option_map]; [|discriminate].
  rewrite view_business, view_expiresAt, view_status.
  destruct (Spec.owner db v) as [o|] eqn:Ho; cbn [option_map]; [|discriminate].
  cbn [VoucherView.business_id].
  destruct (String.eqb (Business.id o) b) eqn:Hob; cbn [negb]; [|discriminate].
  destruct (Voucher.expiresAt v <? now) eqn:Hexp; [discriminate|].
  destruct (Storage.statusIs "active" (Voucher.status v)) eqn:Hs; cbn [negb]; [|discriminate].
  intros E. injection E as <-.
  exists c, b, v, o.
  apply String.eqb_neq in Hc. apply String.eqb_neq in Hb.
  apply String.eqb_eq in Hob. apply Z.ltb_ge in Hexp. apply statusIs_spec in Hs.
  repeat split; auto.
Qed.

(** What a successful redeem request went through. *)
Lemma redeem_success (code businessId : option string)
    (now writeAt replyAt : Timestamp) (db : Db) :
  success (fst (Routes.redeem code businessId now writeAt replyAt db)) = Some true ->
  exists c b v o,
    code = Some c /\ businessId = Some b
    /\ c <> EmptyString /\ b <> EmptyString
    /\ Spec.lookup c db = Some v
    /\ Spec.owner db v = Some o /\ Business.id o = b
    /\ now <= Voucher.expiresAt v
    /\ Voucher.status v = Some "active"
    /\ snd (Routes.redeem code businessId now writeAt replyAt db)
       = snd (Storage.useVoucher (Voucher.id v) writeAt db).
Proof.
  unfold Routes.redeem.
  destruct (Routes.redeemChecks code businessId now db) as [rejection|voucher] eqn:C.
  - cbn [fst]. rewrite (redeemChecks_rejected _ _ _ _ _ C). discriminate.
  - intros _.
    destruct (redeemChecks_passed _ _ _ _ _ C)
      as [c [b [v [o [Ec [Eb [Hc [Hb [Hv [Hw [Ho [Hid [Hexp Hs]]]]]]]]]]]]].
    exists c, b, v, o.
    destruct (redeemWrite_answers voucher writeAt replyAt db) as [W _].
    rewrite W, Hw, view_id.
    repeat split; auto.
Qed.

Section Finding.

Context {A : Type}.
Variable wanted : A -> bool.

Lemma find_update (change : A -> A) (rows : list A) :
  (forall r, wanted (change r) = wanted r) ->
  find wanted (map change rows) = option_map change (find wanted rows).
Proof.
  intros H. induction rows as [|r rows IH]; simpl; [reflexivity|].
  rewrite H. destruct (wanted r); [reflexivity | exact IH].
Qed.

Lemma find_insert (rows : list A) (r new : A) :
  find wanted rows = Some r -> find wanted (rows ++ [new]) = Some r.
Proof.
  induction rows as [|x rows IH]; simpl; [discriminate|].
  destruct (wanted x); [auto | exact IH].
Qed.

End Finding.

(** The row a code resolves to after [useVoucher] on its id. *)
Lemma lookup_useVoucher (code voucherId : string) (now : Timestamp) (db : Db) :
  Spec.lookup code (snd (Storage.useVoucher voucherId now db))
  = option_map (fun v => if Storage.usable voucherId v then Storage.markUsed now v else v)
      (Spec.lookup code db).
Proof.
  unfold Spec.lookup. simpl. apply find_update.
  intros v. destruct (Storage.usable voucherId v); reflexivity.
Qed.

Lemma lookup_redeemed (code : string) (now : Timestamp) (db : Db) (v : Voucher.t) :
  Spec.lookup code db = Some v ->
  Voucher.status v = Some "active" ->
  Spec.lookup code (snd (Storage.useVoucher (Voucher.id v) now db))
  = Some (Storage.markUsed now v).
Proof.
  intros Hv Hs. rewrite lookup_useVoucher, Hv. simpl.
  assert (Storage.usable (Voucher.id v) v = true) as U by (apply usable_spec; auto).
  rewrite U. reflexivity.
Qed.

(** C4, as worded, fails: the redeem route marks the voucher used and
    writes nothing else.  In the scenario the redemption by [b1] succeeds
    and leaves no notification and no payment behind. *)
Lemma redeem_route_no_side_effects :
  ~ Spec.redeemEffectsClaim "DS-1700000000000-AB12CD" "b1"
      Scenario.now Scenario.now Scenario.now Scenario.db
  /\ success (fst (Routes.redeem (Some "DS-1700000000000-AB12CD") (Some "b1")
                     Scenario.now Scenario.now Scenario.now Scenario.db)) = Some true
  /\ notifications (snd (Routes.redeem (Some "DS-1700000000000-AB12CD") (Some "b1")
                           Scenario.now Scenario.now Scenario.now Scenario.db)) = []
  /\ business_payments (snd (Routes.redeem (Some "DS-1700000000000-AB12CD") (Some "b1")
                               Scenario.now Scenario.now Scenario.now Scenario.db)) = [].
Proof.
  repeat split.
  intros H. unfold Spec.redeemEffectsClaim in H.
  destruct (H eq_refl _ _ eq_refl eq_refl) as [_ [[n [Hn _]] _]].
  exact Hn.
Qed.

(** ** The scanner page *)

Lemma verify_valid (code : option string) (now : Timestamp) (db : Db) :
  valid (fst (Routes.verify code now db)) = Some true ->
  exists c v,
    code = Some c /\ c <> EmptyString
    /\ Spec.lookup c db = Some v
    /\ voucher (fst (Routes.verify code now db)) = Some (Storage.view db v)
    /\ now <= Voucher.expiresAt v
    /\ Voucher.status v = Some "active".
Proof.
  unfold Routes.verify.
  destruct code as [c|]; [|discriminate].
  destruct (String.eqb c EmptyString) eqn:Hc; [discriminate|].
  rewrite verifyVoucherByCode_lookup.
  destruct (Spec.lookup c db) as [v|] eqn:Hv; cbn [option_map]; [|discriminate].
  rewrite view_expiresAt, view_status.
  destruct (Voucher.expiresAt v <? now) eqn:Hexp; [discriminate|].
  destruct (Storage.statusIs "used" (Voucher.status v)); [discriminate|].
  destruct (Storage.statusIs "active" (Voucher.status v)) eqn:Hs; cbn [negb]; [|discriminate].
  intros _. exists c, v.
  apply String.eqb_neq in Hc. apply Z.ltb_ge in Hexp. apply statusIs_spec in Hs.
  repeat split; auto.
Qed.

Section Pages.

Variable throws : Reply -> bool.
Variable trim : string -> string.
Variable businessId : string.

Lemma afterScan_writes_nothing (code : string) (now : Timestamp) (db : Db) :
  snd (Scanner.afterScan throws trim businessId code now db) = db.
Proof.
  unfold Scanner.afterScan.
  pose proof (verify_reads_only (Some (trim code)) now db) as R.
  destruct (Routes.verify (Some (trim code)) now db) as [r d]. simpl in R. subst d.
  destruct (throws r); [reflexivity|].
  destruct (valid r) as [[|]|]; try reflexivity.
  destruct (voucher r) as [v|]; [|reflexivity].
  destruct (VoucherView.business v) as [b|]; [|reflexivity].
  destruct (negb (String.eqb (VoucherView.business_id b) businessId)); reflexivity.
Qed.

Lemma afterScan_verified (code : string) (now : Timestamp) (db : Db)
    (c : string) (verification : VoucherView.t) (db' : Db) :
  Scanner.afterScan throws trim businessId code now db = (Scanner.Verified c verification, db') ->
  c = code /\ db' = db
  /\ exists v o,
       Spec.lookup (trim code) db = Some v
       /\ verification = Storage.view db v
       /\ Spec.owner db v = Some o /\ Business.id o = businessId.
Proof.
  intros H.
  pose proof (afterScan_writes_nothing code now db) as W. rewrite H in W. simpl in W.
  revert H. unfold Scanner.afterScan.
  pose proof (verify_valid (Some (trim code)) now db) as V.
  destruct (Routes.verify (Some (trim code)) now db) as [r d]. simpl in V.
  destruct (throws r); [discriminate|].
  destruct (valid r) as [[|]|]; try discriminate.
  destruct (V eq_refl) as [c0 [v [Ec [_ [Hv [Hr _]]]]]].
  injection Ec as <-. rewrite Hr.
  rewrite view_business.
  destruct (Spec.owner db v) as [o|] eqn:Ho; cbn [option_map]; [|discriminate].
  cbn [VoucherView.business_id].
  destruct (String.eqb (Business.id o) businessId) eqn:Hob; cbn [negb]; [|discriminate].
  intros E. injection E as <- <- _.
  apply String.eqb_eq in Hob.
  split; [reflexivity|]. split; [exact W|].
  exists v, o. auto.
Qed.

Lemma afterScan_stage (code : string) (now : Timestamp) (db : Db) :
  fst (Scanner.afterScan throws trim businessId code now db) = Scanner.Finished
  \/ exists verification,
       fst (Scanner.afterScan throws trim businessId code now db)
       = Scanner.Verified code verification.
Proof.
  unfold Scanner.afterScan.
  destruct (Routes.verify (Some (trim code)) now db) as [r d].
  destruct (throws r); [left; reflexivity|].
  destruct (valid r) as [[|]|]; try (left; reflexivity).
  destruct (voucher r) as [v|]; [|left; reflexivity].
  destruct (VoucherView.business v) as [b|]; [|left; reflexivity].
  destruct (negb (String.eqb (VoucherView.business_id b) businessId));
    [left; reflexivity | right; exists v; reflexivity].
Qed.

Lemma afterRedeem_rejected (verification : VoucherView.t) (r : Reply) :
  success r = None -> Scanner.afterRedeem throws verification r = Scanner.Finished.
Proof.
  intros H. unfold Scanner.afterRedeem. rewrite H. destruct (throws r); reflexivity.
Qed.

Lemma redeemSent_stage (code : string) (verification : VoucherView.t)
    (now : Timestamp) (db : Db) :
  snd (Scanner.redeemSent throws trim businessId code verification now db) = db
  /\ (fst (Scanner.redeemSent throws trim businessId code verification now db) = Scanner.Finished
      \/ exists voucher,
           fst (Scanner.redeemSent throws trim businessId code verification now db)
           = Scanner.Redeeming verification voucher
           /\ Routes.redeemChecks (Some (trim code)) (Some businessId) now db = inr voucher).
Proof.
  unfold Scanner.redeemSent.
  destruct (Routes.redeemChecks (Some (trim code)) (Some businessId) now db)
    as [rejection|voucher] eqn:C; simpl.
  - split; [reflexivity|]. left. apply afterRedeem_rejected.
    exact (redeemChecks_rejected _ _ _ _ _ C).
  - split; [reflexivity|]. right. exists voucher. auto.
Qed.

Lemma redeemAnswered_stage (verification voucher : VoucherView.t)
    (writeAt replyAt : Timestamp) (db : Db) :
  let used := Storage.useVoucher (VoucherView.id voucher) writeAt db in
  snd (Scanner.redeemAnswered throws verification voucher writeAt replyAt db) = snd used
  /\ (fst (Scanner.redeemAnswered throws verification voucher writeAt replyAt db)
      = Scanner.Finished
      \/ (fst (Scanner.redeemAnswered throws verification voucher writeAt replyAt db)
          = Scanner.Redeemed verification
          /\ fst used = true)).
Proof.
  unfold Scanner.redeemAnswered.
  destruct (redeemWrite_answers voucher writeAt replyAt db) as [W [T F]].
  destruct (Routes.redeemWrite voucher writeAt replyAt db) as [r d'].
  cbn [fst snd] in *.
  split; [exact W|].
  destruct (fst (Storage.useVoucher (VoucherView.id voucher) writeAt db)).
  - rewrite (T eq_refl). unfold Scanner.afterRedeem.
    destruct (throws _); [left; reflexivity | right; split; reflexivity].
  - left. rewrite (F eq_refl). apply afterRedeem_rejected. reflexivity.
Qed.

(** The page's first two requests ended in a redemption. *)
Lemma verifyAndRedeem_redeemed (code : string) (e1 e2 : Scanner.Env) (db : Db)
    (verification : VoucherView.t) (db2 : Db) :
  Scanner.verifyAndRedeem throws trim businessId code e1 e2 db
  = (Scanner.Redeemed verification, db2) ->
  exists v o,
    Spec.lookup (trim code) db = Some v
    /\ verification = Storage.view db v
    /\ Spec.owner db v = Some o /\ Business.id o = businessId
    /\ Voucher.status v = Some "active"
    /\ db2 = snd (Storage.useVoucher (Voucher.id v) (Scanner.writeAt e2) db).
Proof.
  unfold Scanner.verifyAndRedeem. cbn [Scanner.advance].
  destruct (Scanner.afterScan throws trim businessId code (Scanner.now e1) db)
    as [s1 db1] eqn:E1.
  destruct (afterScan_stage code (Scanner.now e1) db) as [F|[w F]];
    rewrite E1 in F; simpl in F; subst s1; [discriminate|].
  cbn [Scanner.advance].
  apply afterScan_verified in E1. destruct E1 as [_ [-> [v [o [Hv [Hw [Ho Hid]]]]]]].
  destruct (redeemSent_stage code w (Scanner.now e2) db) as [D [F|[voucher [F C]]]];
    destruct (Scanner.redeemSent throws trim businessId code w (Scanner.now e2) db) as [s2 d2];
    simpl in D, F; subst s2 d2; [discriminate|].
  cbn [Scanner.advance].
  destruct (redeemAnswered_stage w voucher (Scanner.writeAt e2) (Scanner.replyAt e2) db)
    as [D [F|[F U]]];
    destruct (Scanner.redeemAnswered throws w voucher (Scanner.writeAt e2)
                (Scanner.replyAt e2) db) as [s3 d3];
    simpl in D, F; subst s3 d3; [discriminate|].
  intros E. injection E as <- <-.
  destruct (redeemChecks_passed _ _ _ _ _ C)
    as [c [b [v' [o' [Ec [_ [_ [_ [Hv' [Hvoucher [_ [_ [_ Hs]]]]]]]]]]]]].
  injection Ec as <-. rewrite Hv in Hv'. injection Hv' as <-.
  exists v, o. rewrite Hvoucher, view_id.
  repeat split; auto.
Qed.

End Pages.

(** ** The two side-effect routes *)

Lemma notify_stores (userId title text type uuid : string) (dbNow : Timestamp) (db : Db) :
  existsb (fun n => String.eqb (Notification.id n) uuid) (notifications db) = false ->
  existsb (fun u => String.eqb (User.id u) userId) (users db) = true ->
  snd (Routes.notify (Some userId) (Some title) (Some text) (Some type) uuid dbNow db)
  = set_notifications
      (notifications db
       ++ [Notification.mk uuid userId title text type (Some false) (Some dbNow)]) db.
Proof.
  intros Hfresh Huser. unfold Routes.notify, Storage.createNotification. simpl.
  rewrite Hfresh, Huser. reflexivity.
Qed.

Lemma payout_stores (businessId voucherId : string) (amount : Decimal)
    (description : option string) (uuid : string) (createdAt : Timestamp) (db : Db) :
  existsb (fun p => String.eqb (BusinessPayment.id p) uuid) (business_payments db) = false ->
  existsb (fun b => String.eqb (Business.id b) businessId) (businesses db) = true ->
  existsb (fun v => String.eqb (Voucher.id v) voucherId) (vouchers db) = true ->
  snd (Routes.payout (Some businessId) (Some voucherId) (Some amount) description
         uuid createdAt db)
  = set_business_payments
      (business_payments db
       ++ [BusinessPayment.mk uuid businessId voucherId amount description None
             (Some "completed") (Some createdAt)]) db.
Proof.
  intros Hfresh Hbiz Hv. unfold Routes.payout, Storage.createBusinessPayment. simpl.
  rewrite Hfresh, Hbiz, Hv. simpl.
  unfold set_business_payments. simpl. f_equal.
  rewrite map_app. simpl. rewrite String.eqb_refl. f_equal.
  apply update_none. intros p Hp.
  destruct (String.eqb (BusinessPayment.id p) uuid) eqn:E; [|reflexivity].
  rewrite <- Hfresh. symmetry. apply existsb_exists. exists p. split; assumption.
Qed.

Lemma fresh_id {A : Type} (id : A -> string) (uuid : string) (rows : list A) :
  ~ In uuid (map id rows) ->
  existsb (fun r => String.eqb (id r) uuid) rows = false.
Proof.
  intros H. destruct (existsb _ rows) eqn:E; [|reflexivity].
  apply existsb_exists in E. destruct E as [r [Hr He]].
  apply String.eqb_eq in He. exfalso. apply H. rewrite <- He. apply in_map. exact Hr.
Qed.

Lemma stored_id {A : Type} (id : A -> string) (r : A) (rows : list A) :
  In r rows -> existsb (fun x => String.eqb (id x) (id r)) rows = true.
Proof.
  intros H. apply existsb_exists. exists r. split; [exact H | apply String.eqb_refl].
Qed.

(** [useVoucher] keeps every row's id. *)
Lemma useVoucher_keeps_ids (voucherId : string) (now : Timestamp) (db : Db) :
  map Voucher.id (vouchers (snd (Storage.useVoucher voucherId now db)))
  = map Voucher.id (vouchers db).
Proof.
  simpl. rewrite map_map. apply map_ext. intros v.
  destruct (Storage.usable voucherId v); reflexivity.
Qed.

Lemma id_stored {A : Type} (id : A -> string) (wanted : string) (rows : list A) :
  existsb (fun x => String.eqb (id x) wanted) rows = true <-> In wanted (map id rows).
Proof.
  rewrite existsb_exists, in_map_iff.
  split; intros [x [H1 H2]]; exists x.
  - apply String.eqb_eq in H2. auto.
  - split; [exact H2 | apply String.eqb_eq; exact H1].
Qed.

Lemma owner_deal (db : Db) (v : Voucher.t) (o : Business.t) :
  Spec.owner db v = Some o ->
  exists d, Storage.joinDeal db v = Some d
    /\ find (fun b => String.eqb (Business.id b) (Deal.businessId d)) (businesses db) = Some o.
Proof.
  unfold Spec.owner, Storage.joinDeal.
  destruct (find _ (deals db)) as [d|]; [|discriminate].
  intros H. exists d. auto.
Qed.

(** C4, amended.  After every successful redemption through
    POST /api/business/vouchers/redeem the voucher's status is "used" and
    its [usedAt] is the time of the write; the route writes no notification
    and no payment.  Those rows come from the scanner page: when the redeem
    request of [handleAutoRedeemVoucher] succeeds, the page posts a
    notification to the voucher's owning user whose message quotes the
    deal's title, and a payment for its business and the deal's discounted
    price that the payment route marks "completed".  Both rows exist
    afterwards when the foreign keys hold and the two new ids are unused. *)
Theorem redeem_marks_used_scanner_pays :
  (forall (code businessId : string) (now writeAt replyAt : Timestamp) (db : Db),
     let r := Routes.redeem (Some code) (Some businessId) now writeAt replyAt db in
     success (fst r) = Some true ->
     exists v,
       Spec.lookup code db = Some v
       /\ Spec.lookup code (snd r)
          = Some (Voucher.mk (Voucher.id v) (Voucher.userId v) (Voucher.dealId v)
                    (Voucher.code v) (Some "used") (Voucher.purchasedAt v)
                    (Some writeAt) (Voucher.expiresAt v))
       /\ Spec.usedIn (snd r) code
       /\ notifications (snd r) = notifications db
       /\ business_payments (snd r) = business_payments db)
  /\
  (forall (throws : Reply -> bool) (trim : string -> string) (businessId code : string)
          (e1 e2 e3 e4 : Scanner.Env) (db : Db)
          (verification : VoucherView.t) (db2 : Db),
     Scanner.verifyAndRedeem throws trim businessId code e1 e2 db
     = (Scanner.Redeemed verification, db2) ->
     Spec.referential db = true ->
     ~ In (Scanner.uuid e3) (map Notification.id (notifications db)) ->
     ~ In (Scanner.uuid e4) (map BusinessPayment.id (business_payments db)) ->
     let db4 :=
       snd (Scanner.handleAutoRedeemVoucher throws trim businessId code e1 e2 e3 e4 db) in
     exists v d,
       Spec.lookup (trim code) db = Some v
       /\ Storage.joinDeal db v = Some d
       /\ Spec.usedIn db4 (trim code)
       /\ Spec.notified db4 (Voucher.userId v) (Deal.title d)
       /\ Spec.paidOut db4 businessId (Deal.discountedPrice d)).
Proof.
  split.
  - intros code businessId now writeAt replyAt db r S.
    destruct (redeem_success _ _ _ _ _ _ S)
      as [c [b [v [o [Ec [_ [_ [_ [Hv [_ [_ [_ [Hs Hdb]]]]]]]]]]]]].
    injection Ec as <-. subst r. rewrite Hdb.
    exists v. split; [exact Hv|].
    pose proof (lookup_redeemed code writeAt db v Hv Hs) as L.
    split; [exact L|]. split; [|split; reflexivity].
    exists (Storage.markUsed writeAt v). split; [exact L|].
    split; [reflexivity | discriminate].
  - intros throws trim businessId code e1 e2 e3 e4 db verification db2 H Href F3 F4 db4.
    destruct (verifyAndRedeem_redeemed _ _ _ _ _ _ _ _ _ H)
      as [v [o [Hv [Hw [Ho [Hid [Hs Hdb2]]]]]]].
    destruct (lookup_stored _ _ _ Hv) as [Hin _].
    destruct (owner_deal _ _ _ Ho) as [d [Hd Hb]].
    unfold Spec.referential in Href. rewrite forallb_forall in Href.
    specialize (Href v Hin). rewrite Ho in Href.
    destruct (Storage.joinUser db v) as [u|] eqn:Hu; [clear Href | discriminate Href].
    assert (verification
            = VoucherView.mk (Voucher.id v) (Voucher.code v) (Voucher.status v)
                (Voucher.purchasedAt v) (Voucher.usedAt v) (Voucher.expiresAt v)
                (Some (VoucherView.mkDeal (Deal.id d) (Deal.title d) (Deal.description d)
                         (Deal.originalPrice d) (Deal.discountedPrice d)
                         (Deal.discountPercentage d)))
                (Some (VoucherView.mkBusiness (Business.id o) (Business.name o)
                         (Business.address o) (Business.city o)))
                (Some (VoucherView.mkUser (User.id u) (User.email u)))) as Hview.
    { rewrite Hw. unfold Storage.view. rewrite Hd, Hu.
      unfold Storage.joinBusiness. rewrite Hb. reflexivity. }
    assert (User.id u = Voucher.userId v) as Huid.
    { apply find_some in Hu. apply String.eqb_eq. apply Hu. }
    assert (In u (users db)) as Huin by (apply find_some in Hu; apply Hu).
    assert (In o (businesses db)) as Hoin by (apply find_some in Hb; apply Hb).
    exists v, d. split; [exact Hv|]. split; [exact Hd|].
    subst db4. unfold Scanner.handleAutoRedeemVoucher. rewrite H.
    cbn [Scanner.advance snd].
    unfold Scanner.sendRedemptionNotification, Scanner.processBusinessPayment.
    rewrite Hview. cbn [VoucherView.user VoucherView.deal VoucherView.business
                        VoucherView.user_id VoucherView.deal_title VoucherView.business_name
                        VoucherView.deal_discountedPrice VoucherView.id].
    rewrite notify_stores.
    2:{ subst db2. apply fresh_id. exact F3. }
    2:{ subst db2. apply (stored_id User.id u). exact Huin. }
    rewrite payout_stores.
    2:{ subst db2. apply fresh_id. exact F4. }
    2:{ subst db2. simpl. rewrite <- Hid. apply (stored_id Business.id o). exact Hoin. }
    2:{ apply id_stored. cbn [vouchers set_notifications]. subst db2.
        rewrite useVoucher_keeps_ids. apply in_map. exact Hin. }
    split; [|split].
    + exists (Storage.markUsed (Scanner.writeAt e2) v).
      split; [|split; [reflexivity | discriminate]].
      subst db2. exact (lookup_redeemed (trim code) (Scanner.writeAt e2) db v Hv Hs).
    + eexists. split; [|split].
      * cbn [notifications set_business_payments set_notifications].
        apply in_or_app. right. left. reflexivity.
      * cbn [Notification.userId]. exact Huid.
      * cbn [Notification.message].
        exists ("Uw voucher voor " ++ Scanner.quote)%string,
               (Scanner.quote ++ " is succesvol gebruikt bij " ++ Business.name o)%string.
        reflexivity.
    + eexists. split; [|split; [|split]].
      * cbn [business_payments set_business_payments].
        apply in_or_app. right. left. reflexivity.
      * reflexivity.
      * reflexivity.
      * reflexivity.
Qed.

Lemma redeem_marks_used_scanner_pays_witness :
  let db4 :=
    snd (Scanner.handleAutoRedeemVoucher Scenario.throws Scenario.trim "b1"
           "DS-1700000000000-AB12CD"
           (Scenario.env "r1") (Scenario.env "r2") (Scenario.env "n1") (Scenario.env "p1")
           Scenario.db) in
  Spec.referential Scenario.db = true
  /\ Spec.usedIn db4 "DS-1700000000000-AB12CD"
  /\ Spec.notified db4 "u1" "Diner voor twee"
  /\ Spec.paidOut db4 "b1" 2500.
Proof.
  intros db4. split; [reflexivity|].
  destruct (proj2 redeem_marks_used_scanner_pays
              Scenario.throws Scenario.trim "b1" "DS-1700000000000-AB12CD"
              (Scenario.env "r1") (Scenario.env "r2") (Scenario.env "n1") (Scenario.env "p1")
              Scenario.db
              (Storage.view Scenario.db
                 (Voucher.mk "v1" "u1" "d1" "DS-1700000000000-AB12CD" (Some "active")
                    (Some 1700000000000) None (Scenario.now + Scenario.day)))
              (snd (Storage.useVoucher "v1" Scenario.now Scenario.db))
              eq_refl eq_refl)
    as [v [d [Hv [Hd H]]]].
  - simpl. intros F. exact F.
  - simpl. intros F. exact F.
  - vm_compute in Hv. injection Hv as <-.
    vm_compute in Hd. injection Hd as <-.
    exact H.
Defined.

(** The scenario of the specification, through the scanner page of [b1]:
    the redemption succeeds, the voucher is used, and exactly one
    notification and one payment are written. *)
Example scenario_redeemed_by_b1 :
  let done :=
    Scanner.handleAutoRedeemVoucher Scenario.throws Scenario.trim "b1"
      "DS-1700000000000-AB12CD"
      (Scenario.env "r1") (Scenario.env "r2") (Scenario.env "n1") (Scenario.env "p1")
      Scenario.db in
  fst done = Scanner.Finished
  /\ option_map Voucher.status (Spec.lookup "DS-1700000000000-AB12CD" (snd done))
     = Some (Some "used")
  /\ length (notifications (snd done)) = 1%nat
  /\ length (business_payments (snd done)) = 1%nat.
Proof. repeat split. Qed.

(** ** Submitting a redeemed code again *)

Lemma prefix_append (s rest : string) : prefix s (s ++ rest) = true.
Proof.
  induction s as [|c s IH]; simpl; [destruct rest; reflexivity|].
  destruct (ascii_dec c c) as [_|N]; [exact IH | exfalso; apply N; reflexivity].
Qed.

Lemma occurs_here (needle text : string) :
  prefix needle text = true -> Spec.occurs needle text = true.
Proof.
  intros H. destruct text as [|c rest].
  - change (Spec.occurs needle EmptyString) with (prefix needle EmptyString || false)%bool.
    rewrite H. reflexivity.
  - change (Spec.occurs needle (String c rest))
      with (prefix needle (String c rest) || Spec.occurs needle rest)%bool.
    rewrite H. reflexivity.
Qed.

Lemma mentions_occurs (text needle : string) :
  Spec.mentions text needle -> Spec.occurs needle text = true.
Proof.
  intros [before [after ->]].
  induction before as [|c before IH].
  - apply occurs_here. exact (prefix_append needle after).
  - change (Spec.occurs needle (String c before ++ needle ++ after))
      with (prefix needle (String c (before ++ needle ++ after))
            || Spec.occurs needle (before ++ needle ++ after))%bool.
    rewrite IH. apply orb_true_r.
Qed.

(** C5, as worded, fails on the report: the redeem route has no "already
    used" answer.  A second submission in the scenario is answered
    "Voucher is not active" before the expiry and "Voucher has expired"
    after it. *)
Lemma resubmit_not_reported_used :
  let code := "DS-1700000000000-AB12CD" in
  let first :=
    Routes.redeem (Some code) (Some "b1") Scenario.now Scenario.now Scenario.now Scenario.db in
  let soon := Scenario.now + 1 in
  let late := Scenario.now + 2 * Scenario.day in
  ~ Spec.resubmitClaim code "b1" Scenario.now Scenario.now Scenario.now
      soon soon soon Scenario.db
  /\ ~ Spec.resubmitClaim code "b1" Scenario.now Scenario.now Scenario.now
         late late late Scenario.db
  /\ success (fst first) = Some true
  /\ message (fst (Routes.redeem (Some code) (Some "b1") soon soon soon (snd first)))
     = Some "Voucher is not active"
  /\ message (fst (Routes.redeem (Some code) (Some "b1") late late late (snd first)))
     = Some "Voucher has expired".
Proof.
  intros code first soon late.
  split; [|split; [|repeat split]].
  - intros H. destruct (H eq_refl) as [[m [Hm Hmen]] _].
    vm_compute in Hm. injection Hm as <-.
    apply mentions_occurs in Hmen. vm_compute in Hmen. discriminate Hmen.
  - intros H. destruct (H eq_refl) as [[m [Hm Hmen]] _].
    vm_compute in Hm. injection Hm as <-.
    apply mentions_occurs in Hmen. vm_compute in Hmen. discriminate Hmen.
Qed.

(** C5, amended.  For every voucher already successfully redeemed,
    submitting the same code for the same business again is rejected with
    status 400, whenever it comes: the message is "Voucher has expired" if
    the voucher's [expiresAt] is earlier than the time of the request and
    "Voucher is not active" otherwise.  The request writes nothing: the
    voucher keeps the status and the [usedAt] of its redemption, and no
    payment row is added. *)
Theorem resubmit_rejected :
  forall (code businessId : string)
         (now writeAt replyAt now' writeAt' replyAt' : Timestamp) (db : Db),
    let first := Routes.redeem (Some code) (Some businessId) now writeAt replyAt db in
    let second :=
      Routes.redeem (Some code) (Some businessId) now' writeAt' replyAt' (snd first) in
    success (fst first) = Some true ->
    exists v,
      Spec.lookup code db = Some v
      /\ http (fst second) = 400
      /\ message (fst second)
         = Some (if Voucher.expiresAt v <? now'
                 then "Voucher has expired" else "Voucher is not active")
      /\ success (fst second) = None
      /\ snd second = snd first
      /\ Spec.lookup code (snd second)
         = Some (Voucher.mk (Voucher.id v) (Voucher.userId v) (Voucher.dealId v)
                   (Voucher.code v) (Some "used") (Voucher.purchasedAt v)
                   (Some writeAt) (Voucher.expiresAt v))
      /\ business_payments (snd second) = business_payments db.
Proof.
  intros code businessId now writeAt replyAt now' writeAt' replyAt' db first second S.
  destruct (redeem_success _ _ _ _ _ _ S)
    as [c [b [v [o [Ec [Eb [Hc [Hb [Hv [Ho [Hid [_ [Hs Hdb]]]]]]]]]]]]].
  injection Ec as <-. injection Eb as <-.
  exists v. split; [exact Hv|].
  pose proof (lookup_redeemed code writeAt db v Hv Hs) as L.
  assert (second
          = (Routes.fail 400 (if Voucher.expiresAt v <? now'
                              then "Voucher has expired" else "Voucher is not active"),
             snd first)) as E.
  { subst second. subst first. rewrite Hdb.
    unfold Routes.redeem at 1, Routes.redeemChecks. simpl falsy.
    apply String.eqb_neq in Hc. apply String.eqb_neq in Hb. rewrite Hc, Hb. cbn [orb].
    rewrite verifyVoucherByCode_lookup, L. cbn [option_map].
    rewrite view_business, view_expiresAt, view_status.
    change (Spec.owner (snd (Storage.useVoucher (Voucher.id v) writeAt db))
              (Storage.markUsed writeAt v)) with (Spec.owner db v).
    rewrite Ho. cbn [option_map VoucherView.business_id].
    apply String.eqb_eq in Hid. rewrite Hid. cbn [negb].
    cbn [Storage.markUsed Voucher.expiresAt Voucher.status].
    destruct (Voucher.expiresAt v <? now'); reflexivity. }
  rewrite E. cbn [fst snd].
  split; [reflexivity|]. split; [reflexivity|]. split; [reflexivity|].
  split; [reflexivity|].
  subst first. rewrite Hdb. split; [exact L | reflexivity].
Qed.

Lemma resubmit_rejected_witness :
  let code := "DS-1700000000000-AB12CD" in
  let first :=
    Routes.redeem (Some code) (Some "b1") Scenario.now Scenario.now Scenario.now Scenario.db in
  let second :=
    Routes.redeem (Some code) (Some "b1") (Scenario.now + 1) (Scenario.now + 1)
      (Scenario.now + 1) (snd first) in
  success (fst first) = Some true
  /\ http (fst second) = 400
  /\ snd second = snd first.
Proof.
  intros code first second.
  split; [reflexivity|].
  destruct (resubmit_rejected code "b1" Scenario.now Scenario.now Scenario.now
              (Scenario.now + 1) (Scenario.now + 1) (Scenario.now + 1) Scenario.db eq_refl)
    as [v [_ [H1 [_ [_ [H2 _]]]]]].
  split; [exact H1 | exact H2].
Defined.

(** ** Issuing a voucher *)

Lemma createVoucher_stored (voucher : InsertVoucher.t)
    (nowCode : Timestamp) (random36 uuid : string) (nowExpiry dbNow : Timestamp)
    (db : Db) (v : Voucher.t) (db' : Db) :
  Storage.createVoucher voucher nowCode random36 uuid nowExpiry dbNow db = Ok (v, db') ->
  v = Voucher.mk uuid (InsertVoucher.userId voucher) (InsertVoucher.dealId voucher)
        (Storage.generateCode nowCode random36)
        (match InsertVoucher.status voucher with
         | None => Some "active"
         | Some given => given
         end)
        (Some dbNow)
        (InsertVoucher.usedAt voucher)
        (match InsertVoucher.expiresAt voucher with
         | Some e => e
         | None => nowExpiry + Storage.thirtyDays
         end)
  /\ db' = set_vouchers (vouchers db ++ [v]) db
  /\ ~ In uuid (map Voucher.id (vouchers db))
  /\ ~ In (Storage.generateCode nowCode random36) (map Voucher.code (vouchers db))
  /\ In (InsertVoucher.userId voucher) (map User.id (users db))
  /\ In (InsertVoucher.dealId voucher) (map Deal.id (deals db)).
Proof.
  unfold Storage.createVoucher.
  destruct (Storage.vouchersAccept _ db) eqn:A; [|discriminate].
  intros E. injection E as <- <-.
  unfold Storage.vouchersAccept in A. simpl in A.
  repeat rewrite andb_true_iff in A. destruct A as [[[A1 A2] A3] A4].
  apply negb_true_iff in A1. apply negb_true_iff in A2.
  repeat split.
  - intros H. apply id_stored in H. congruence.
  - intros H. apply id_stored in H. congruence.
  - apply id_stored. exact A3.
  - apply id_stored. exact A4.
Qed.

(** [createVoucher] goes through whenever the table's constraints allow
    the new row. *)
Lemma createVoucher_succeeds (voucher : InsertVoucher.t)
    (nowCode : Timestamp) (random36 uuid : string) (nowExpiry dbNow : Timestamp) (db : Db) :
  ~ In uuid (map Voucher.id (vouchers db)) ->
  ~ In (Storage.generateCode nowCode random36) (map Voucher.code (vouchers db)) ->
  In (InsertVoucher.userId voucher) (map User.id (users db)) ->
  In (InsertVoucher.dealId voucher) (map Deal.id (deals db)) ->
  exists v db',
    Storage.createVoucher voucher nowCode random36 uuid nowExpiry dbNow db = Ok (v, db').
Proof.
  intros H1 H2 H3 H4. unfold Storage.createVoucher.
  match goal with |- context [Storage.vouchersAccept ?row db] =>
    assert (Storage.vouchersAccept row db = true) as A end.
  { unfold Storage.vouchersAccept. simpl.
    rewrite (fresh_id Voucher.id _ _ H1), (fresh_id Voucher.code _ _ H2). simpl.
    rewrite (proj2 (id_stored User.id _ _) H3), (proj2 (id_stored Deal.id _ _) H4).
    reflexivity. }
  rewrite A. eexists. eexists. reflexivity.
Qed.

Lemma markUsed_kept (now : Timestamp) (v : Voucher.t) :
  Spec.usedAtIffUsed (Storage.markUsed now v).
Proof.
  unfold Spec.usedAtIffUsed. simpl. split; [reflexivity | discriminate].
Qed.

Lemma useVoucher_wellKept (voucherId : string) (now : Timestamp) (db : Db) :
  Spec.wellKept db -> Spec.wellKept (snd (Storage.useVoucher voucherId now db)).
Proof.
  intros K v Hv. simpl in Hv. apply in_map_iff in Hv. destruct Hv as [w [E Hw]].
  destruct (Storage.usable voucherId w); subst v; [apply markUsed_kept | apply K; exact Hw].
Qed.

(** The redeem route writes through [useVoucher] or not at all. *)
Lemma redeem_writes (code businessId : option string)
    (now writeAt replyAt : Timestamp) (db : Db) :
  snd (Routes.redeem code businessId now writeAt replyAt db) = db
  \/ exists voucherId,
       snd (Routes.redeem code businessId now writeAt replyAt db)
       = snd (Storage.useVoucher voucherId writeAt db).
Proof.
  destruct (success (fst (Routes.redeem code businessId now writeAt replyAt db)))
    as [[|]|] eqn:S.
  - right. destruct (redeem_success _ _ _ _ _ _ S)
      as [c [b [v [o [_ [_ [_ [_ [_ [_ [_ [_ [_ H]]]]]]]]]]]]].
    exists (Voucher.id v). exact H.
  - left. apply redeem_rejection_writes_nothing. unfold Spec.rejects. congruence.
  - left. apply redeem_rejection_writes_nothing. unfold Spec.rejects. congruence.
Qed.

Lemma use_writes (user id : string) (writeAt : Timestamp) (db : Db) :
  snd (Routes.use user id writeAt db) = snd (Storage.useVoucher id writeAt db).
Proof.
  unfold Routes.use.
  destruct (Storage.useVoucher id writeAt db) as [ok db']. destruct ok; reflexivity.
Qed.

(** The purchase route writes through [createVoucher], with neither a
    status nor a [usedAt], or not at all. *)
Lemma purchase_writes (user : string) (dealId : option string) (isSuccessful : bool)
    (nowV nowExpires nowCode : Timestamp) (random36 uuid : string)
    (nowExpiry dbNow : Timestamp) (db : Db) :
  let r := Routes.purchase user dealId isSuccessful nowV nowExpires
             nowCode random36 uuid nowExpiry dbNow db in
  (snd r = db /\ issued (fst r) = None)
  \/ exists deal code v,
       Storage.createVoucher
         (InsertVoucher.mk user deal code None None (Some (nowExpires + Storage.thirtyDays)))
         nowCode random36 uuid nowExpiry dbNow db = Ok (v, snd r)
       /\ code = ("V" ++ decimal nowV)%string
       /\ issued (fst r) = Some v.
Proof.
  unfold Routes.purchase.
  destruct isSuccessful; [|left; split; reflexivity].
  destruct dealId as [deal|]; [|left; split; reflexivity].
  cbn [negb].
  change (nowExpires + 30 * 24 * 60 * 60 * 1000) with (nowExpires + Storage.thirtyDays).
  destruct (Storage.createVoucher _ nowCode random36 uuid nowExpiry dbNow db)
    as [[v db']|] eqn:E; [|left; split; reflexivity].
  right. exists deal, ("V" ++ decimal nowV)%string, v. auto.
Qed.

Lemma notify_keeps_vouchers (userId title text type : option string)
    (uuid : string) (dbNow : Timestamp) (db : Db) :
  vouchers (snd (Routes.notify userId title text type uuid dbNow db)) = vouchers db
  /\ business_payments (snd (Routes.notify userId title text type uuid dbNow db))
     = business_payments db.
Proof.
  unfold Routes.notify, Storage.createNotification.
  destruct userId, title, text, type; try (split; reflexivity).
  simpl. destruct (_ && _)%bool; split; reflexivity.
Qed.

Lemma payout_keeps_vouchers (businessId voucherId : option string) (amount : option Decimal)
    (description : option string) (uuid : string) (createdAt : Timestamp) (db : Db) :
  vouchers (snd (Routes.payout businessId voucherId amount description uuid createdAt db))
  = vouchers db.
Proof.
  unfold Routes.payout, Storage.createBusinessPayment.
  destruct amount; [|reflexivity].
  destruct businessId, voucherId; try reflexivity.
  simpl. destruct (_ && _)%bool; reflexivity.
Qed.

Lemma wellKept_vouchers (db db' : Db) :
  vouchers db' = vouchers db -> Spec.wellKept db -> Spec.wellKept db'.
Proof.
  unfold Spec.wellKept. intros E K v Hv. rewrite E in Hv. apply K. exact Hv.
Qed.

Lemma createNotification_keeps (notification : InsertNotification.t) (uuid : string)
    (dbNow : Timestamp) (db : Db) (n : Notification.t) (db' : Db) :
  Storage.createNotification notification uuid dbNow db = Ok (n, db') ->
  vouchers db' = vouchers db /\ business_payments db' = business_payments db.
Proof.
  unfold Storage.createNotification.
  destruct (InsertNotification.userId notification); [|discriminate].
  destruct (InsertNotification.title notification); [|discriminate].
  destruct (InsertNotification.message notification); [|discriminate].
  destruct (InsertNotification.type notification); [|discriminate].
  destruct (_ && _)%bool; [|discriminate].
  intros E. injection E as _ <-. split; reflexivity.
Qed.

(** POST /api/vouchers keeps the voucher [createVoucher] has stored, also
    when the notification that follows fails. *)
Lemma postVoucher_appends (parse : VoucherBody.t -> Result InsertVoucher.t) (user : string)
    (body : VoucherBody.t) (nowCode : Timestamp) (random36 uuid : string)
    (nowExpiry dbNow : Timestamp) (uuidN : string) (dbNowN : Timestamp) (db : Db)
    (voucher : InsertVoucher.t) (v : Voucher.t) (db' : Db) :
  parse (Handlers.withUser user body) = Ok voucher ->
  Storage.createVoucher voucher nowCode random36 uuid nowExpiry dbNow db = Ok (v, db') ->
  vouchers (snd (Handlers.postVoucher parse user body nowCode random36 uuid nowExpiry dbNow
                   uuidN dbNowN db))
  = (vouchers db ++ [v])%list.
Proof.
  intros Hp Hc. unfold Handlers.postVoucher. rewrite Hp, Hc.
  destruct (createVoucher_stored _ _ _ _ _ _ _ _ _ Hc) as [_ [Edb _]].
  destruct (Storage.createNotification _ _ _ db') as [[n db3]|] eqn:En; cbn [snd].
  - destruct (createNotification_keeps _ _ _ _ _ _ En) as [Kv _].
    rewrite Kv, Edb. reflexivity.
  - rewrite Edb. reflexivity.
Qed.

(** What POST /api/vouchers does to the voucher table. *)
Lemma postVoucher_writes (parse : VoucherBody.t -> Result InsertVoucher.t) (user : string)
    (body : VoucherBody.t) (nowCode : Timestamp) (random36 uuid : string)
    (nowExpiry dbNow : Timestamp) (uuidN : string) (dbNowN : Timestamp) (db : Db) :
  let r := Handlers.postVoucher parse user body nowCode random36 uuid nowExpiry dbNow
             uuidN dbNowN db in
  vouchers (snd r) = vouchers db
  \/ exists voucher v db',
       parse (Handlers.withUser user body) = Ok voucher
       /\ Storage.createVoucher voucher nowCode random36 uuid nowExpiry dbNow db = Ok (v, db')
       /\ vouchers (snd r) = (vouchers db ++ [v])%list.
Proof.
  intro r. subst r.
  destruct (parse (Handlers.withUser user body)) as [voucher|] eqn:Hp.
  - destruct (Storage.createVoucher voucher nowCode random36 uuid nowExpiry dbNow db)
      as [[v db']|] eqn:Hc.
    + right. exists voucher, v, db'. split; [reflexivity|]. split; [exact Hc|].
      exact (postVoucher_appends parse user body nowCode random36 uuid nowExpiry dbNow
               uuidN dbNowN db voucher v db' Hp Hc).
    + left. unfold Handlers.postVoucher. rewrite Hp, Hc. reflexivity.
  - left. unfold Handlers.postVoucher. rewrite Hp. reflexivity.
Qed.

(** POST /api/vouchers with a body whose status comes through the parse:
    the voucher of the scenario is in order, and the route stores next to
    it a used voucher without [usedAt]. *)
Lemma postVoucher_stores_given_status
    (parse : VoucherBody.t -> Result InsertVoucher.t) (user : string) (body : VoucherBody.t)
    (uuidN : string) (dbNowN : Timestamp) :
  parse (Handlers.withUser user body)
  = Ok (InsertVoucher.mk "u1" "d1" "V1700000600000" (Some (Some "used")) None None) ->
  Spec.wellKept Scenario.db
  /\ ~ Spec.wellKept
        (snd (Handlers.postVoucher parse user body 1700000600000 "0.4fzyo82mvyr" "v2"
                1700000600000 1700000600002 uuidN dbNowN Scenario.db)).
Proof.
  intro Hp. split.
  - intros v [<-|[]]. split; [intros N; exfalso; apply N; reflexivity | discriminate].
  - intro K.
    pose proof (postVoucher_appends parse user body 1700000600000 "0.4fzyo82mvyr" "v2"
                  1700000600000 1700000600002 uuidN dbNowN Scenario.db _ _ _ Hp eq_refl) as E.
    destruct (K _ ltac:(rewrite E; apply in_or_app; right; left; reflexivity)) as [_ H].
    apply (H eq_refl). reflexivity.
Qed.

(** C6, as worded, fails on [createVoucher]: the caller's [status] and
    [usedAt] are spread into the row, so a caller that passes status
    "used" gets a used voucher without [usedAt]. *)
Lemma createVoucher_keeps_given_status :
  let voucher := InsertVoucher.mk "u1" "d1" "V1700000600000" (Some (Some "used")) None None in
  ~ Spec.createdActiveClaim voucher 1700000600000 "0.4fzyo82mvyr" "v2"
      1700000600000 1700000600002 Scenario.db
  /\ exists v db',
       Storage.createVoucher voucher 1700000600000 "0.4fzyo82mvyr" "v2"
         1700000600000 1700000600002 Scenario.db = Ok (v, db')
       /\ Voucher.status v = Some "used"
       /\ Voucher.usedAt v = None
       /\ ~ Spec.usedAtIffUsed v.
Proof.
  intros voucher. split.
  - intros H. destruct (H _ _ eq_refl) as [H1 _]. discriminate H1.
  - eexists. eexists. split; [reflexivity|]. split; [reflexivity|]. split; [reflexivity|].
    intros [_ H]. apply (H eq_refl). reflexivity.
Qed.

(** C6, amended.  [createVoucher] stores the caller's [status] and
    [usedAt] when the caller gives them; a caller that gives neither, as
    the purchase route does, gets a voucher with status "active" and no
    [usedAt].  [useVoucher] sets status "used" and [usedAt] together, and
    it is the only update of a stored voucher.  The verify, redeem, use,
    purchase, notification and payout routes leave the voucher table
    alone or write it through one [useVoucher] or through one
    [createVoucher] without status and [usedAt], and each such write
    preserves the invariant that [usedAt] is set if and only if the
    status is "used".  POST /api/vouchers is the one route that hands a
    request body to [createVoucher]: it leaves the table alone or appends
    the voucher [createVoucher] makes of the parsed body; it preserves
    the invariant when the parsed body has neither status nor [usedAt],
    and when the parsed body makes a voucher on which the two disagree,
    the store it leaves violates the invariant. *)
Theorem usedAt_iff_used_preserved :
  (forall voucher nowCode random36 uuid nowExpiry dbNow db v db',
     Storage.createVoucher voucher nowCode random36 uuid nowExpiry dbNow db = Ok (v, db') ->
     vouchers db' = (vouchers db ++ [v])%list
     /\ Voucher.status v = match InsertVoucher.status voucher with
                           | None => Some "active"
                           | Some given => given
                           end
     /\ Voucher.usedAt v = InsertVoucher.usedAt voucher
     /\ (InsertVoucher.status voucher = None -> InsertVoucher.usedAt voucher = None ->
           Voucher.status v = Some "active" /\ Voucher.usedAt v = None))
  /\ (forall voucherId now db v,
        In v (vouchers (snd (Storage.useVoucher voucherId now db))) ->
        In v (vouchers db)
        \/ (Voucher.status v = Some "used" /\ Voucher.usedAt v = Some now))
  /\ (forall db db',
        Spec.voucherWrite db db' -> Spec.wellKept db -> Spec.wellKept db')
  /\ (forall code now db,
        Spec.voucherWrite db (snd (Routes.verify code now db)))
  /\ (forall code businessId now writeAt replyAt db,
        Spec.voucherWrite db (snd (Routes.redeem code businessId now writeAt replyAt db)))
  /\ (forall user id writeAt db,
        Spec.voucherWrite db (snd (Routes.use user id writeAt db)))
  /\ (forall user dealId isSuccessful nowV nowExpires nowCode random36 uuid nowExpiry dbNow db,
        Spec.voucherWrite db
          (snd (Routes.purchase user dealId isSuccessful nowV nowExpires
                  nowCode random36 uuid nowExpiry dbNow db)))
  /\ (forall userId title text type uuid dbNow db,
        Spec.voucherWrite db (snd (Routes.notify userId title text type uuid dbNow db)))
  /\ (forall businessId voucherId amount description uuid createdAt db,
        Spec.voucherWrite db
          (snd (Routes.payout businessId voucherId amount description uuid createdAt db)))
  /\ (forall parse user body nowCode random36 uuid nowExpiry dbNow uuidN dbNowN db,
        let r := Handlers.postVoucher parse user body nowCode random36 uuid nowExpiry dbNow
                   uuidN dbNowN db in
        vouchers (snd r) = vouchers db
        \/ exists voucher v db',
             parse (Handlers.withUser user body) = Ok voucher
             /\ Storage.createVoucher voucher nowCode random36 uuid nowExpiry dbNow db
                = Ok (v, db')
             /\ vouchers (snd r) = (vouchers db ++ [v])%list
             /\ (Spec.wellKept db -> (Spec.wellKept (snd r) <-> Spec.usedAtIffUsed v)))
  /\ (forall parse user body nowCode random36 uuid nowExpiry dbNow uuidN dbNowN db,
        (forall voucher,
           parse (Handlers.withUser user body) = Ok voucher ->
           InsertVoucher.status voucher = None /\ InsertVoucher.usedAt voucher = None) ->
        Spec.wellKept db ->
        Spec.wellKept
          (snd (Handlers.postVoucher parse user body nowCode random36 uuid nowExpiry dbNow
                  uuidN dbNowN db)))
  /\ (forall parse user body nowCode random36 uuid nowExpiry dbNow uuidN dbNowN db
             voucher v db',
        parse (Handlers.withUser user body) = Ok voucher ->
        Storage.createVoucher voucher nowCode random36 uuid nowExpiry dbNow db = Ok (v, db') ->
        ~ Spec.usedAtIffUsed v ->
        ~ Spec.wellKept
            (snd (Handlers.postVoucher parse user body nowCode random36 uuid nowExpiry dbNow
                    uuidN dbNowN db))).
Proof.
  split.
  { intros voucher nowCode random36 uuid nowExpiry dbNow db v db' H.
    destruct (createVoucher_stored _ _ _ _ _ _ _ _ _ H) as [Ev [Edb _]].
    split; [rewrite Edb; reflexivity|].
    split; [rewrite Ev; reflexivity|].
    split; [rewrite Ev; reflexivity|].
    intros Hs Hu.
    split; [rewrite Ev, Hs; reflexivity | rewrite Ev, Hu; reflexivity]. }
  split.
  { intros voucherId now db v Hv. simpl in Hv. apply in_map_iff in Hv.
    destruct Hv as [w [E Hw]].
    destruct (Storage.usable voucherId w); subst v;
      [right; split; reflexivity | left; exact Hw]. }
  split.
  { intros db db' [E|[[voucherId [now E]]|[voucher [nowCode [random36 [uuid [nowExpiry
              [dbNow [v [H [Hs Hu]]]]]]]]]]] K.
    - exact (wellKept_vouchers db db' E K).
    - apply (wellKept_vouchers _ db' E). apply useVoucher_wellKept. exact K.
    - intros w Hw.
      destruct (createVoucher_stored _ _ _ _ _ _ _ _ _ H) as [Ev [Edb _]].
      rewrite Edb in Hw. simpl in Hw. apply in_app_or in Hw.
      destruct Hw as [Hw|[<-|[]]]; [apply K; exact Hw|].
      rewrite Ev, Hs, Hu. unfold Spec.usedAtIffUsed. simpl.
      split; [intros N; exfalso; apply N; reflexivity | discriminate]. }
  split.
  { intros code now db. left. rewrite verify_reads_only. reflexivity. }
  split.
  { intros code businessId now writeAt replyAt db.
    destruct (redeem_writes code businessId now writeAt replyAt db) as [E|[i E]]; rewrite E.
    - left. reflexivity.
    - right. left. exists i, writeAt. reflexivity. }
  split.
  { intros user id writeAt db. right. left. exists id, writeAt.
    rewrite use_writes. reflexivity. }
  split.
  { intros user dealId isSuccessful nowV nowExpires nowCode random36 uuid nowExpiry dbNow db.
    destruct (purchase_writes user dealId isSuccessful nowV nowExpires nowCode random36
                uuid nowExpiry dbNow db) as [[E _]|[deal [code [v [E _]]]]].
    - left. rewrite E. reflexivity.
    - right. right. do 7 eexists. split; [exact E|]. split; reflexivity. }
  split.
  { intros userId title text type uuid dbNow db. left. apply notify_keeps_vouchers. }
  split.
  { intros businessId voucherId amount description uuid createdAt db.
    left. apply payout_keeps_vouchers. }
  split.
  { intros parse user body nowCode random36 uuid nowExpiry dbNow uuidN dbNowN db r.
    destruct (postVoucher_writes parse user body nowCode random36 uuid nowExpiry dbNow
                uuidN dbNowN db) as [E|[voucher [v [db' [Hp [Hc Hv]]]]]]; fold r in E || fold r in Hv.
    - left. exact E.
    - right. exists voucher, v, db'. split; [exact Hp|]. split; [exact Hc|].
      split; [exact Hv|]. intro K. split.
      + intro K'. apply K'. rewrite Hv. apply in_or_app. right. left. reflexivity.
      + intros Kv w Hw. rewrite Hv in Hw. apply in_app_or in Hw.
        destruct Hw as [Hw|[<-|[]]]; [apply K; exact Hw | exact Kv]. }
  split.
  { intros parse user body nowCode random36 uuid nowExpiry dbNow uuidN dbNowN db Hnone K.
    destruct (postVoucher_writes parse user body nowCode random36 uuid nowExpiry dbNow
                uuidN dbNowN db) as [E|[voucher [v [db' [Hp [Hc Hv]]]]]].
    - exact (wellKept_vouchers db _ E K).
    - destruct (Hnone voucher Hp) as [Hs Hu].
      destruct (createVoucher_stored _ _ _ _ _ _ _ _ _ Hc) as [Ev _].
      intros w Hw. rewrite Hv in Hw. apply in_app_or in Hw.
      destruct Hw as [Hw|[<-|[]]]; [apply K; exact Hw|].
      rewrite Ev, Hs, Hu. unfold Spec.usedAtIffUsed. simpl.
      split; [intros N; exfalso; apply N; reflexivity | discriminate]. }
  intros parse user body nowCode random36 uuid nowExpiry dbNow uuidN dbNowN db
         voucher v db' Hp Hc Hbad K.
  apply Hbad. apply K.
  rewrite (postVoucher_appends parse user body nowCode random36 uuid nowExpiry dbNow
             uuidN dbNowN db voucher v db' Hp Hc).
  apply in_or_app. right. left. reflexivity.
Qed.

(** The scenario's store keeps the invariant through a redemption. *)
Lemma usedAt_iff_used_preserved_witness :
  let db' :=
    snd (Routes.redeem (Some "DS-1700000000000-AB12CD") (Some "b1")
           Scenario.now Scenario.now Scenario.now Scenario.db) in
  Spec.voucherWrite Scenario.db db'
  /\ Spec.wellKept Scenario.db
  /\ Spec.wellKept db'.
Proof.
  intros db'.
  assert (Spec.wellKept Scenario.db) as K.
  { intros v [<-|[]]. split; [intros N; exfalso; apply N; reflexivity | discriminate]. }
  destruct usedAt_iff_used_preserved as [_ [_ [Keeps [_ [Redeem _]]]]].
  pose proof (Redeem (Some "DS-1700000000000-AB12CD") (Some "b1")
                Scenario.now Scenario.now Scenario.now Scenario.db) as W.
  split; [exact W|]. split; [exact K|].
  exact (Keeps Scenario.db db' W K).
Defined.

(** C7.  For every issuance request with no explicit expiry,
    [createVoucher] sets the voucher's [expiresAt] to the issuance time,
    its own reading of the clock, plus exactly 30 days (2 592 000 000
    milliseconds); and it does store such a voucher whenever the table's
    constraints admit the new row. *)
Theorem createVoucher_default_expiry :
  forall (voucher : InsertVoucher.t) (nowCode : Timestamp) (random36 uuid : string)
         (nowExpiry dbNow : Timestamp) (db : Db),
    InsertVoucher.expiresAt voucher = None ->
    (forall v db',
       Storage.createVoucher voucher nowCode random36 uuid nowExpiry dbNow db = Ok (v, db') ->
       Voucher.expiresAt v = nowExpiry + 30 * (24 * 60 * 60 * 1000)
       /\ Voucher.expiresAt v - nowExpiry = 2592000000)
    /\ (~ In uuid (map Voucher.id (vouchers db)) ->
        ~ In (Storage.generateCode nowCode random36) (map Voucher.code (vouchers db)) ->
        In (InsertVoucher.userId voucher) (map User.id (users db)) ->
        In (InsertVoucher.dealId voucher) (map Deal.id (deals db)) ->
        exists v db',
          Storage.createVoucher voucher nowCode random36 uuid nowExpiry dbNow db = Ok (v, db')
          /\ In v (vouchers db')
          /\ Voucher.expiresAt v = nowExpiry + 30 * (24 * 60 * 60 * 1000)).
Proof.
  intros voucher nowCode random36 uuid nowExpiry dbNow db Hexp.
  assert (forall v db',
            Storage.createVoucher voucher nowCode random36 uuid nowExpiry dbNow db
            = Ok (v, db') ->
            Voucher.expiresAt v = nowExpiry + 30 * (24 * 60 * 60 * 1000)) as E.
  { intros v db' H. destruct (createVoucher_stored _ _ _ _ _ _ _ _ _ H) as [Ev _].
    rewrite Ev, Hexp. unfold Storage.thirtyDays. simpl. lia. }
  split.
  - intros v db' H. pose proof (E v db' H) as X. split; [exact X | lia].
  - intros H1 H2 H3 H4.
    destruct (createVoucher_succeeds voucher nowCode random36 uuid nowExpiry dbNow db
                H1 H2 H3 H4) as [v [db' H]].
    exists v, db'. split; [exact H|]. split; [|exact (E v db' H)].
    destruct (createVoucher_stored _ _ _ _ _ _ _ _ _ H) as [_ [Edb _]].
    rewrite Edb. simpl. apply in_or_app. right. left. reflexivity.
Qed.

Lemma createVoucher_default_expiry_witness :
  let voucher := InsertVoucher.mk "u1" "d1" "V1700000600000" None None None in
  InsertVoucher.expiresAt voucher = None
  /\ exists v db',
       Storage.createVoucher voucher 1700000600000 "0.4fzyo82mvyr" "v2"
         1700000600001 1700000600002 Scenario.db = Ok (v, db')
       /\ In v (vouchers db')
       /\ Voucher.expiresAt v = 1700000600001 + 30 * (24 * 60 * 60 * 1000).
Proof.
  intros voucher. split; [reflexivity|].
  apply (createVoucher_default_expiry voucher 1700000600000 "0.4fzyo82mvyr" "v2"
           1700000600001 1700000600002 Scenario.db eq_refl).
  - simpl. intros [H|[]]. discriminate H.
  - simpl. intros [H|[]]. discriminate H.
  - simpl. left. reflexivity.
  - simpl. left. reflexivity.
Defined.

(** ** The generated code *)

Lemma length_append (a b : string) :
  String.length (a ++ b) = (String.length a + String.length b)%nat.
Proof.
  induction a as [|c a IH]; simpl; [reflexivity | rewrite IH; reflexivity].
Qed.

Lemma length_toUpperCase (s : string) :
  String.length (toUpperCase s) = String.length s.
Proof.
  induction s as [|c s IH]; simpl; [reflexivity | rewrite IH; reflexivity].
Qed.

Lemma length_substring (s : string) :
  forall n m : nat,
    (String.length (substring n m s) <= m)%nat
    /\ ((n + m <= String.length s)%nat -> String.length (substring n m s) = m).
Proof.
  induction s as [|c s IH]; intros n m.
  - destruct n, m; simpl; split; lia.
  - destruct n as [|n].
    + destruct m as [|m]; simpl; [split; lia|].
      destruct (IH 0%nat m) as [H1 H2]. split; [lia|]. intros H. rewrite H2; lia.
    + simpl. destruct (IH n m) as [H1 H2]. split; [exact H1|]. intros H. apply H2. lia.
Qed.

Lemma substring_chars (keep : ascii -> bool) (s : string) :
  forall n m : nat,
    forallb keep (list_ascii_of_string s) = true ->
    forallb keep (list_ascii_of_string (substring n m s)) = true.
Proof.
  induction s as [|c s IH]; intros n m H.
  - destruct n, m; exact H.
  - simpl in H. apply andb_true_iff in H. destruct H as [Hc Hs].
    destruct n as [|n].
    + destruct m as [|m]; simpl; [reflexivity|].
      rewrite Hc. apply IH. exact Hs.
    + simpl. apply IH. exact Hs.
Qed.

Lemma upper_base36 (c : ascii) :
  Spec.base36 c = true -> Spec.base36Upper (upper c) = true.
Proof.
  destruct c as [[|] [|] [|] [|] [|] [|] [|] [|]];
    intros H; first [reflexivity | discriminate H].
Qed.

Lemma toUpperCase_chars (s : string) :
  forallb Spec.base36 (list_ascii_of_string s) = true ->
  forallb Spec.base36Upper (list_ascii_of_string (toUpperCase s)) = true.
Proof.
  induction s as [|c s IH]; simpl; [reflexivity|].
  intros H. apply andb_true_iff in H. destruct H as [Hc Hs].
  rewrite (upper_base36 c Hc). apply IH. exact Hs.
Qed.

(** In a code of the documented form the seventh character from the end
    is the dash before the suffix. *)
Lemma wellFormedCode_dash (code : string) :
  Spec.wellFormedCode code ->
  get (String.length code - 7) code = Some "-"%char.
Proof.
  intros [ms [suffix [-> W]]].
  unfold Spec.wellFormedSuffix in W. apply andb_true_iff in W. destruct W as [L _].
  apply Nat.eqb_eq in L.
  repeat rewrite length_append. rewrite L. simpl String.length.
  replace (3 + (String.length (decimal ms) + (1 + 6)) - 7)%nat
    with (S (S (S (0 + String.length (decimal ms)))))%nat by lia.
  cbn [append get].
  rewrite <- append_correct2. reflexivity.
Qed.

(** C8, as worded, fails on the length of the suffix: [substr(2, 6)] takes
    the digits there are.  When [Math.random()] yields 0.5, printed "0.i"
    in base 36, the stored code is [DS-<ms>-I]. *)
Lemma createVoucher_short_suffix :
  let voucher := InsertVoucher.mk "u1" "d1" "V1700000600000" None None None in
  ~ Spec.createdCodeClaim voucher 1700000600000 "0.i" "v2"
      1700000600001 1700000600002 Scenario.db
  /\ exists v db',
       Storage.createVoucher voucher 1700000600000 "0.i" "v2"
         1700000600001 1700000600002 Scenario.db = Ok (v, db')
       /\ Voucher.code v = "DS-1700000600000-I".
Proof.
  intros voucher. split.
  - intros H. specialize (H _ _ eq_refl).
    apply wellFormedCode_dash in H. vm_compute in H. discriminate H.
  - eexists. eexists. split; reflexivity.
Qed.

(** C8, amended.  Every voucher stored by [createVoucher] has the code
    [DS-<epoch-ms>-<suffix>], where the suffix is the upper-cased run of at
    most six characters that follows "0." in the base-36 print of the
    random number: six whenever the print has that many digits, and then
    the code has the documented form.  The caller's own code value plays no
    part: the purchase route's [V<timestamp>] is replaced by the generated
    code, so every stored code bears the [DS-] prefix. *)
Theorem createVoucher_code :
  forall (voucher : InsertVoucher.t) (nowCode : Timestamp) (random36 uuid : string)
         (nowExpiry dbNow : Timestamp) (db : Db) (v : Voucher.t) (db' : Db),
    Storage.createVoucher voucher nowCode random36 uuid nowExpiry dbNow db = Ok (v, db') ->
    let suffix := toUpperCase (substr 2 6 random36) in
    In v (vouchers db')
    /\ Voucher.code v = ("DS-" ++ decimal nowCode ++ "-" ++ suffix)%string
    /\ prefix "DS-" (Voucher.code v) = true
    /\ (String.length suffix <= 6)%nat
    /\ ((8 <= String.length random36)%nat -> String.length suffix = 6%nat)
    /\ (forall digits,
          random36 = ("0." ++ digits)%string ->
          (6 <= String.length digits)%nat ->
          forallb Spec.base36 (list_ascii_of_string digits) = true ->
          Spec.wellFormedCode (Voucher.code v))
    /\ (forall supplied v2 db2,
          Storage.createVoucher
            (InsertVoucher.mk (InsertVoucher.userId voucher) (InsertVoucher.dealId voucher)
               supplied (InsertVoucher.status voucher) (InsertVoucher.usedAt voucher)
               (InsertVoucher.expiresAt voucher))
            nowCode random36 uuid nowExpiry dbNow db = Ok (v2, db2) ->
          v2 = v)
    /\ (forall user dealId isSuccessful nowV nowExpires issuedVoucher,
          issued (fst (Routes.purchase user dealId isSuccessful nowV nowExpires
                         nowCode random36 uuid nowExpiry dbNow db)) = Some issuedVoucher ->
          Voucher.code issuedVoucher = Voucher.code v
          /\ Voucher.code issuedVoucher <> ("V" ++ decimal nowV)%string).
Proof.
  intros voucher nowCode random36 uuid nowExpiry dbNow db v db' H suffix.
  destruct (createVoucher_stored _ _ _ _ _ _ _ _ _ H) as [Ev [Edb _]].
  assert (Voucher.code v = ("DS-" ++ decimal nowCode ++ "-" ++ suffix)%string) as Ec
    by (rewrite Ev; reflexivity).
  split.
  { rewrite Edb. simpl. apply in_or_app. right. left. reflexivity. }
  split; [exact Ec|].
  split; [rewrite Ec; apply prefix_append|].
  subst suffix. unfold substr.
  split.
  { rewrite length_toUpperCase. apply length_substring. }
  split.
  { intros L. rewrite length_toUpperCase. apply length_substring. lia. }
  split.
  { intros digits -> L B. exists nowCode. eexists. split; [exact Ec|].
    unfold Spec.wellFormedSuffix. apply andb_true_iff. split.
    - apply Nat.eqb_eq. rewrite length_toUpperCase.
      change (substr 2 6 ("0." ++ digits)) with (substring 0 6 digits).
      apply length_substring. lia.
    - apply toUpperCase_chars.
      change (substr 2 6 ("0." ++ digits)) with (substring 0 6 digits).
      apply substring_chars. exact B. }
  split.
  { intros supplied v2 db2 H2.
    destruct (createVoucher_stored _ _ _ _ _ _ _ _ _ H2) as [Ev2 _].
    rewrite Ev2, Ev. reflexivity. }
  intros user dealId isSuccessful nowV nowExpires issuedVoucher I.
  destruct (purchase_writes user dealId isSuccessful nowV nowExpires nowCode random36
              uuid nowExpiry dbNow db) as [[_ N]|[deal [code [w [C [_ Iw]]]]]].
  - rewrite N in I. discriminate I.
  - rewrite Iw in I. injection I as <-.
    destruct (createVoucher_stored _ _ _ _ _ _ _ _ _ C) as [Ew _].
    assert (Voucher.code w = Voucher.code v) as Same by (rewrite Ew, Ev; reflexivity).
    split; [exact Same|].
    rewrite Same, Ec. discriminate.
Qed.

Lemma createVoucher_code_witness :
  let voucher := InsertVoucher.mk "u1" "d1" "V1700000600000" None None None in
  exists v db',
    Storage.createVoucher voucher 1700000600000 "0.4fzyo82mvyr" "v2"
      1700000600001 1700000600002 Scenario.db = Ok (v, db')
    /\ Voucher.code v = "DS-1700000600000-4FZYO8"
    /\ prefix "DS-" (Voucher.code v) = true.
Proof.
  intros voucher. eexists. eexists. split; [reflexivity|].
  split; [reflexivity|].
  eapply (createVoucher_code voucher 1700000600000 "0.4fzyo82mvyr" "v2"
            1700000600001 1700000600002 Scenario.db). reflexivity.
Defined.

(** ** The generic use route *)

(** C10.  For every voucher whose stored status is "active", the use
    route, PATCH /api/vouchers/:id/use, succeeds and sets status "used"
    and [usedAt], whatever the voucher's [expiresAt] and whoever the
    signed-in caller is.  The business redemption path rejects the same
    voucher once it has expired, and for any business but the deal's. *)
Theorem use_route_unguarded :
  forall (user id : string) (writeAt : Timestamp) (db : Db) (v : Voucher.t),
    In v (vouchers db) ->
    Voucher.id v = id ->
    Voucher.status v = Some "active" ->
    let r := Routes.use user id writeAt db in
    http (fst r) = 200
    /\ message (fst r) = Some "Voucher used successfully"
    /\ In (Voucher.mk (Voucher.id v) (Voucher.userId v) (Voucher.dealId v) (Voucher.code v)
             (Some "used") (Voucher.purchasedAt v) (Some writeAt) (Voucher.expiresAt v))
          (vouchers (snd r))
    /\ (forall w, In w (vouchers (snd r)) -> Voucher.id w = id ->
          Voucher.status w <> Some "active")
    /\ (forall code businessId now writeAt' replyAt,
          Spec.lookup code db = Some v ->
          Voucher.expiresAt v < now
          \/ (forall o, Spec.owner db v = Some o -> Business.id o <> businessId) ->
          Spec.rejects (fst (Routes.redeem (Some code) (Some businessId)
                               now writeAt' replyAt db))).
Proof.
  intros user id writeAt db v Hin Hid Hs r.
  assert (fst (Storage.useVoucher id writeAt db) = true) as T.
  { apply useVoucher_true. exists v. auto. }
  assert (snd r = snd (Storage.useVoucher id writeAt db)) as W by apply use_writes.
  assert (fst r = Routes.fail 200 "Voucher used successfully") as R.
  { subst r. unfold Routes.use.
    destruct (Storage.useVoucher id writeAt db) as [ok db']. simpl in T. subst ok.
    reflexivity. }
  rewrite R, W.
  split; [reflexivity|]. split; [reflexivity|]. split; [|split].
  - simpl. apply in_map_iff. exists v. split; [|exact Hin].
    assert (Storage.usable id v = true) as U by (apply usable_spec; auto).
    rewrite U. reflexivity.
  - intros w Hw Hwid Hws.
    pose proof (useVoucher_spent id writeAt db w Hw) as U.
    assert (Storage.usable id w = true) as U' by (apply usable_spec; auto).
    congruence.
  - intros code businessId now writeAt' replyAt Hv Hcase S.
    destruct (redeem_success _ _ _ _ _ _ S)
      as [c [b [v' [o [Ec [Eb [_ [_ [Hv' [Ho [Hob [Hexp _]]]]]]]]]]]].
    injection Ec as <-. injection Eb as <-.
    rewrite Hv in Hv'. injection Hv' as <-.
    destruct Hcase as [Hlate|Hother]; [lia|].
    exact (Hother o Ho Hob).
Qed.

(** The scenario's voucher two days on, a day past its expiry: any caller
    can still use it, while its own business can no longer redeem it. *)
Lemma use_route_unguarded_witness :
  let late := Scenario.now + 2 * Scenario.day in
  let r := Routes.use "somebody" "v1" late Scenario.db in
  http (fst r) = 200
  /\ message (fst r) = Some "Voucher used successfully"
  /\ Spec.usedIn (snd r) "DS-1700000000000-AB12CD"
  /\ message (fst (Routes.redeem (Some "DS-1700000000000-AB12CD") (Some "b1")
                     late late late Scenario.db))
     = Some "Voucher has expired".
Proof.
  intros late r.
  destruct (use_route_unguarded "somebody" "v1" late Scenario.db
              (Voucher.mk "v1" "u1" "d1" "DS-1700000000000-AB12CD" (Some "active")
                 (Some 1700000000000) None (Scenario.now + Scenario.day))
              (or_introl eq_refl) eq_refl eq_refl) as [H1 [H2 _]].
  split; [exact H1|]. split; [exact H2|]. split; [|reflexivity].
  eexists. split; [reflexivity|]. split; [reflexivity | discriminate].
Defined.

(** ** Payments per voucher *)

Section Counting.

Context {A : Type}.
Variable counted : A -> bool.

Lemma count_update (change : A -> A) (rows : list A) :
  (forall r, counted (change r) = counted r) ->
  length (filter counted (map change rows)) = length (filter counted rows).
Proof.
  intros H. induction rows as [|r rows IH]; simpl; [reflexivity|].
  rewrite H. destruct (counted r); simpl; rewrite IH; reflexivity.
Qed.

Lemma count_insert (rows : list A) (new : A) :
  length (filter counted (rows ++ [new]))
  = (length (filter counted rows) + (if counted new then 1 else 0))%nat.
Proof.
  rewrite filter_app, length_app. simpl. destruct (counted new); reflexivity.
Qed.

End Counting.

Lemma pending_replace (voucherId : string) (before after : list (string * Scanner.Stage))
    (businessId : string) (stage : Scanner.Stage) :
  System.pending voucherId (before ++ (businessId, stage) :: after)
  = (System.pending voucherId before + System.weight voucherId stage
     + System.pending voucherId after)%nat.
Proof.
  unfold System.pending, System.weight. rewrite filter_app, length_app. simpl.
  destruct (System.holds voucherId stage); simpl; lia.
Qed.

Lemma grows_refl (vs : list Voucher.t) : System.grows vs vs.
Proof.
  split; [auto|]. intros code v H. exists v. auto.
Qed.

Lemma grows_same (vs vs' : list Voucher.t) : vs' = vs -> System.grows vs vs'.
Proof. intros ->. apply grows_refl. Qed.

Lemma grows_useVoucher (voucherId : string) (now : Timestamp) (db : Db) :
  System.grows (vouchers db) (vouchers (snd (Storage.useVoucher voucherId now db))).
Proof.
  split.
  - intros vid [Hin Hrows]. split.
    + rewrite useVoucher_keeps_ids. exact Hin.
    + intros v Hv Hid. simpl in Hv. apply in_map_iff in Hv. destruct Hv as [w [E Hw]].
      destruct (Storage.usable voucherId w); subst v.
      * discriminate.
      * apply Hrows; assumption.
  - intros code v H. simpl.
    rewrite find_update by (intros r; destruct (Storage.usable voucherId r); reflexivity).
    rewrite H. simpl. eexists. split; [reflexivity|].
    destruct (Storage.usable voucherId v); reflexivity.
Qed.

Lemma grows_createVoucher (voucher : InsertVoucher.t)
    (nowCode : Timestamp) (random36 uuid : string) (nowExpiry dbNow : Timestamp)
    (db : Db) (v : Voucher.t) (db' : Db) :
  Storage.createVoucher voucher nowCode random36 uuid nowExpiry dbNow db = Ok (v, db') ->
  System.grows (vouchers db) (vouchers db')
  /\ business_payments db' = business_payments db.
Proof.
  intros H. destruct (createVoucher_stored _ _ _ _ _ _ _ _ _ H) as [Ev [Edb [Hfresh _]]].
  assert (Voucher.id v = uuid) as Hid by (rewrite Ev; reflexivity).
  rewrite Edb. split; [|reflexivity]. simpl. split.
  - intros vid [Hin Hrows]. split.
    + rewrite map_app. apply in_or_app. left. exact Hin.
    + intros w Hw Hwid. apply in_app_or in Hw. destruct Hw as [Hw|[<-|[]]].
      * apply Hrows; assumption.
      * exfalso. apply Hfresh. rewrite <- Hid, Hwid. exact Hin.
  - intros code w Hw. exists w. split; [|reflexivity].
    apply find_insert. exact Hw.
Qed.

Lemma redeem_grows (code businessId : option string)
    (now writeAt replyAt : Timestamp) (db : Db) :
  System.grows (vouchers db) (vouchers (snd (Routes.redeem code businessId now writeAt replyAt db)))
  /\ business_payments (snd (Routes.redeem code businessId now writeAt replyAt db))
     = business_payments db.
Proof.
  destruct (redeem_writes code businessId now writeAt replyAt db) as [E|[i E]]; rewrite E.
  - split; [apply grows_refl | reflexivity].
  - split; [apply grows_useVoucher | reflexivity].
Qed.

Lemma purchase_grows (user : string) (dealId : option string) (isSuccessful : bool)
    (nowV nowExpires nowCode : Timestamp) (random36 uuid : string)
    (nowExpiry dbNow : Timestamp) (db : Db) :
  let db' := snd (Routes.purchase user dealId isSuccessful nowV nowExpires
                    nowCode random36 uuid nowExpiry dbNow db) in
  System.grows (vouchers db) (vouchers db')
  /\ business_payments db' = business_payments db.
Proof.
  intros db'. subst db'.
  destruct (purchase_writes user dealId isSuccessful nowV nowExpires nowCode random36
              uuid nowExpiry dbNow db) as [[E _]|[deal [code [v [E _]]]]].
  - rewrite E. split; [apply grows_refl | reflexivity].
  - exact (grows_createVoucher _ _ _ _ _ _ _ _ _ E).
Qed.

Lemma sendRedemptionNotification_keeps (v : VoucherView.t) (uuid : string)
    (dbNow : Timestamp) (db : Db) :
  vouchers (Scanner.sendRedemptionNotification v uuid dbNow db) = vouchers db
  /\ business_payments (Scanner.sendRedemptionNotification v uuid dbNow db)
     = business_payments db.
Proof.
  unfold Scanner.sendRedemptionNotification.
  destruct (VoucherView.user v); [|split; reflexivity].
  destruct (VoucherView.deal v); [|split; reflexivity].
  destruct (VoucherView.business v); [|split; reflexivity].
  apply notify_keeps_vouchers.
Qed.

(** One payment request adds at most one row, and only for its voucher. *)
Lemma payout_paid (voucherId : string) (businessId : option string) (paidFor : string)
    (amount : option Decimal) (description : option string) (uuid : string)
    (createdAt : Timestamp) (db : Db) :
  (length (System.paymentsOf voucherId
             (snd (Routes.payout businessId (Some paidFor) amount description
                     uuid createdAt db)))
   <= length (System.paymentsOf voucherId db)
      + (if String.eqb paidFor voucherId then 1 else 0))%nat.
Proof.
  unfold Routes.payout, Storage.createBusinessPayment.
  destruct amount as [amount|]; [|simpl; lia].
  destruct businessId as [businessId|]; [|simpl; lia].
  simpl. destruct (_ && _)%bool; [|simpl; lia].
  unfold System.paymentsOf. simpl.
  rewrite count_update.
  - rewrite count_insert. simpl. lia.
  - intros p. destruct (String.eqb (BusinessPayment.id p) uuid); reflexivity.
Qed.

Lemma processBusinessPayment_paid (voucherId businessId : string) (v : VoucherView.t)
    (uuid : string) (createdAt : Timestamp) (db : Db) :
  vouchers (Scanner.processBusinessPayment businessId v uuid createdAt db) = vouchers db
  /\ (length (System.paymentsOf voucherId
                (Scanner.processBusinessPayment businessId v uuid createdAt db))
      <= length (System.paymentsOf voucherId db)
         + System.weight voucherId (Scanner.Notified v))%nat.
Proof.
  unfold Scanner.processBusinessPayment, System.weight, System.holds.
  destruct (VoucherView.deal v) as [deal|]; [|split; [reflexivity | lia]].
  split; [apply payout_keeps_vouchers | apply payout_paid].
Qed.

Section Reachable.

Variable throws : Reply -> bool.
Variable trim : string -> string.

Lemma resolved_grows (d d' : Db) (stage : Scanner.Stage) :
  System.grows (vouchers d) (vouchers d') ->
  System.resolved trim d stage -> System.resolved trim d' stage.
Proof.
  intros [_ G]. destruct stage; simpl; auto.
  intros [v [Hv Hid]]. destruct (G _ _ Hv) as [v' [Hv' Hid']].
  exists v'. split; [exact Hv' | congruence].
Qed.

Lemma paymentsOf_same (voucherId : string) (d d' : Db) :
  business_payments d' = business_payments d ->
  System.paymentsOf voucherId d' = System.paymentsOf voucherId d.
Proof. unfold System.paymentsOf. intros ->. reflexivity. Qed.

(** A request that touches no page. *)
Lemma invariant_db (d d' : Db) (ps : list (string * Scanner.Stage)) :
  System.invariant trim (System.mk d ps) ->
  System.grows (vouchers d) (vouchers d') ->
  business_payments d' = business_payments d ->
  System.invariant trim (System.mk d' ps).
Proof.
  intros [I1 [I2 I3]] G P.
  assert (forall vid, System.owed vid (System.mk d' ps) = System.owed vid (System.mk d ps)) as O.
  { intros vid. unfold System.owed. simpl. rewrite (paymentsOf_same vid d d' P). reflexivity. }
  split; [|split].
  - intros vid. rewrite O. apply I1.
  - intros vid H. rewrite O in H. apply (proj1 G). apply I2. exact H.
  - intros p Hp. apply (resolved_grows d d' _ G). apply I3. exact Hp.
Qed.

(** A page moves on without taking a redeemed voucher into its hands. *)
Lemma invariant_settles (d d' : Db) (before after : list (string * Scanner.Stage))
    (businessId : string) (stage stage' : Scanner.Stage) :
  System.invariant trim (System.mk d (before ++ (businessId, stage) :: after)) ->
  System.grows (vouchers d) (vouchers d') ->
  (forall vid,
     (length (System.paymentsOf vid d') + System.weight vid stage'
      <= length (System.paymentsOf vid d) + System.weight vid stage)%nat) ->
  System.resolved trim d' stage' ->
  System.invariant trim (System.mk d' (before ++ (businessId, stage') :: after)).
Proof.
  intros [I1 [I2 I3]] G W R.
  assert (forall vid,
            (System.owed vid (System.mk d' (before ++ (businessId, stage') :: after))
             <= System.owed vid (System.mk d (before ++ (businessId, stage) :: after)))%nat)
    as O.
  { intros vid. unfold System.owed. simpl. rewrite !pending_replace.
    specialize (W vid). lia. }
  split; [|split].
  - intros vid. specialize (O vid). specialize (I1 vid). lia.
  - intros vid H. apply (proj1 G). apply I2. specialize (O vid). lia.
  - intros p Hp. simpl in Hp. apply in_app_or in Hp.
    destruct Hp as [Hp|[<-|Hp]].
    + apply (resolved_grows d d' _ G). apply I3. simpl. apply in_or_app. left. exact Hp.
    + exact R.
    + apply (resolved_grows d d' _ G). apply I3. simpl. apply in_or_app. right. right. exact Hp.
Qed.

(** The write of a page's redeem request goes through. *)
Lemma invariant_redeems (d : Db) (before after : list (string * Scanner.Stage))
    (businessId : string) (verification voucher : VoucherView.t) (writeAt : Timestamp) :
  System.invariant trim
    (System.mk d (before ++ (businessId, Scanner.Redeeming verification voucher) :: after)) ->
  fst (Storage.useVoucher (VoucherView.id voucher) writeAt d) = true ->
  System.invariant trim
    (System.mk (snd (Storage.useVoucher (VoucherView.id voucher) writeAt d))
       (before ++ (businessId, Scanner.Redeemed verification) :: after)).
Proof.
  intros [I1 [I2 I3]] Hused.
  apply useVoucher_true in Hused. destruct Hused as [v [Hin [Hv Hs]]].
  assert (VoucherView.id voucher = VoucherView.id verification) as Hid.
  { apply (I3 (businessId, Scanner.Redeeming verification voucher)).
    simpl. apply in_or_app. right. left. reflexivity. }
  set (vid0 := VoucherView.id voucher) in *.
  assert (System.owed vid0
            (System.mk d
               (before ++ (businessId, Scanner.Redeeming verification voucher) :: after))
          = 0%nat) as Zero.
  { destruct (System.owed vid0 _) eqn:E; [reflexivity|].
    exfalso. destruct (I2 vid0) as [_ Hrows]; [lia|].
    exact (Hrows v Hin Hv Hs). }
  pose proof (grows_useVoucher vid0 writeAt d) as G.
  assert (forall vid,
            System.owed vid
              (System.mk (snd (Storage.useVoucher vid0 writeAt d))
                 (before ++ (businessId, Scanner.Redeemed verification) :: after))
            = (System.owed vid
                 (System.mk d
                    (before
                     ++ (businessId, Scanner.Redeeming verification voucher) :: after))
               + (if String.eqb vid0 vid then 1 else 0))%nat) as O.
  { intros vid. unfold System.owed. cbn [System.db System.pages].
    rewrite !pending_replace.
    change (System.paymentsOf vid (snd (Storage.useVoucher vid0 writeAt d)))
      with (System.paymentsOf vid d).
    unfold System.weight, System.holds. rewrite <- Hid.
    destruct (String.eqb vid0 vid); lia. }
  split; [|split].
  - intros vid. rewrite O. destruct (String.eqb vid0 vid) eqn:E.
    + apply String.eqb_eq in E. subst vid. rewrite Zero. lia.
    + specialize (I1 vid). lia.
  - intros vid H. rewrite O in H. cbn [System.db].
    destruct (String.eqb vid0 vid) eqn:E.
    + apply String.eqb_eq in E. subst vid. split.
      * rewrite useVoucher_keeps_ids. rewrite <- Hv. apply in_map. exact Hin.
      * intros w Hw Hwid Hws.
        pose proof (useVoucher_spent vid0 writeAt d w Hw) as U.
        assert (Storage.usable vid0 w = true) as U' by (apply usable_spec; auto).
        congruence.
    + apply (proj1 G). apply I2. lia.
  - intros p Hp. simpl in Hp. apply in_app_or in Hp.
    destruct Hp as [Hp|[<-|Hp]].
    + apply (resolved_grows d _ _ G). apply I3. simpl. apply in_or_app. left. exact Hp.
    + exact I.
    + apply (resolved_grows d _ _ G). apply I3. simpl. apply in_or_app. right. right. exact Hp.
Qed.

(** Every round of a page keeps the invariant. *)
Lemma invariant_advances (d d' : Db) (before after : list (string * Scanner.Stage))
    (businessId : string) (stage stage' : Scanner.Stage) (env : Scanner.Env) :
  Scanner.advance throws trim businessId stage env d = (stage', d') ->
  System.invariant trim (System.mk d (before ++ (businessId, stage) :: after)) ->
  System.invariant trim (System.mk d' (before ++ (businessId, stage') :: after)).
Proof.
  intros A Inv.
  destruct stage as [code|code verification|verification voucher
                     |verification|verification|];
    cbn [Scanner.advance] in A.
  - pose proof (afterScan_writes_nothing throws trim businessId code (Scanner.now env) d) as W.
    rewrite A in W. simpl in W. subst d'.
    apply (invariant_settles d d before after businessId (Scanner.Scanned code) stage' Inv).
    + apply grows_refl.
    + intros vid.
      destruct (afterScan_stage throws trim businessId code (Scanner.now env) d) as [F|[w F]];
        rewrite A in F; simpl in F; subst stage'; unfold System.weight; simpl; lia.
    + destruct stage'; simpl; auto.
      * destruct (afterScan_verified _ _ _ _ _ _ _ _ _ A) as [-> [_ [v [o [Hv [Hw _]]]]]].
        exists v. split; [exact Hv|]. rewrite Hw. reflexivity.
      * destruct (afterScan_stage throws trim businessId code (Scanner.now env) d)
          as [F|[w F]]; rewrite A in F; simpl in F; discriminate F.
  - destruct (redeemSent_stage throws trim businessId code verification (Scanner.now env) d)
      as [D [F|[voucher [F C]]]];
      rewrite A in D, F; simpl in D, F; subst stage' d'.
    + apply (invariant_settles d d before after businessId
               (Scanner.Verified code verification) Scanner.Finished Inv (grows_refl _)).
      * intros vid. unfold System.weight. simpl. lia.
      * exact I.
    + apply (invariant_settles d d before after businessId
               (Scanner.Verified code verification)
               (Scanner.Redeeming verification voucher) Inv (grows_refl _)).
      * intros vid. unfold System.weight. simpl. lia.
      * simpl.
        destruct (proj2 (proj2 Inv) (businessId, Scanner.Verified code verification))
          as [v [Hv Hid]].
        { simpl. apply in_or_app. right. left. reflexivity. }
        destruct (redeemChecks_passed _ _ _ _ _ C)
          as [c [b [v' [o [Ec [_ [_ [_ [Hv' [Hvoucher _]]]]]]]]]].
        injection Ec as <-. unfold Spec.lookup in Hv'. simpl in Hv.
        rewrite Hv in Hv'. injection Hv' as <-.
        rewrite Hvoucher, view_id. exact Hid.
  - destruct (redeemAnswered_stage throws verification voucher (Scanner.writeAt env)
                (Scanner.replyAt env) d) as [D [F|[F U]]];
      rewrite A in D, F; simpl in D, F; subst stage' d'.
    + apply (invariant_settles d _ before after businessId
               (Scanner.Redeeming verification voucher) Scanner.Finished Inv
               (grows_useVoucher _ _ d)).
      * intros vid.
        change (System.paymentsOf vid
                  (snd (Storage.useVoucher (VoucherView.id voucher) (Scanner.writeAt env) d)))
          with (System.paymentsOf vid d).
        unfold System.weight. simpl. lia.
      * exact I.
    + exact (invariant_redeems d before after businessId verification voucher
               (Scanner.writeAt env) Inv U).
  - injection A as <- <-.
    destruct (sendRedemptionNotification_keeps verification (Scanner.uuid env)
                (Scanner.now env) d) as [V P].
    apply (invariant_settles d _ before after businessId
             (Scanner.Redeemed verification) (Scanner.Notified verification) Inv).
    + apply grows_same. exact V.
    + intros vid. rewrite (paymentsOf_same vid d _ P). unfold System.weight. simpl. lia.
    + exact I.
  - injection A as <- <-.
    apply (invariant_settles d _ before after businessId
             (Scanner.Notified verification) Scanner.Finished Inv).
    + apply grows_same.
      apply (processBusinessPayment_paid EmptyString businessId verification).
    + intros vid.
      destruct (processBusinessPayment_paid vid businessId verification (Scanner.uuid env)
                  (Scanner.now env) d) as [_ H].
      change (System.weight vid Scanner.Finished) with 0%nat. lia.
    + exact I.
  - injection A as <- <-. exact Inv.
Qed.

(** Every step keeps the invariant. *)
Lemma invariant_step (s s' : System.t) :
  System.step throws trim s s' ->
  System.invariant trim s -> System.invariant trim s'.
Proof.
  intros St Inv. destruct St.
  - destruct s as [d ps]. destruct Inv as [I1 [I2 I3]]. simpl.
    split; [|split].
    + intros vid. apply (I1 vid).
    + intros vid H. apply (I2 vid). exact H.
    + intros p [<-|Hp]; [exact I | apply I3; exact Hp].
  - eapply invariant_advances; eassumption.
  - destruct s as [d ps]. simpl. rewrite verify_reads_only. exact Inv.
  - destruct s as [d ps]. simpl.
    destruct (redeem_grows code businessId now writeAt replyAt d) as [G P].
    exact (invariant_db d _ ps Inv G P).
  - destruct s as [d ps]. simpl. rewrite use_writes.
    exact (invariant_db d _ ps Inv (grows_useVoucher id writeAt d) eq_refl).
  - destruct s as [d ps]. simpl.
    destruct (purchase_grows user dealId isSuccessful nowV nowExpires nowCode random36
                uuid nowExpiry dbNow d) as [G P].
    exact (invariant_db d _ ps Inv G P).
  - destruct s as [d ps]. simpl in *.
    destruct (grows_createVoucher _ _ _ _ _ _ _ _ _ H) as [G P].
    exact (invariant_db d _ ps Inv G P).
  - destruct s as [d ps]. simpl in *.
    destruct (createNotification_keeps _ _ _ _ _ _ H) as [V P].
    exact (invariant_db d _ ps Inv (grows_same _ _ V) P).
  - destruct s as [d ps]. simpl.
    exact (invariant_db d _ ps Inv (grows_refl _) eq_refl).
Qed.

Lemma invariant_fresh (s : System.t) : System.fresh s -> System.invariant trim s.
Proof.
  destruct s as [d ps]. intros [P E]. simpl in P, E. subst ps.
  assert (forall vid, System.owed vid (System.mk d []) = 0%nat) as Zero.
  { intros vid. unfold System.owed, System.paymentsOf. simpl. rewrite P. reflexivity. }
  split; [|split].
  - intros vid. rewrite Zero. lia.
  - intros vid H. rewrite Zero in H. lia.
  - intros p [].
Qed.

Lemma invariant_run (s s' : System.t) :
  System.run throws trim s s' ->
  System.invariant trim s -> System.invariant trim s'.
Proof.
  intros R. induction R as [s|s s' s'' R IH St]; intros Inv; [exact Inv|].
  apply (invariant_step s' s'' St). apply IH. exact Inv.
Qed.

End Reachable.

(** C9.  For every voucher, at most one BusinessPayment row references it
    in the redemption flow: on a server that starts without payments, and
    whatever the order in which the requests of the scanner pages, of the
    verify, redeem and use routes and of the purchases reach it, no second
    payment is created for the same voucher.  A page asks for a payment
    only after its own redeem request succeeded, and the compare-and-set
    lets one redeem request per voucher succeed. *)
Theorem at_most_one_payment_per_voucher :
  forall (throws : Reply -> bool) (trim : string -> string) (s0 s : System.t),
    System.fresh s0 ->
    System.run throws trim s0 s ->
    forall voucherId : string,
      (length (System.paymentsOf voucherId (System.db s)) <= 1)%nat.
Proof.
  intros throws trim s0 s F R voucherId.
  pose proof (invariant_run throws trim s0 s R (invariant_fresh trim s0 F)) as [I1 _].
  specialize (I1 voucherId). unfold System.owed in I1. lia.
Qed.

(** The scenario as a race: two pages of [b1] scan the voucher's code,
    both verify it and both get their redeem request past the checks.  The
    write of the first goes through, the write of the second finds the
    voucher used and the page stops; the first page notifies and pays.  One
    payment row is written. *)
Lemma at_most_one_payment_per_voucher_witness :
  let s0 := System.mk Scenario.db [] in
  System.fresh s0
  /\ exists s,
       System.run Scenario.throws Scenario.trim s0 s
       /\ length (System.paymentsOf "v1" (System.db s)) = 1%nat
       /\ forall voucherId,
            (length (System.paymentsOf voucherId (System.db s)) <= 1)%nat.
Proof.
  intros s0.
  assert (System.fresh s0) as F by (split; reflexivity).
  split; [exact F|].
  assert ({ s | System.run Scenario.throws Scenario.trim s0 s
                /\ length (System.paymentsOf "v1" (System.db s)) = 1%nat }) as [s [R One]].
  { eexists. split.
    - eapply System.run_step.
      { eapply System.run_step.
        { eapply System.run_step.
          { eapply System.run_step.
            { eapply System.run_step.
              { eapply System.run_step.
                { eapply System.run_step.
                  { eapply System.run_step.
                    { eapply System.run_step.
                      { eapply System.run_step.
                        { apply System.run_nil. }
                        apply (System.scans _ _ s0 "b1" "DS-1700000000000-AB12CD"). }
                      apply (System.scans _ _ _ "b1" "DS-1700000000000-AB12CD"). }
                    eapply (System.advances _ _ _ _ [_] [] "b1" _ _ (Scenario.env "r1")).
                    reflexivity. }
                  eapply (System.advances _ _ _ _ [] [_] "b1" _ _ (Scenario.env "r2")).
                  reflexivity. }
                eapply (System.advances _ _ _ _ [_] [] "b1" _ _ (Scenario.env "r3")).
                reflexivity. }
              eapply (System.advances _ _ _ _ [] [_] "b1" _ _ (Scenario.env "r4")).
              reflexivity. }
            eapply (System.advances _ _ _ _ [_] [] "b1" _ _ (Scenario.env "r3")).
            reflexivity. }
          eapply (System.advances _ _ _ _ [] [_] "b1" _ _ (Scenario.env "r4")).
          reflexivity. }
        eapply (System.advances _ _ _ _ [_] [] "b1" _ _ (Scenario.env "n1")).
        reflexivity. }
      eapply (System.advances _ _ _ _ [_] [] "b1" _ _ (Scenario.env "p1")).
      reflexivity.
    - reflexivity. }
  exists s. split; [exact R|]. split; [exact One|].
  exact (at_most_one_payment_per_voucher Scenario.throws Scenario.trim s0 s F R).
Defined.

(** The bound is the flow's, not the payment route's: the route inserts
    whatever it is asked to, so two direct requests for one voucher leave
    two rows. *)
Remark payout_route_unguarded :
  let once := snd (Routes.payout (Some "b1") (Some "v1") (Some 2500) None
                     "p1" Scenario.now Scenario.db) in
  let twice := snd (Routes.payout (Some "b1") (Some "v1") (Some 2500) None
                      "p2" Scenario.now once) in
  length (System.paymentsOf "v1" twice) = 2%nat.
Proof. reflexivity. Qed.

(** ** From issue to scan: the voucher routes composed *)

Lemma find_appended {A : Type} (wanted : A -> bool) (rows : list A) (new : A) :
  (forall r, In r rows -> wanted r = false) ->
  wanted new = true ->
  find wanted (rows ++ [new]) = Some new.
Proof.
  intros Hnone Hnew. induction rows as [|x rows IH]; simpl.
  - rewrite Hnew. reflexivity.
  - rewrite (Hnone x (or_introl eq_refl)). apply IH.
    intros r Hr. apply Hnone. right. exact Hr.
Qed.

Lemma not_empty_eqb (s : string) : s <> EmptyString -> String.eqb s EmptyString = false.
Proof. intro H. apply String.eqb_neq. exact H. Qed.

(** The verify route on a stored voucher that is active and not expired. *)
Lemma verify_active (code : string) (now : Timestamp) (db : Db) (v : Voucher.t) :
  code <> EmptyString ->
  Spec.lookup code db = Some v ->
  Voucher.status v = Some "active" ->
  now <= Voucher.expiresAt v ->
  Routes.verify (Some code) now db
  = (mkReply 200 (Some "Voucher is valid and ready to use") (Some true) None None
       (Some (Storage.view db v)) None, db).
Proof.
  intros Hc Hv Hs Ht. unfold Routes.verify.
  rewrite (not_empty_eqb _ Hc), verifyVoucherByCode_lookup, Hv.
  cbn [option_map]. rewrite view_expiresAt, view_status, Hs.
  destruct (Z.ltb_spec (Voucher.expiresAt v) now) as [Hlt|_]; [lia|].
  reflexivity.
Qed.

(** The verify route on a stored voucher that is used. *)
Lemma verify_used (code : string) (now : Timestamp) (db : Db) (v : Voucher.t) :
  code <> EmptyString ->
  Spec.lookup code db = Some v ->
  Voucher.status v = Some "used" ->
  fst (Routes.verify (Some code) now db)
  = mkReply 200
      (Some (if Voucher.expiresAt v <? now
             then "Voucher is expired" else "Voucher has already been used"))
      (Some false) None None (Some (Storage.view db v)) None.
Proof.
  intros Hc Hv Hs. unfold Routes.verify.
  rewrite (not_empty_eqb _ Hc), verifyVoucherByCode_lookup, Hv.
  cbn [option_map]. rewrite view_expiresAt, view_status, Hs.
  destruct (Voucher.expiresAt v <? now); reflexivity.
Qed.

(** The checks of the redeem route on a voucher that passes them all. *)
Lemma redeemChecks_pass (code businessId : string) (now : Timestamp) (db : Db)
    (v : Voucher.t) (o : Business.t) :
  code <> EmptyString ->
  businessId <> EmptyString ->
  Spec.lookup code db = Some v ->
  Spec.owner db v = Some o ->
  Business.id o = businessId ->
  Voucher.status v = Some "active" ->
  now <= Voucher.expiresAt v ->
  Routes.redeemChecks (Some code) (Some businessId) now db = inr (Storage.view db v).
Proof.
  intros Hc Hb Hv Ho Hid Hs Ht. unfold Routes.redeemChecks.
  cbn [falsy]. rewrite (not_empty_eqb _ Hc), (not_empty_eqb _ Hb).
  cbn [orb]. rewrite verifyVoucherByCode_lookup, Hv. cbn [option_map].
  rewrite view_business, Ho. cbn [option_map VoucherView.business_id].
  rewrite Hid, String.eqb_refl. cbn [negb].
  rewrite view_expiresAt, view_status, Hs.
  destruct (Z.ltb_spec (Voucher.expiresAt v) now) as [Hlt|_]; [lia|].
  reflexivity.
Qed.

(** The redeem route on a voucher that passes its checks. *)
Lemma redeem_pass (code businessId : string) (now writeAt replyAt : Timestamp) (db : Db)
    (v : Voucher.t) (o : Business.t) :
  code <> EmptyString ->
  businessId <> EmptyString ->
  Spec.lookup code db = Some v ->
  Spec.owner db v = Some o ->
  Business.id o = businessId ->
  Voucher.status v = Some "active" ->
  now <= Voucher.expiresAt v ->
  Routes.redeem (Some code) (Some businessId) now writeAt replyAt db
  = (mkReply 200 (Some "Voucher redeemed successfully") None (Some true) None
       (Some (Routes.shownUsed replyAt (Storage.view db v))) None,
     snd (Storage.useVoucher (Voucher.id v) writeAt db)).
Proof.
  intros Hc Hb Hv Ho Hid Hs Ht. unfold Routes.redeem.
  rewrite (redeemChecks_pass code businessId now db v o Hc Hb Hv Ho Hid Hs Ht).
  pose proof (redeemWrite_answers (Storage.view db v) writeAt replyAt db) as [W1 [W2 _]].
  rewrite view_id in W1, W2.
  specialize (W2 (useVoucher_found code writeAt db v Hv Hs)).
  rewrite (surjective_pairing (Routes.redeemWrite _ _ _ _)), W1, W2. reflexivity.
Qed.

(** What [purchase] stores when it issues a voucher. *)
Lemma purchase_issued (user : string) (dealId : option string) (isSuccessful : bool)
    (nowV nowExpires nowCode : Timestamp) (random36 uuid : string)
    (nowExpiry dbNow : Timestamp) (db : Db) (v : Voucher.t) :
  let r := Routes.purchase user dealId isSuccessful nowV nowExpires
             nowCode random36 uuid nowExpiry dbNow db in
  issued (fst r) = Some v ->
  exists deal,
    dealId = Some deal
    /\ v = Voucher.mk uuid user deal (Storage.generateCode nowCode random36)
             (Some "active") (Some dbNow) None (nowExpires + Storage.thirtyDays)
    /\ snd r = set_vouchers (vouchers db ++ [v]) db
    /\ ~ In uuid (map Voucher.id (vouchers db))
    /\ ~ In (Storage.generateCode nowCode random36) (map Voucher.code (vouchers db))
    /\ In user (map User.id (users db))
    /\ In deal (map Deal.id (deals db)).
Proof.
  intros r Hi. subst r. revert Hi. unfold Routes.purchase.
  destruct isSuccessful; cbn [negb]; [|discriminate].
  destruct dealId as [deal|]; [|discriminate].
  destruct (Storage.createVoucher _ _ _ _ _ _ _) as [[w db']|] eqn:Hc; [|discriminate].
  cbn [fst snd issued]. intro Hi. injection Hi as Hi. subst w.
  destruct (createVoucher_stored _ _ _ _ _ _ _ _ _ Hc) as [Hv [Hdb [F1 [F2 [U D]]]]].
  cbn [InsertVoucher.userId InsertVoucher.dealId InsertVoucher.status
       InsertVoucher.usedAt InsertVoucher.expiresAt] in Hv, U, D.
  exists deal. repeat split; assumption.
Qed.

Lemma lookup_appended (db : Db) (v : Voucher.t) :
  ~ In (Voucher.code v) (map Voucher.code (vouchers db)) ->
  Spec.lookup (Voucher.code v) (set_vouchers (vouchers db ++ [v]) db) = Some v.
Proof.
  intro F. unfold Spec.lookup. cbn [vouchers set_vouchers].
  apply find_appended.
  - intros r Hr. apply String.eqb_neq. intro E. apply F. rewrite <- E.
    apply in_map. exact Hr.
  - apply String.eqb_refl.
Qed.

Lemma generateCode_not_empty (nowCode : Timestamp) (random36 : string) :
  Storage.generateCode nowCode random36 <> EmptyString.
Proof. unfold Storage.generateCode. simpl. discriminate. Qed.

(** ** The scanner page: one code from verification to payment *)

Section Scans.

Variable throws : Reply -> bool.
Variable trim : string -> string.
Variable businessId : string.


End Scans.


Lemma scenario_throws_ok (r : Reply) : http r = 200 -> Scenario.throws r = false.
Proof. intro H. unfold Scenario.throws. rewrite H. reflexivity. Qed.


(** ** The listings *)

Section Ordering.

Context {A : Type}.
Variable key : A -> option Timestamp.

Lemma precedes_trans (a b c : option Timestamp) :
  precedes b a = false -> precedes c b = false -> precedes c a = false.
Proof.
  destruct a as [a|], b as [b|], c as [c|]; simpl; try congruence.
  intros H1 H2. apply Z.ltb_ge in H1, H2. apply Z.ltb_ge. lia.
Qed.

Lemma precedes_asym (a b : option Timestamp) :
  precedes a b = true -> precedes b a = false.
Proof.
  destruct a as [a|], b as [b|]; simpl; try congruence.
  intro H. apply Z.ltb_lt in H. apply Z.ltb_ge. lia.
Qed.

Lemma insertDesc_perm (r : A) (rows : list A) :
  Permutation (insertDesc key r rows) (r :: rows).
Proof.
  induction rows as [|x rows IH]; simpl.
  - apply Permutation_refl.
  - destruct (precedes (key x) (key r)).
    + apply perm_trans with (x :: r :: rows).
      * apply perm_skip. exact IH.
      * apply perm_swap.
    + apply Permutation_refl.
Qed.

Lemma orderByDesc_perm (rows : list A) : Permutation (orderByDesc key rows) rows.
Proof.
  induction rows as [|x rows IH]; simpl.
  - apply perm_nil.
  - apply perm_trans with (x :: orderByDesc key rows).
    + apply insertDesc_perm.
    + apply perm_skip. exact IH.
Qed.

Lemma orderByDesc_In (rows : list A) (r : A) : In r (orderByDesc key rows) <-> In r rows.
Proof.
  split; apply Permutation_in.
  - apply orderByDesc_perm.
  - apply Permutation_sym. apply orderByDesc_perm.
Qed.

Lemma insertDesc_sorted (r : A) (rows : list A) :
  newestFirst key rows -> newestFirst key (insertDesc key r rows).
Proof.
  unfold newestFirst. induction rows as [|x rows IH]; intro H; simpl.
  - constructor; [constructor | constructor].
  - inversion H as [|? ? Hs Hall]; subst.
    destruct (precedes (key x) (key r)) eqn:E.
    + constructor.
      * apply IH. exact Hs.
      * apply Forall_forall. intros y Hy.
        apply (Permutation_in _ (insertDesc_perm r rows)) in Hy.
        destruct Hy as [Hy|Hy].
        -- subst y. apply precedes_asym. exact E.
        -- rewrite Forall_forall in Hall. apply Hall. exact Hy.
    + constructor; [exact H|].
      constructor; [exact E|].
      apply Forall_forall. intros y Hy. rewrite Forall_forall in Hall.
      apply precedes_trans with (b := key x); [exact E | apply Hall; exact Hy].
Qed.

Lemma orderByDesc_sorted (rows : list A) : newestFirst key (orderByDesc key rows).
Proof.
  induction rows as [|x rows IH]; simpl.
  - constructor.
  - apply insertDesc_sorted. exact IH.
Qed.

Lemma orderByDesc_appended (rows : list A) (new : A) :
  Permutation (orderByDesc key (rows ++ [new])) (new :: orderByDesc key rows).
Proof.
  apply perm_trans with (rows ++ [new])%list; [apply orderByDesc_perm|].
  apply perm_trans with (new :: rows).
  - apply Permutation_sym. apply Permutation_cons_append.
  - apply perm_skip. apply Permutation_sym. apply orderByDesc_perm.
Qed.

End Ordering.

Lemma filter_appended {A : Type} (keep : A -> bool) (rows : list A) (new : A) :
  filter keep (rows ++ [new]) = (filter keep rows ++ (if keep new then [new] else []))%list.
Proof. rewrite filter_app. reflexivity. Qed.

(** The joined row of a voucher depends on the deals, businesses and users
    only. *)
Lemma userVoucher_same (db db' : Db) (v : Voucher.t) :
  deals db' = deals db -> businesses db' = businesses db ->
  DatabaseStorage.userVoucher db' v = DatabaseStorage.userVoucher db v.
Proof.
  intros Hd Hb. unfold DatabaseStorage.userVoucher, Storage.joinDeal, Storage.joinBusiness.
  rewrite Hd, Hb. reflexivity.
Qed.

(** X4.  After the purchase route has issued a voucher, the buyer's
    voucher list holds what it held before and the new voucher, joined
    with its deal; the list is ordered newest purchase first; every other
    user's list is what it was. *)
Theorem purchased_voucher_listed :
  forall (user : string) (dealId : option string) (isSuccessful : bool)
         (nowV nowExpires nowCode : Timestamp) (random36 uuid : string)
         (nowExpiry dbNow : Timestamp) (db : Db) (v : Voucher.t),
    let r := Routes.purchase user dealId isSuccessful nowV nowExpires
               nowCode random36 uuid nowExpiry dbNow db in
    issued (fst r) = Some v ->
    Permutation (DatabaseStorage.getUserVouchers user (snd r))
      (DatabaseStorage.userVoucher (snd r) v :: DatabaseStorage.getUserVouchers user db)
    /\ UserVoucher.id (DatabaseStorage.userVoucher (snd r) v) = uuid
    /\ UserVoucher.status (DatabaseStorage.userVoucher (snd r) v) = Some "active"
    /\ UserVoucher.deal (DatabaseStorage.userVoucher (snd r) v) <> None
    /\ newestFirst UserVoucher.purchasedAt (DatabaseStorage.getUserVouchers user (snd r))
    /\ (forall other, other <> user ->
          DatabaseStorage.getUserVouchers other (snd r)
          = DatabaseStorage.getUserVouchers other db).
Proof.
  intros user dealId isSuccessful nowV nowExpires nowCode random36 uuid nowExpiry dbNow
         db v r Hi.
  destruct (purchase_issued _ _ _ _ _ _ _ _ _ _ _ _ Hi)
    as [deal [_ [Hv [Hdb [_ [_ [_ D]]]]]]].
  fold r in Hdb.
  assert (forall w, DatabaseStorage.userVoucher (snd r) w = DatabaseStorage.userVoucher db w)
    as Hsame by (intro w; apply userVoucher_same; rewrite Hdb; reflexivity).
  assert (Voucher.userId v = user) as Hu by (rewrite Hv; reflexivity).
  assert (vouchers (snd r) = (vouchers db ++ [v])%list) as Hvs by (rewrite Hdb; reflexivity).
  split; [|split; [|split; [|split; [|split]]]].
  - unfold DatabaseStorage.getUserVouchers. rewrite Hvs.
    rewrite filter_appended, Hu, String.eqb_refl, map_app.
    cbn [map]. rewrite (map_ext _ _ Hsame).
    apply orderByDesc_appended.
  - rewrite Hv. reflexivity.
  - rewrite Hv. reflexivity.
  - rewrite Hsame. unfold DatabaseStorage.userVoucher. cbn [UserVoucher.deal].
    assert (Storage.joinDeal db v <> None) as Hd.
    { unfold Storage.joinDeal.
      apply in_map_iff in D. destruct D as [d [Hid Hin]].
      intro Hnone.
      pose proof (find_none _ _ Hnone d Hin) as Hf. cbn beta in Hf.
      rewrite Hv in Hf. cbn [Voucher.dealId] in Hf. rewrite Hid, String.eqb_refl in Hf.
      discriminate Hf. }
    destruct (Storage.joinDeal db v); [discriminate | contradiction].
  - apply orderByDesc_sorted.
  - intros other Hother. unfold DatabaseStorage.getUserVouchers. rewrite Hvs.
    rewrite filter_appended, Hu.
    assert (String.eqb user other = false) as E
      by (apply String.eqb_neq; intro E; apply Hother; symmetry; exact E).
    rewrite E, app_nil_r. rewrite (map_ext _ _ Hsame). reflexivity.
Qed.

Lemma purchased_voucher_listed_witness :
  let r := Routes.purchase "u1" (Some "d1") true 1700000600000 1700000600000
             1700000600001 "0.4fzyo82mvyr" "v2" 1700000600002 1700000600003 Scenario.db in
  exists v,
    issued (fst r) = Some v
    /\ map UserVoucher.id (DatabaseStorage.getUserVouchers "u1" (snd r)) = ["v2"; "v1"]
    /\ newestFirst UserVoucher.purchasedAt (DatabaseStorage.getUserVouchers "u1" (snd r)).
Proof.
  eexists. split; [reflexivity|]. split; [reflexivity|].
  exact (proj1 (proj2 (proj2 (proj2 (proj2
           (purchased_voucher_listed "u1" (Some "d1") true 1700000600000 1700000600000
              1700000600001 "0.4fzyo82mvyr" "v2" 1700000600002 1700000600003 Scenario.db
              _ eq_refl)))))).
Defined.

Lemma businessVoucher_same (db db' : Db) (v : Voucher.t) :
  deals db' = deals db -> users db' = users db ->
  DatabaseStorage.businessVoucher db' v = DatabaseStorage.businessVoucher db v.
Proof.
  intros Hd Hu. unfold DatabaseStorage.businessVoucher, Storage.joinDeal, Storage.joinUser.
  rewrite Hd, Hu. reflexivity.
Qed.

(** The rows [getBusinessVouchers] answers are vouchers of deals of that
    business. *)
Lemma getBusinessVouchers_rows (businessId : string) (db : Db) (row : BusinessVoucher.t) :
  In row (DatabaseStorage.getBusinessVouchers businessId db)
  <-> exists w, In w (vouchers db)
        /\ DatabaseStorage.dealOf businessId db w = true
        /\ row = DatabaseStorage.businessVoucher db w.
Proof.
  unfold DatabaseStorage.getBusinessVouchers. rewrite orderByDesc_In, in_map_iff.
  split.
  - intros [w [E Hw]]. apply filter_In in Hw. exists w. intuition congruence.
  - intros [w [Hin [Hd E]]]. exists w. split; [congruence|]. apply filter_In. tauto.
Qed.

(** X5.  After the redeem route has answered success, the voucher list of
    the redeeming business shows the voucher as used, with the time of
    the write as its [usedAt]; and the list of any business only ever
    holds vouchers whose deal belongs to that business. *)
Theorem redeemed_voucher_listed_used :
  forall (code businessId : string) (now writeAt replyAt : Timestamp) (db : Db),
    let r := Routes.redeem (Some code) (Some businessId) now writeAt replyAt db in
    success (fst r) = Some true ->
    (exists row,
       In row (DatabaseStorage.getBusinessVouchers businessId (snd r))
       /\ BusinessVoucher.code row = code
       /\ BusinessVoucher.status row = Some "used"
       /\ BusinessVoucher.usedAt row = Some writeAt)
    /\ (forall b row,
          In row (DatabaseStorage.getBusinessVouchers b (snd r)) ->
          exists w d,
            In w (vouchers (snd r))
            /\ BusinessVoucher.id row = Voucher.id w
            /\ Storage.joinDeal (snd r) w = Some d
            /\ Deal.businessId d = b)
    /\ newestFirst BusinessVoucher.purchasedAt
         (DatabaseStorage.getBusinessVouchers businessId (snd r)).
Proof.
  intros code businessId now writeAt replyAt db r H.
  destruct (redeem_success _ _ _ _ _ _ H)
    as [c [b [v [o [Ec [Eb [Hc [Hb [Hv [Ho [Hid [Ht [Hs Hdb]]]]]]]]]]]]].
  injection Ec as Ec. injection Eb as Eb. subst c b. fold r in Hdb.
  destruct (lookup_stored _ _ _ Hv) as [Hin Hcode].
  destruct (owner_deal _ _ _ Ho) as [d [Hd Hbz]].
  assert (deals (snd r) = deals db) as Hdeals by (rewrite Hdb; reflexivity).
  split; [|split].
  - exists (DatabaseStorage.businessVoucher (snd r) (Storage.markUsed writeAt v)).
    split; [|split; [exact Hcode | split; reflexivity]].
    apply getBusinessVouchers_rows. exists (Storage.markUsed writeAt v).
    split; [|split; [|reflexivity]].
    + rewrite Hdb. cbn [Storage.useVoucher snd vouchers set_vouchers].
      apply in_map_iff. exists v. split; [|exact Hin].
      assert (Storage.usable (Voucher.id v) v = true) as U
        by (apply usable_spec; split; [reflexivity | exact Hs]).
      rewrite U. reflexivity.
    + unfold DatabaseStorage.dealOf, Storage.joinDeal. rewrite Hdeals.
      cbn [Storage.markUsed Voucher.dealId].
      unfold Storage.joinDeal in Hd. rewrite Hd.
      apply find_some in Hbz. destruct Hbz as [_ Hbz].
      apply String.eqb_eq in Hbz. rewrite <- Hbz, Hid. apply String.eqb_refl.
  - intros b row Hrow. apply getBusinessVouchers_rows in Hrow.
    destruct Hrow as [w [Hw [Hdeal E]]]. unfold DatabaseStorage.dealOf in Hdeal.
    destruct (Storage.joinDeal (snd r) w) as [d'|] eqn:Hd'; [|discriminate].
    exists w, d'. split; [exact Hw|]. split; [rewrite E; reflexivity|].
    split; [exact Hd'|]. apply String.eqb_eq. exact Hdeal.
  - apply orderByDesc_sorted.
Qed.

Lemma redeemed_voucher_listed_used_witness :
  let r := Routes.redeem (Some "DS-1700000000000-AB12CD") (Some "b1")
             Scenario.now Scenario.now Scenario.now Scenario.db in
  success (fst r) = Some true
  /\ map BusinessVoucher.status (DatabaseStorage.getBusinessVouchers "b1" (snd r))
     = [Some "used"]
  /\ newestFirst BusinessVoucher.purchasedAt (DatabaseStorage.getBusinessVouchers "b1" (snd r)).
Proof.
  split; [reflexivity|]. split; [reflexivity|].
  exact (proj2 (proj2 (redeemed_voucher_listed_used "DS-1700000000000-AB12CD" "b1"
                         Scenario.now Scenario.now Scenario.now Scenario.db eq_refl))).
Defined.

(** What the notification route stores when it answers success. *)
Lemma notify_success (userId title text type : option string)
    (uuid : string) (dbNow : Timestamp) (db : Db) :
  success (fst (Routes.notify userId title text type uuid dbNow db)) = Some true ->
  exists u t m k,
    userId = Some u /\ title = Some t /\ text = Some m /\ type = Some k
    /\ In u (map User.id (users db))
    /\ ~ In uuid (map Notification.id (notifications db))
    /\ snd (Routes.notify userId title text type uuid dbNow db)
       = set_notifications
           (notifications db ++ [Notification.mk uuid u t m k (Some false) (Some dbNow)]) db.
Proof.
  unfold Routes.notify, Storage.createNotification.
  cbn [InsertNotification.userId InsertNotification.title InsertNotification.message
       InsertNotification.type InsertNotification.read].
  destruct userId as [u|], title as [t|], text as [m|], type as [k|];
    try (cbn; discriminate).
  destruct (existsb (fun n => String.eqb (Notification.id n) uuid) (notifications db)) eqn:E1;
    cbn [negb andb]; [cbn; discriminate|].
  destruct (existsb (fun x => String.eqb (User.id x) u) (users db)) eqn:E2;
    [|cbn; discriminate].
  intros _. exists u, t, m, k. repeat split.
  - apply id_stored. exact E2.
  - intro Hin. apply (id_stored Notification.id) in Hin. congruence.
Qed.

(** X6.  After the notification route has answered success, the
    addressee's notification list holds what it held before and the new
    notification, unread; the list is ordered newest first; every other
    user's list is what it was. *)
Theorem notification_listed :
  forall (userId title text type : option string) (uuid : string) (dbNow : Timestamp)
         (db : Db),
    let r := Routes.notify userId title text type uuid dbNow db in
    success (fst r) = Some true ->
    exists u t m k,
      userId = Some u /\ title = Some t /\ text = Some m /\ type = Some k
      /\ Permutation (DatabaseStorage.getUserNotifications u (snd r))
           (Notification.mk uuid u t m k (Some false) (Some dbNow)
            :: DatabaseStorage.getUserNotifications u db)
      /\ newestFirst Notification.createdAt (DatabaseStorage.getUserNotifications u (snd r))
      /\ (forall other, other <> u ->
            DatabaseStorage.getUserNotifications other (snd r)
            = DatabaseStorage.getUserNotifications other db).
Proof.
  intros userId title text type uuid dbNow db r H.
  destruct (notify_success _ _ _ _ _ _ _ H)
    as [u [t [m [k [Eu [Et [Em [Ek [_ [_ Hdb]]]]]]]]]].
  fold r in Hdb.
  exists u, t, m, k. repeat (split; [assumption|]).
  assert (notifications (snd r)
          = (notifications db
             ++ [Notification.mk uuid u t m k (Some false) (Some dbNow)])%list) as Hns
    by (rewrite Hdb; reflexivity).
  split; [|split].
  - unfold DatabaseStorage.getUserNotifications. rewrite Hns, filter_appended.
    cbn [Notification.userId]. rewrite String.eqb_refl. apply orderByDesc_appended.
  - apply orderByDesc_sorted.
  - intros other Hother. unfold DatabaseStorage.getUserNotifications.
    rewrite Hns, filter_appended. cbn [Notification.userId].
    assert (String.eqb u other = false) as E
      by (apply String.eqb_neq; intro E; apply Hother; symmetry; exact E).
    rewrite E, app_nil_r. reflexivity.
Qed.

Lemma notification_listed_witness :
  let r := Routes.notify (Some "u1") (Some "Nieuwe voucher") (Some "Uw voucher is aangekocht!")
             (Some "new_voucher") "n1" Scenario.now Scenario.db in
  success (fst r) = Some true
  /\ map Notification.id (DatabaseStorage.getUserNotifications "u1" (snd r)) = ["n1"]
  /\ DatabaseStorage.getUserNotifications "u2" (snd r) = [].
Proof.
  split; [reflexivity|]. split; [reflexivity|].
  destruct (notification_listed (Some "u1") (Some "Nieuwe voucher")
              (Some "Uw voucher is aangekocht!") (Some "new_voucher") "n1"
              Scenario.now Scenario.db eq_refl)
    as [u [t [m [k [Eu [_ [_ [_ [_ [_ Hother]]]]]]]]]].
  injection Eu as Eu. subst u.
  rewrite (Hother "u2"); [reflexivity | discriminate].
Defined.

(** What the payout route stores when it answers success. *)
Lemma payout_success (businessId voucherId : option string) (amount : option Decimal)
    (description : option string) (uuid : string) (createdAt : Timestamp) (db : Db) :
  success (fst (Routes.payout businessId voucherId amount description uuid createdAt db))
  = Some true ->
  exists b v a,
    businessId = Some b /\ voucherId = Some v /\ amount = Some a
    /\ In b (map Business.id (businesses db))
    /\ In v (map Voucher.id (vouchers db))
    /\ ~ In uuid (map BusinessPayment.id (business_payments db))
    /\ snd (Routes.payout businessId voucherId amount description uuid createdAt db)
       = set_business_payments
           (business_payments db
            ++ [BusinessPayment.mk uuid b v a description None (Some "completed")
                  (Some createdAt)]) db.
Proof.
  intro H.
  destruct amount as [a|]; [|discriminate H].
  destruct businessId as [b|]; [|discriminate H].
  destruct voucherId as [v|]; [|discriminate H].
  destruct (existsb (fun p => String.eqb (BusinessPayment.id p) uuid) (business_payments db))
    eqn:E1.
  { revert H. unfold Routes.payout, Storage.createBusinessPayment.
    cbn [InsertBusinessPayment.businessId InsertBusinessPayment.voucherId].
    rewrite E1. cbn. discriminate. }
  destruct (existsb (fun x => String.eqb (Business.id x) b) (businesses db)) eqn:E2.
  2:{ revert H. unfold Routes.payout, Storage.createBusinessPayment.
      cbn [InsertBusinessPayment.businessId InsertBusinessPayment.voucherId].
      rewrite E1, E2. cbn. discriminate. }
  destruct (existsb (fun x => String.eqb (Voucher.id x) v) (vouchers db)) eqn:E3.
  2:{ revert H. unfold Routes.payout, Storage.createBusinessPayment.
      cbn [InsertBusinessPayment.businessId InsertBusinessPayment.voucherId].
      rewrite E1, E2, E3. cbn. discriminate. }
  exists b, v, a. repeat (split; [reflexivity|]).
  split; [apply id_stored; exact E2|].
  split; [apply id_stored; exact E3|].
  split.
  - intro Hin. apply (id_stored BusinessPayment.id) in Hin. congruence.
  - apply payout_stores; assumption.
Qed.

(** X7.  After the payout route has answered success, the payment list
    of the paid business holds what it held before and one new payment,
    completed, for the voucher and the amount of the request; the list is
    ordered newest first; every other business's list is what it was. *)
Theorem payout_listed_completed :
  forall (businessId voucherId : option string) (amount : option Decimal)
         (description : option string) (uuid : string) (createdAt : Timestamp) (db : Db),
    let r := Routes.payout businessId voucherId amount description uuid createdAt db in
    success (fst r) = Some true ->
    exists b v a,
      businessId = Some b /\ voucherId = Some v /\ amount = Some a
      /\ Permutation (DatabaseStorage.getBusinessPayments b (snd r))
           (BusinessPayment.mk uuid b v a description None (Some "completed") (Some createdAt)
            :: DatabaseStorage.getBusinessPayments b db)
      /\ newestFirst BusinessPayment.createdAt (DatabaseStorage.getBusinessPayments b (snd r))
      /\ (forall other, other <> b ->
            DatabaseStorage.getBusinessPayments other (snd r)
            = DatabaseStorage.getBusinessPayments other db).
Proof.
  intros businessId voucherId amount description uuid createdAt db r H.
  destruct (payout_success _ _ _ _ _ _ _ H)
    as [b [v [a [Eb [Ev [Ea [_ [_ [_ Hdb]]]]]]]]].
  fold r in Hdb.
  exists b, v, a. repeat (split; [assumption|]).
  assert (business_payments (snd r)
          = (business_payments db
             ++ [BusinessPayment.mk uuid b v a description None (Some "completed")
                   (Some createdAt)])%list) as Hps
    by (rewrite Hdb; reflexivity).
  split; [|split].
  - unfold DatabaseStorage.getBusinessPayments. rewrite Hps, filter_appended.
    cbn [BusinessPayment.businessId]. rewrite String.eqb_refl. apply orderByDesc_appended.
  - apply orderByDesc_sorted.
  - intros other Hother. unfold DatabaseStorage.getBusinessPayments.
    rewrite Hps, filter_appended. cbn [BusinessPayment.businessId].
    assert (String.eqb b other = false) as E
      by (apply String.eqb_neq; intro E; apply Hother; symmetry; exact E).
    rewrite E, app_nil_r. reflexivity.
Qed.

Lemma payout_listed_completed_witness :
  let r := Routes.payout (Some "b1") (Some "v1") (Some 2500) (Some "Voucher uitbetaling")
             "p1" Scenario.now Scenario.db in
  success (fst r) = Some true
  /\ map BusinessPayment.status (DatabaseStorage.getBusinessPayments "b1" (snd r))
     = [Some "completed"]
  /\ DatabaseStorage.getBusinessPayments "b2" (snd r) = [].
Proof.
  split; [reflexivity|]. split; [reflexivity|].
  destruct (payout_listed_completed (Some "b1") (Some "v1") (Some 2500)
              (Some "Voucher uitbetaling") "p1" Scenario.now Scenario.db eq_refl)
    as [b [v [a [Eb [_ [_ [_ [_ Hother]]]]]]]].
  injection Eb as Eb. subst b.
  rewrite (Hother "b2"); [reflexivity | discriminate].
Defined.

Lemma find_appended_other {A : Type} (wanted : A -> bool) (rows : list A) (new : A) :
  wanted new = false -> find wanted (rows ++ [new]) = find wanted rows.
Proof.
  intro E. induction rows as [|x xs IH]; simpl.
  - rewrite E. reflexivity.
  - destruct (wanted x); [reflexivity | exact IH].
Qed.

(** X8.  [getVoucher] reads back what [createVoucher] has stored, under the
    id it was given; the vouchers of other ids read as before; and after
    [useVoucher] on the new id the same read shows the voucher used at the
    time of that write. *)
Theorem getVoucher_after_createVoucher :
  forall (voucher : InsertVoucher.t) (nowCode : Timestamp) (random36 uuid : string)
         (nowExpiry dbNow : Timestamp) (db : Db) (v : Voucher.t) (db' : Db),
    Storage.createVoucher voucher nowCode random36 uuid nowExpiry dbNow db = Ok (v, db') ->
    Voucher.id v = uuid
    /\ DatabaseStorage.getVoucher uuid db = None
    /\ DatabaseStorage.getVoucher uuid db' = Some v
    /\ (forall id, id <> uuid ->
          DatabaseStorage.getVoucher id db' = DatabaseStorage.getVoucher id db)
    /\ (forall now,
          Voucher.status v = Some "active" ->
          DatabaseStorage.getVoucher uuid (snd (Storage.useVoucher uuid now db'))
          = Some (Storage.markUsed now v)).
Proof.
  intros voucher nowCode random36 uuid nowExpiry dbNow db v db' H.
  destruct (createVoucher_stored _ _ _ _ _ _ _ _ _ H) as [Hv [Hdb [F _]]].
  assert (Voucher.id v = uuid) as Hid by (rewrite Hv; reflexivity).
  assert (forall r, In r (vouchers db) -> String.eqb (Voucher.id r) uuid = false) as Hfresh.
  { intros r Hr. apply String.eqb_neq. intro E. apply F. rewrite <- E.
    apply in_map. exact Hr. }
  assert (DatabaseStorage.getVoucher uuid db' = Some v) as Hget.
  { unfold DatabaseStorage.getVoucher. rewrite Hdb. cbn [vouchers set_vouchers].
    apply find_appended; [exact Hfresh|]. rewrite Hid. apply String.eqb_refl. }
  split; [exact Hid|]. split; [|split; [exact Hget|split]].
  - unfold DatabaseStorage.getVoucher.
    destruct (find _ (vouchers db)) as [w|] eqn:E; [|reflexivity].
    apply find_some in E. destruct E as [Hin E]. rewrite (Hfresh w Hin) in E. discriminate E.
  - intros id Hne. unfold DatabaseStorage.getVoucher. rewrite Hdb.
    cbn [vouchers set_vouchers].
    assert (String.eqb (Voucher.id v) id = false) as E
      by (apply String.eqb_neq; rewrite Hid; intro E; apply Hne; symmetry; exact E).
    apply find_appended_other. exact E.
  - intros now Hs. unfold DatabaseStorage.getVoucher.
    cbn [Storage.useVoucher snd vouchers set_vouchers].
    rewrite find_update.
    + unfold DatabaseStorage.getVoucher in Hget. rewrite Hget. cbn [option_map].
      assert (Storage.usable uuid v = true) as U
        by (apply usable_spec; split; assumption).
      rewrite U. reflexivity.
    + intro r. destruct (Storage.usable uuid r); reflexivity.
Qed.

Lemma getVoucher_after_createVoucher_witness :
  let voucher := InsertVoucher.mk "u1" "d1" "V1700000600000" None None None in
  exists v db',
    Storage.createVoucher voucher 1700000600000 "0.4fzyo82mvyr" "v2"
      1700000600001 1700000600002 Scenario.db = Ok (v, db')
    /\ DatabaseStorage.getVoucher "v2" db' = Some v
    /\ DatabaseStorage.getVoucher "v1" db' = DatabaseStorage.getVoucher "v1" Scenario.db.
Proof.
  eexists. eexists. split; [reflexivity|].
  destruct (getVoucher_after_createVoucher
              (InsertVoucher.mk "u1" "d1" "V1700000600000" None None None)
              1700000600000 "0.4fzyo82mvyr" "v2" 1700000600001 1700000600002 Scenario.db
              _ _ eq_refl) as [_ [_ [Hget [Hother _]]]].
  split; [exact Hget|]. apply Hother. discriminate.
Defined.

(** ** Favourites *)

Lemma favoriteOf_spec (userId dealId : string) (f : Favorite.t) :
  DatabaseStorage.favoriteOf userId dealId f = true
  <-> Favorite.userId f = userId /\ Favorite.dealId f = dealId.
Proof.
  unfold DatabaseStorage.favoriteOf. rewrite andb_true_iff, !String.eqb_eq. tauto.
Qed.

Lemma isFavorite_spec (userId dealId : string) (s : Site) :
  DatabaseStorage.isFavorite userId dealId s = true
  <-> exists f, In f (favorites s) /\ Favorite.userId f = userId /\ Favorite.dealId f = dealId.
Proof.
  unfold DatabaseStorage.isFavorite.
  destruct (find _ (favorites s)) as [f|] eqn:E.
  - apply find_some in E. destruct E as [Hin E]. apply favoriteOf_spec in E.
    split; [intros _; exists f; tauto | reflexivity].
  - split; [discriminate|]. intros [f [Hin Hf]].
    pose proof (find_none _ _ E f Hin) as N. apply favoriteOf_spec in Hf. congruence.
Qed.

Lemma addFavorite_accepts (user dealId uuid : string) (dbNow : Timestamp) (s : Site) :
  DatabaseStorage.favoritesAccept (Favorite.mk uuid user dealId (Some dbNow)) s = true
  <-> ~ In uuid (map Favorite.id (favorites s))
      /\ In user (map User.id (users (core s)))
      /\ In dealId (map Deal.id (deals (core s))).
Proof.
  unfold DatabaseStorage.favoritesAccept. cbn [Favorite.id Favorite.userId Favorite.dealId].
  rewrite !andb_true_iff, negb_true_iff, !id_stored.
  split.
  - intros [[H1 H2] H3]. split; [|tauto].
    intro Hin. apply (id_stored Favorite.id) in Hin. congruence.
  - intros [H1 [H2 H3]]. split; [split|]; try assumption.
    destruct (existsb _ (favorites s)) eqn:E; [|reflexivity].
    exfalso. apply H1. apply (id_stored Favorite.id). exact E.
Qed.

Lemma filter_all {A : Type} (keep : A -> bool) (rows : list A) :
  (forall r, In r rows -> keep r = true) -> filter keep rows = rows.
Proof.
  intro H. induction rows as [|x xs IH]; [reflexivity|]. simpl.
  rewrite (H x (or_introl eq_refl)). f_equal. apply IH.
  intros r Hr. apply H. right. exact Hr.
Qed.

(** X9.  POST /api/favorites answers 200 exactly when the id drawn is
    new and the caller and the deal are stored, whether or not the deal
    is a favourite already; then the check route answers true for the
    pair.  Otherwise it answers 400 and stores nothing.  Either way every
    pair that was a favourite still is one. *)
Theorem favorite_added_is_favorite :
  forall (user dealId uuid : string) (dbNow : Timestamp) (s : Site),
    let r := Handlers.addFavorite user (Some dealId) uuid dbNow s in
    (http (fst r) = 200
     <-> ~ In uuid (map Favorite.id (favorites s))
         /\ In user (map User.id (users (core s)))
         /\ In dealId (map Deal.id (deals (core s))))
    /\ (http (fst r) = 200 ->
          Handlers.checkFavorite user dealId (snd r) = true
          /\ favorites (snd r)
             = (favorites s ++ [Favorite.mk uuid user dealId (Some dbNow)])%list)
    /\ (http (fst r) <> 200 ->
          fst r = Handlers.say 400 "Failed to add favorite" /\ snd r = s)
    /\ core (snd r) = core s
    /\ (forall u d, Handlers.checkFavorite u d s = true ->
          Handlers.checkFavorite u d (snd r) = true).
Proof.
  intros user dealId uuid dbNow s r.
  pose proof (addFavorite_accepts user dealId uuid dbNow s) as Hacc.
  subst r. unfold Handlers.addFavorite, DatabaseStorage.addFavorite.
  cbn [InsertFavorite.userId InsertFavorite.dealId].
  destruct (DatabaseStorage.favoritesAccept _ s) eqn:E; cbn [negb fst snd].
  - split; [split; [intros _; apply Hacc; reflexivity | reflexivity]|].
    split; [|split; [|split]].
    + intros _. split; [|reflexivity].
      unfold Handlers.checkFavorite. apply isFavorite_spec.
      eexists. split; [|split].
      * cbn [favorites set_favorites]. apply in_or_app. right. left. reflexivity.
      * reflexivity.
      * reflexivity.
    + intro H. exfalso. apply H. reflexivity.
    + reflexivity.
    + unfold Handlers.checkFavorite. intros u d H. apply isFavorite_spec in H.
      destruct H as [f [Hin Hf]]. apply isFavorite_spec. exists f. split; [|exact Hf].
      cbn [favorites set_favorites]. apply in_or_app. left. exact Hin.
  - split.
    + split; [discriminate|]. intro H. apply Hacc in H. discriminate H.
    + split; [discriminate|]. split; [intros _; split; reflexivity|].
      split; [reflexivity|]. intros u d H. exact H.
Qed.

(** X10.  After DELETE /api/favorites/:dealId the check route answers
    false for the pair, however many rows stored it.  The route answers
    200 exactly when the pair was a favourite; otherwise it answers 400
    and changes nothing.  No other pair changes. *)
Theorem favorite_removed_is_gone :
  forall (user dealId : string) (s : Site),
    let r := Handlers.removeFavorite user dealId s in
    Handlers.checkFavorite user dealId (snd r) = false
    /\ (http (fst r) = 200 <-> Handlers.checkFavorite user dealId s = true)
    /\ (Handlers.checkFavorite user dealId s = false ->
          fst r = Handlers.say 400 "Failed to remove favorite" /\ snd r = s)
    /\ core (snd r) = core s
    /\ (forall u d, u <> user \/ d <> dealId ->
          Handlers.checkFavorite u d (snd r) = Handlers.checkFavorite u d s).
Proof.
  intros user dealId s r.
  assert (snd r
          = set_favorites
              (filter (fun f => negb (DatabaseStorage.favoriteOf user dealId f)) (favorites s))
              s) as Hdb.
  { subst r. unfold Handlers.removeFavorite, DatabaseStorage.removeFavorite.
    destruct (Nat.ltb 0 _); reflexivity. }
  assert (http (fst r) = 200 <-> Handlers.checkFavorite user dealId s = true) as Hiff.
  { subst r. unfold Handlers.removeFavorite, DatabaseStorage.removeFavorite,
      Handlers.checkFavorite, DatabaseStorage.isFavorite.
    destruct (Nat.ltb 0 (length (filter _ (favorites s)))) eqn:E; cbn [negb fst http Handlers.say].
    - apply returned_some in E. destruct E as [f [Hin Hf]].
      destruct (find _ (favorites s)) eqn:F; [tauto|].
      pose proof (find_none _ _ F f Hin). congruence.
    - pose proof (proj1 (returned_none _ _) E) as N.
      destruct (find _ (favorites s)) as [f|] eqn:F.
      + apply find_some in F. destruct F as [Hin F]. rewrite (N f Hin) in F. discriminate F.
      + split; discriminate. }
  split; [|split; [exact Hiff|split; [|split]]].
  - unfold Handlers.checkFavorite. rewrite Hdb.
    destruct (DatabaseStorage.isFavorite user dealId _) eqn:E; [|reflexivity].
    apply isFavorite_spec in E. destruct E as [f [Hin Hf]].
    cbn [favorites set_favorites] in Hin. apply filter_In in Hin.
    destruct Hin as [_ Hin]. apply favoriteOf_spec in Hf. rewrite Hf in Hin. discriminate Hin.
  - intro Hno.
    assert (forall f, In f (favorites s) -> DatabaseStorage.favoriteOf user dealId f = false)
      as N.
    { intros f Hin. destruct (DatabaseStorage.favoriteOf user dealId f) eqn:E; [|reflexivity].
      assert (Handlers.checkFavorite user dealId s = true) as Y.
      { apply isFavorite_spec. exists f. split; [exact Hin|]. apply favoriteOf_spec. exact E. }
      congruence. }
    split.
    + subst r. unfold Handlers.removeFavorite, DatabaseStorage.removeFavorite.
      rewrite (proj2 (returned_none _ _) N). reflexivity.
    + rewrite Hdb, filter_all.
      * destruct s; reflexivity.
      * intros f Hin. rewrite (N f Hin). reflexivity.
  - rewrite Hdb. reflexivity.
  - intros u d Hne. unfold Handlers.checkFavorite.
    apply eq_true_iff_eq. rewrite !isFavorite_spec, Hdb. cbn [favorites set_favorites].
    split; intros [f [Hin [Hu Hd]]]; exists f.
    + apply filter_In in Hin. tauto.
    + split; [|tauto]. apply filter_In. split; [exact Hin|].
      apply negb_true_iff. destruct (DatabaseStorage.favoriteOf user dealId f) eqn:E;
        [|reflexivity].
      apply favoriteOf_spec in E. destruct E as [E1 E2].
      exfalso. destruct Hne as [Hne|Hne]; apply Hne; congruence.
Qed.

Lemma find_stored {A : Type} (id : A -> string) (wanted : string) (rows : list A) :
  In wanted (map id rows) ->
  exists r, find (fun x => String.eqb (id x) wanted) rows = Some r /\ id r = wanted.
Proof.
  intro H. destruct (find (fun x => String.eqb (id x) wanted) rows) as [r|] eqn:E.
  - exists r. split; [reflexivity|]. apply find_some in E. apply String.eqb_eq. apply E.
  - exfalso. apply in_map_iff in H. destruct H as [x [Hx Hin]].
    pose proof (find_none _ _ E x Hin) as N. cbn beta in N.
    rewrite Hx, String.eqb_refl in N. discriminate N.
Qed.

(** What POST /api/favorites stores when it answers 200. *)
Lemma favorite_added_parts (user dealId uuid : string) (dbNow : Timestamp) (s : Site) :
  http (fst (Handlers.addFavorite user (Some dealId) uuid dbNow s)) = 200 ->
  favorites (snd (Handlers.addFavorite user (Some dealId) uuid dbNow s))
  = (favorites s ++ [Favorite.mk uuid user dealId (Some dbNow)])%list
  /\ core (snd (Handlers.addFavorite user (Some dealId) uuid dbNow s)) = core s
  /\ In dealId (map Deal.id (deals (core s))).
Proof.
  pose proof (addFavorite_accepts user dealId uuid dbNow s) as Hacc.
  unfold Handlers.addFavorite, DatabaseStorage.addFavorite.
  cbn [InsertFavorite.userId InsertFavorite.dealId].
  destruct (DatabaseStorage.favoritesAccept _ s); cbn [negb fst snd]; [|discriminate].
  intros _. split; [reflexivity|]. split; [reflexivity|]. apply Hacc. reflexivity.
Qed.

(** X11.  After POST /api/favorites has answered 200, the caller's
    favourites list holds what it held before and the deal of the
    request, joined from the deals table, and no other user's list
    changes; after DELETE /api/favorites/:dealId the caller's list holds
    no deal of that id. *)
Theorem favorites_listed :
  (forall (user dealId uuid : string) (dbNow : Timestamp) (s : Site),
     let r := Handlers.addFavorite user (Some dealId) uuid dbNow s in
     http (fst r) = 200 ->
     exists d,
       DatabaseStorage.getUserFavorites user (snd r)
       <> DatabaseStorage.getUserFavorites user s
       /\ Deal.id d = dealId
       /\ In d (deals (core s))
       /\ Permutation (DatabaseStorage.getUserFavorites user (snd r))
            (FavoriteDeal.mk (Some d)
               (FavoriteDeal.business
                  (DatabaseStorage.favoriteDeal (core s)
                     (Favorite.mk uuid user dealId (Some dbNow))))
             :: DatabaseStorage.getUserFavorites user s)
       /\ (forall other, other <> user ->
             DatabaseStorage.getUserFavorites other (snd r)
             = DatabaseStorage.getUserFavorites other s))
  /\
  (forall (user dealId : string) (s : Site) (row : FavoriteDeal.t) (d : Deal.t),
     In row (DatabaseStorage.getUserFavorites user
               (snd (Handlers.removeFavorite user dealId s))) ->
     FavoriteDeal.deal row = Some d ->
     Deal.id d <> dealId).
Proof.
  split.
  - intros user dealId uuid dbNow s r H.
    destruct (favorite_added_parts user dealId uuid dbNow s H) as [Hfs [Hcore Hdeal]].
    fold r in Hfs, Hcore.
    destruct (find_stored Deal.id dealId (deals (core s)) Hdeal) as [d [Hd Hid]].
    assert (Permutation (DatabaseStorage.getUserFavorites user (snd r))
              (FavoriteDeal.mk (Some d)
                 (FavoriteDeal.business
                    (DatabaseStorage.favoriteDeal (core s)
                       (Favorite.mk uuid user dealId (Some dbNow))))
               :: DatabaseStorage.getUserFavorites user s)) as P.
    { unfold DatabaseStorage.getUserFavorites. rewrite Hfs, Hcore, filter_appended.
      cbn [Favorite.userId]. rewrite String.eqb_refl.
      eapply perm_trans.
      - apply Permutation_map. apply orderByDesc_appended.
      - cbn [map]. unfold DatabaseStorage.favoriteDeal at 1 3.
        cbn [Favorite.dealId FavoriteDeal.business]. rewrite Hd. apply Permutation_refl. }
    exists d. split; [|split; [exact Hid|split; [|split; [exact P|]]]].
    + intro E. rewrite E in P. apply Permutation_length in P. simpl in P. lia.
    + apply find_some in Hd. apply Hd.
    + intros other Hother. unfold DatabaseStorage.getUserFavorites.
      rewrite Hfs, Hcore, filter_appended. cbn [Favorite.userId].
      assert (String.eqb user other = false) as E
        by (apply String.eqb_neq; intro E; apply Hother; symmetry; exact E).
      rewrite E, app_nil_r. reflexivity.
  - intros user dealId s row d Hrow Hdeal Hid.
    assert (favorites (snd (Handlers.removeFavorite user dealId s))
            = filter (fun f => negb (DatabaseStorage.favoriteOf user dealId f)) (favorites s))
      as Hfs.
    { unfold Handlers.removeFavorite, DatabaseStorage.removeFavorite.
      destruct (Nat.ltb 0 _); reflexivity. }
    unfold DatabaseStorage.getUserFavorites in Hrow. rewrite Hfs in Hrow.
    apply in_map_iff in Hrow. destruct Hrow as [f [E Hf]].
    apply orderByDesc_In in Hf. apply filter_In in Hf. destruct Hf as [Hf Hu].
    apply filter_In in Hf. destruct Hf as [_ Hf].
    apply String.eqb_eq in Hu. apply negb_true_iff in Hf.
    rewrite <- E in Hdeal. unfold DatabaseStorage.favoriteDeal in Hdeal.
    cbn [FavoriteDeal.deal] in Hdeal. apply find_some in Hdeal.
    destruct Hdeal as [_ Hdeal]. apply String.eqb_eq in Hdeal.
    assert (DatabaseStorage.favoriteOf user dealId f = true) as Y
      by (apply favoriteOf_spec; split; congruence).
    congruence.
Qed.

Lemma favorites_listed_witness :
  let r := Handlers.addFavorite "u1" (Some "d1") "f1" Scenario.now Demo.site in
  http (fst r) = 200
  /\ map FavoriteDeal.deal (DatabaseStorage.getUserFavorites "u1" (snd r))
     = [Some (Deal.mk "d1" "b1" "Diner voor twee" "Drie gangen" 5000 2500 50)]
  /\ DatabaseStorage.getUserFavorites "u2" (snd r) = [].
Proof.
  split; [reflexivity|]. split; [reflexivity|].
  destruct (proj1 favorites_listed "u1" "d1" "f1" Scenario.now Demo.site eq_refl)
    as [d [_ [_ [_ [_ Hother]]]]].
  rewrite (Hother "u2"); [reflexivity | discriminate].
Defined.

(** ** Business accounts *)

Lemma hexDigit_not_colon (c : ascii) : hexDigit c = true -> Ascii.eqb c ":" = false.
Proof.
  intro H. destruct (Ascii.eqb_spec c ":"%char) as [E|]; [|reflexivity].
  subst c. discriminate H.
Qed.

Lemma hex_cons (c : ascii) (s : string) :
  hex (String c s) = true <-> hexDigit c = true /\ hex s = true.
Proof. unfold hex. simpl. apply andb_true_iff. Qed.

Lemma split_hex (a : string) : hex a = true -> split ":" a = [a].
Proof.
  induction a as [|c a IH]; intro H; [reflexivity|].
  apply hex_cons in H. destruct H as [Hc Ha]. simpl.
  rewrite (hexDigit_not_colon c Hc), (IH Ha). reflexivity.
Qed.

Lemma split_salted (a b : string) :
  hex a = true -> split ":" (a ++ ":" ++ b) = a :: split ":" b.
Proof.
  induction a as [|c a IH]; intro H; [reflexivity|].
  apply hex_cons in H. destruct H as [Hc Ha].
  change (String c a ++ ":" ++ b)%string with (String c (a ++ ":" ++ b)).
  cbn [split]. rewrite (hexDigit_not_colon c Hc), (IH Ha). reflexivity.
Qed.

Lemma verifyPassword_hashed (pbkdf2 : string -> string -> string)
    (password other salt : string) :
  hex salt = true ->
  hex (pbkdf2 password salt) = true ->
  DatabaseStorage.verifyPassword pbkdf2 other
    (DatabaseStorage.hashPassword pbkdf2 password salt)
  = String.eqb (pbkdf2 password salt) (pbkdf2 other salt).
Proof.
  intros Hs Hh. unfold DatabaseStorage.verifyPassword, DatabaseStorage.hashPassword.
  rewrite (split_salted _ _ Hs), (split_hex _ Hh). reflexivity.
Qed.

(** X12.  A password hashed by [hashPassword] verifies against itself,
    and another password verifies against it only if [pbkdf2Sync] gives
    both the same hash under the stored salt; salt and hash are hex
    strings, as [toString('hex')] prints them. *)
Theorem password_round_trip :
  forall (pbkdf2 : string -> string -> string) (password salt : string),
    hex salt = true ->
    hex (pbkdf2 password salt) = true ->
    DatabaseStorage.verifyPassword pbkdf2 password
      (DatabaseStorage.hashPassword pbkdf2 password salt) = true
    /\ (forall other,
          DatabaseStorage.verifyPassword pbkdf2 other
            (DatabaseStorage.hashPassword pbkdf2 password salt) = true
          <-> pbkdf2 other salt = pbkdf2 password salt).
Proof.
  intros pbkdf2 password salt Hs Hh. split.
  - rewrite verifyPassword_hashed by assumption. apply String.eqb_refl.
  - intro other. rewrite verifyPassword_hashed by assumption.
    rewrite String.eqb_eq. split; intro E; symmetry; exact E.
Qed.

Lemma password_round_trip_witness :
  hex "5a17" = true
  /\ DatabaseStorage.verifyPassword Demo.pbkdf2 "geheim"
       (DatabaseStorage.hashPassword Demo.pbkdf2 "geheim" "5a17") = true
  /\ DatabaseStorage.verifyPassword Demo.pbkdf2 "anders"
       (DatabaseStorage.hashPassword Demo.pbkdf2 "geheim" "5a17") = false.
Proof.
  split; [reflexivity|].
  destruct (password_round_trip Demo.pbkdf2 "geheim" "5a17" eq_refl eq_refl) as [H1 H2].
  split; [exact H1|].
  destruct (DatabaseStorage.verifyPassword Demo.pbkdf2 "anders" _) eqn:E; [|reflexivity].
  apply H2 in E. vm_compute in E. discriminate E.
Defined.

(** What the register route stores when it answers success. *)
Lemma register_success (pbkdf2 : string -> string -> string)
    (businessName address city contactName contactEmail contactPassword : option string)
    (uuidB salt uuidU : string) (dbNow : Timestamp) (s : Site) :
  let r := Handlers.register pbkdf2 businessName address city contactName contactEmail
             contactPassword uuidB salt uuidU dbNow s in
  Session.success (fst r) = Some true ->
  exists name email password contact,
    businessName = Some name /\ contactEmail = Some email
    /\ contactPassword = Some password /\ contactName = Some contact
    /\ name <> EmptyString /\ email <> EmptyString /\ password <> EmptyString
    /\ DatabaseStorage.getBusinessUser email s = None
    /\ ~ In uuidB (map Business.id (businesses (core s)))
    /\ ~ In uuidU (map BusinessUser.id (business_users s))
    /\ let business := Business.mk uuidB name (Handlers.orEmpty address)
                         (Handlers.orEmpty city) in
       let account :=
         BusinessUser.mk uuidU uuidB email
           (DatabaseStorage.hashPassword pbkdf2 password salt) contact
           (Some "owner") (Some true) (Some dbNow) in
       fst r = Session.mk 200 None (Some true) (Some (Handlers.sessionUser account))
                 (Some business)
       /\ snd r
          = mkSite (set_businesses (businesses (core s) ++ [business]) (core s))
              (favorites s) (business_users s ++ [account]).
Proof.
  intros r H. subst r. revert H. unfold Handlers.register.
  destruct businessName as [name|]; [|cbn; discriminate].
  destruct contactEmail as [email|]; [|cbn [falsy orb]; rewrite orb_true_r; cbn; discriminate].
  destruct contactPassword as [password|];
    [|cbn [falsy orb]; rewrite orb_true_r; cbn; discriminate].
  cbn [falsy].
  destruct (String.eqb name EmptyString) eqn:En; [cbn; discriminate|].
  destruct (String.eqb email EmptyString) eqn:Ee; [cbn; discriminate|].
  destruct (String.eqb password EmptyString) eqn:Ep; [cbn; discriminate|].
  cbn [orb].
  destruct (DatabaseStorage.getBusinessUser email s) eqn:Eu; [cbn; discriminate|].
  unfold DatabaseStorage.createBusiness.
  destruct (existsb _ (businesses (core s))) eqn:Eb; [cbn; discriminate|].
  cbn [InsertBusiness.name InsertBusiness.address InsertBusiness.city Business.id].
  unfold DatabaseStorage.createBusinessUser.
  cbn [InsertBusinessUser.name InsertBusinessUser.password InsertBusinessUser.businessId
       InsertBusinessUser.email InsertBusinessUser.role InsertBusinessUser.isActive].
  destruct contactName as [contact|]; [|cbn; discriminate].
  destruct (DatabaseStorage.businessUsersAccept _ _) eqn:Ea; [|cbn; discriminate].
  intros _. exists name, email, password, contact.
  repeat (split; [reflexivity|]).
  split; [apply String.eqb_neq; exact En|].
  split; [apply String.eqb_neq; exact Ee|].
  split; [apply String.eqb_neq; exact Ep|].
  split; [exact Eu|].
  split; [intro Hin; apply (id_stored Business.id) in Hin; congruence|].
  split.
  - unfold DatabaseStorage.businessUsersAccept in Ea.
    cbn [BusinessUser.id business_users set_core] in Ea.
    apply andb_true_iff in Ea. destruct Ea as [Ea _].
    apply andb_true_iff in Ea. destruct Ea as [Ea _].
    apply negb_true_iff in Ea.
    intro Hin. apply (id_stored BusinessUser.id) in Hin. congruence.
  - cbv zeta. split; reflexivity.
Qed.

(** X13.  After the register route has answered success, the login
    route opens a session for the registered e-mail and password: the
    same account, with role owner, and the business just created.  Any
    other password is answered 401 unless [pbkdf2Sync] gives it the same
    hash; and a later registration of the same e-mail never succeeds and
    stores nothing. *)
Theorem registered_account_logs_in :
  forall (pbkdf2 : string -> string -> string)
         (businessName address city contactName contactEmail contactPassword : option string)
         (uuidB salt uuidU : string) (dbNow : Timestamp) (s : Site),
    hex salt = true ->
    (forall password, hex (pbkdf2 password salt) = true) ->
    let r := Handlers.register pbkdf2 businessName address city contactName contactEmail
               contactPassword uuidB salt uuidU dbNow s in
    Session.success (fst r) = Some true ->
    let session := Handlers.login pbkdf2 contactEmail contactPassword (snd r) in
    Session.http session = 200
    /\ Session.user session = Session.user (fst r)
    /\ Session.business session = Session.business (fst r)
    /\ option_map Session.user_role (Session.user session) = Some (Some "owner")
    /\ option_map Business.id (Session.business session) = Some uuidB
    /\ (forall other password,
          contactPassword = Some password ->
          other <> EmptyString ->
          pbkdf2 other salt <> pbkdf2 password salt ->
          Handlers.login pbkdf2 contactEmail (Some other) (snd r)
          = Handlers.refuse 401 "Invalid email or password")
    /\ (forall businessName' address' city' contactName' contactPassword' uuidB' salt' uuidU'
               dbNow',
          let again := Handlers.register pbkdf2 businessName' address' city' contactName'
                         contactEmail contactPassword' uuidB' salt' uuidU' dbNow' (snd r) in
          Session.success (fst again) = None /\ snd again = snd r).
Proof.
  intros pbkdf2 businessName address city contactName contactEmail contactPassword
         uuidB salt uuidU dbNow s Hsalt Hhex r H session.
  destruct (register_success _ _ _ _ _ _ _ _ _ _ _ _ H)
    as [name [email [password [contact [En [Ee [Ep [Ec [Nn [Ne [Np [Hu [Fb [Fu Hr]]]]]]]]]]]]]].
  cbv zeta in Hr. destruct Hr as [Hreply Hsite]. fold r in Hreply, Hsite.
  subst businessName contactEmail contactPassword contactName.
  set (account := BusinessUser.mk uuidU uuidB email
                    (DatabaseStorage.hashPassword pbkdf2 password salt) contact
                    (Some "owner") (Some true) (Some dbNow)) in *.
  set (business := Business.mk uuidB name (Handlers.orEmpty address) (Handlers.orEmpty city))
    in *.
  assert (DatabaseStorage.getBusinessUser email (snd r) = Some account) as Hget.
  { unfold DatabaseStorage.getBusinessUser. rewrite Hsite. cbn [business_users].
    apply find_appended; [|apply String.eqb_refl].
    intros u Hin. unfold DatabaseStorage.getBusinessUser in Hu.
    exact (find_none _ _ Hu u Hin). }
  assert (DatabaseStorage.getBusiness uuidB (core (snd r)) = Some business) as Hbus.
  { unfold DatabaseStorage.getBusiness. rewrite Hsite. cbn [core businesses set_businesses].
    apply find_appended; [|apply String.eqb_refl].
    intros b Hin. apply String.eqb_neq. intro E. apply Fb. rewrite <- E.
    apply in_map. exact Hin. }
  assert (forall other, other <> EmptyString ->
            Handlers.login pbkdf2 (Some email) (Some other) (snd r)
            = if String.eqb (pbkdf2 password salt) (pbkdf2 other salt)
              then Session.mk 200 None None (Some (Handlers.sessionUser account))
                     (Some business)
              else Handlers.refuse 401 "Invalid email or password") as Hlogin.
  { intros other No. unfold Handlers.login. cbn [falsy].
    rewrite (not_empty_eqb _ Ne), (not_empty_eqb _ No). cbn [orb].
    unfold DatabaseStorage.authenticateBusinessUser. rewrite Hget.
    cbn [BusinessUser.isActive BusinessUser.password account].
    rewrite (verifyPassword_hashed pbkdf2 password other salt Hsalt (Hhex password)).
    destruct (String.eqb _ _); [|reflexivity].
    cbn [BusinessUser.businessId account]. rewrite Hbus. reflexivity. }
  assert (session = Session.mk 200 None None (Some (Handlers.sessionUser account))
                      (Some business)) as Hsession.
  { subst session. rewrite (Hlogin password Np), String.eqb_refl. reflexivity. }
  rewrite Hsession, Hreply. cbn [Session.http Session.user Session.business option_map].
  repeat (split; [reflexivity|]). split.
  - intros other password' E No Hne. injection E as E. subst password'.
    rewrite (Hlogin other No).
    destruct (String.eqb_spec (pbkdf2 password salt) (pbkdf2 other salt)) as [E|_];
      [|reflexivity].
    exfalso. apply Hne. symmetry. exact E.
  - intros businessName' address' city' contactName' contactPassword' uuidB' salt' uuidU'
           dbNow'. unfold Handlers.register.
    destruct (falsy businessName' || falsy (Some email) || falsy contactPassword')%bool;
      [split; reflexivity|].
    destruct businessName' as [n'|]; [|split; reflexivity].
    destruct contactPassword' as [p'|]; [|split; reflexivity].
    rewrite Hget. split; reflexivity.
Qed.

Lemma demo_pbkdf2_hex (password salt : string) : hex (Demo.pbkdf2 password salt) = true.
Proof.
  unfold Demo.pbkdf2. induction (salt ++ password)%string as [|c s IH]; [reflexivity|].
  cbn [Demo.hexOf]. apply hex_cons. split; [|apply hex_cons; split; [|exact IH]].
  - pose proof (nat_ascii_bounded c) as B.
    assert (nat_of_ascii c / 16 < 16)%nat as L
      by (apply Nat.Div0.div_lt_upper_bound; lia).
    revert L. generalize (nat_of_ascii c / 16)%nat. intros n L.
    do 16 (destruct n as [|n]; [reflexivity|]). lia.
  - assert (nat_of_ascii c mod 16 < 16)%nat as L by (apply Nat.mod_upper_bound; lia).
    revert L. generalize (nat_of_ascii c mod 16)%nat. intros n L.
    do 16 (destruct n as [|n]; [reflexivity|]). lia.
Qed.

Lemma registered_account_logs_in_witness :
  let r := Handlers.register Demo.pbkdf2 (Some "Bistro Drie") (Some "Markt 3") None
             (Some "Eva") (Some "eva@example.nl") (Some "geheim")
             "b3" "5a17" "bu1" Scenario.now Demo.site in
  Session.success (fst r) = Some true
  /\ Session.http (Handlers.login Demo.pbkdf2 (Some "eva@example.nl") (Some "geheim") (snd r))
     = 200
  /\ Handlers.login Demo.pbkdf2 (Some "eva@example.nl") (Some "anders") (snd r)
     = Handlers.refuse 401 "Invalid email or password".
Proof.
  split; [reflexivity|].
  destruct (registered_account_logs_in Demo.pbkdf2 (Some "Bistro Drie") (Some "Markt 3") None
              (Some "Eva") (Some "eva@example.nl") (Some "geheim")
              "b3" "5a17" "bu1" Scenario.now Demo.site eq_refl
              (fun password => demo_pbkdf2_hex password "5a17") eq_refl)
    as [H1 [_ [_ [_ [_ [H6 _]]]]]].
  split; [exact H1|].
  apply (H6 "anders" "geheim" eq_refl); [discriminate|].
  vm_compute. discriminate.
Defined.

(** X14.  The register route is not atomic: a request whose body lacks
    [contactName] passes the route's own checks, creates the business,
    fails at the insert of the account and is answered 500; the business
    row stays stored, without an account, and the e-mail cannot log
    in. *)
Theorem failed_registration_leaves_business :
  forall (pbkdf2 : string -> string -> string)
         (businessName contactEmail contactPassword : string) (address city : option string)
         (uuidB salt uuidU : string) (dbNow : Timestamp) (s : Site),
    businessName <> EmptyString ->
    contactEmail <> EmptyString ->
    contactPassword <> EmptyString ->
    DatabaseStorage.getBusinessUser contactEmail s = None ->
    ~ In uuidB (map Business.id (businesses (core s))) ->
    let r := Handlers.register pbkdf2 (Some businessName) address city None
               (Some contactEmail) (Some contactPassword) uuidB salt uuidU dbNow s in
    fst r = Handlers.refuse 500 "Registration failed"
    /\ businesses (core (snd r))
       = (businesses (core s)
          ++ [Business.mk uuidB businessName (Handlers.orEmpty address)
                (Handlers.orEmpty city)])%list
    /\ business_users (snd r) = business_users s
    /\ Handlers.login pbkdf2 (Some contactEmail) (Some contactPassword) (snd r)
       = Handlers.refuse 401 "Invalid email or password".
Proof.
  intros pbkdf2 businessName contactEmail contactPassword address city uuidB salt uuidU
         dbNow s Nn Ne Np Hu Fb r.
  assert (r = (Handlers.refuse 500 "Registration failed",
               set_core
                 (set_businesses
                    (businesses (core s)
                     ++ [Business.mk uuidB businessName (Handlers.orEmpty address)
                           (Handlers.orEmpty city)]) (core s)) s)) as Hr.
  { subst r. unfold Handlers.register. cbn [falsy].
    rewrite (not_empty_eqb _ Nn), (not_empty_eqb _ Ne), (not_empty_eqb _ Np).
    cbn [orb]. rewrite Hu. unfold DatabaseStorage.createBusiness.
    rewrite (fresh_id Business.id uuidB _ Fb). reflexivity. }
  rewrite Hr. cbn [fst snd core set_core business_users businesses set_businesses].
  split; [reflexivity|]. split; [reflexivity|]. split; [reflexivity|].
  unfold Handlers.login. cbn [falsy].
  rewrite (not_empty_eqb _ Ne), (not_empty_eqb _ Np). cbn [orb].
  unfold DatabaseStorage.authenticateBusinessUser, DatabaseStorage.getBusinessUser.
  cbn [business_users set_core].
  unfold DatabaseStorage.getBusinessUser in Hu. rewrite Hu. reflexivity.
Qed.

Lemma failed_registration_leaves_business_witness :
  let r := Handlers.register Demo.pbkdf2 (Some "Bistro Drie") (Some "Markt 3") None
             None (Some "eva@example.nl") (Some "geheim")
             "b3" "5a17" "bu1" Scenario.now Demo.site in
  Session.http (fst r) = 500
  /\ map Business.id (businesses (core (snd r))) = ["b1"; "b2"; "b3"]
  /\ business_users (snd r) = [].
Proof.
  destruct (failed_registration_leaves_business Demo.pbkdf2 "Bistro Drie" "eva@example.nl"
              "geheim" (Some "Markt 3") None "b3" "5a17" "bu1" Scenario.now Demo.site
              ltac:(discriminate) ltac:(discriminate) ltac:(discriminate) eq_refl
              ltac:(vm_compute; intuition discriminate))
    as [H1 [H2 [H3 _]]].
  split; [rewrite H1; reflexivity|]. split; [rewrite H2; reflexivity | exact H3].
Defined.

(** X15.  [notifyBusinessOwners] stores at most one notification.  When
    it stores one, the addressee is a user whose e-mail is that of an
    active owner or manager account of the business, whatever [userId]
    the notification data carried; staff accounts and deactivated
    accounts are never notified.  Nothing else of the store changes. *)
Theorem notifyBusinessOwners_one_owner :
  forall (businessId : string) (notificationData : InsertNotification.t)
         (uuid : string) (dbNow : Timestamp) (s s' : Site),
    DatabaseStorage.notifyBusinessOwners businessId notificationData uuid dbNow s = Ok s' ->
    favorites s' = favorites s
    /\ business_users s' = business_users s
    /\ users (core s') = users (core s)
    /\ businesses (core s') = businesses (core s)
    /\ deals (core s') = deals (core s)
    /\ vouchers (core s') = vouchers (core s)
    /\ business_payments (core s') = business_payments (core s)
    /\ (notifications (core s') = notifications (core s)
        \/ exists n account user,
             notifications (core s') = (notifications (core s) ++ [n])%list
             /\ In account (business_users s)
             /\ BusinessUser.businessId account = businessId
             /\ (BusinessUser.role account = Some "owner"
                 \/ BusinessUser.role account = Some "manager")
             /\ BusinessUser.isActive account = Some true
             /\ In user (users (core s))
             /\ User.email user = Some (BusinessUser.email account)
             /\ Notification.userId n = User.id user
             /\ Notification.id n = uuid
             /\ Some (Notification.title n) = InsertNotification.title notificationData
             /\ Some (Notification.message n) = InsertNotification.message notificationData).
Proof.
  intros businessId notificationData uuid dbNow s s'.
  unfold DatabaseStorage.notifyBusinessOwners, DatabaseStorage.getBusinessOwners.
  destruct (filter (DatabaseStorage.ownerOf businessId) (business_users s))
    as [|account rest] eqn:Ef; cbn [map].
  { intro H. injection H as H. subst s'. repeat (split; [reflexivity|]). left. reflexivity. }
  destruct (find _ (users (core s))) as [user|] eqn:Eu.
  2:{ intro H. injection H as H. subst s'. repeat (split; [reflexivity|]). left. reflexivity. }
  unfold Storage.createNotification.
  cbn [InsertNotification.userId InsertNotification.title InsertNotification.message
       InsertNotification.type InsertNotification.read].
  destruct (InsertNotification.title notificationData) as [t|]; [|discriminate].
  destruct (InsertNotification.message notificationData) as [m|]; [|discriminate].
  destruct (InsertNotification.type notificationData) as [k|]; [|discriminate].
  destruct (_ && _)%bool; [|discriminate].
  intro H. injection H as H. subst s'.
  cbn [favorites business_users core set_core users businesses deals vouchers
       business_payments notifications set_notifications].
  repeat (split; [reflexivity|]). right.
  assert (In account (filter (DatabaseStorage.ownerOf businessId) (business_users s))) as Hin
    by (rewrite Ef; left; reflexivity).
  apply filter_In in Hin. destruct Hin as [Hin Hown].
  unfold DatabaseStorage.ownerOf in Hown.
  apply andb_true_iff in Hown. destruct Hown as [Hown Hact].
  apply andb_true_iff in Hown. destruct Hown as [Hbus Hrole].
  apply String.eqb_eq in Hbus. apply orb_true_iff in Hrole. rewrite !statusIs_spec in Hrole.
  apply find_some in Eu. destruct Eu as [Huin Hmail].
  unfold DatabaseStorage.hasEmail in Hmail. apply statusIs_spec in Hmail.
  eexists. exists account, user. split; [reflexivity|].
  split; [exact Hin|]. split; [exact Hbus|]. split; [exact Hrole|].
  split; [destruct (BusinessUser.isActive account) as [[|]|]; [reflexivity|discriminate..]|].
  split; [exact Huin|]. split; [exact Hmail|].
  repeat split.
Qed.

Lemma notifyBusinessOwners_one_owner_witness :
  let s :=
    mkSite Scenario.db []
      [BusinessUser.mk "bu0" "b1" "staf@example.nl" "5a17:00" "Sam" (Some "staff") (Some true)
         None;
       BusinessUser.mk "bu1" "b1" "koper@example.nl" "5a17:00" "Kees" (Some "owner")
         (Some true) None] in
  exists s',
    DatabaseStorage.notifyBusinessOwners "b1"
      (InsertNotification.mk None (Some "Nieuwe reservering") (Some "Tafel voor twee")
         (Some "reservation") None) "n1" Scenario.now s = Ok s'
    /\ map Notification.userId (notifications (core s')) = ["u1"]
    /\ business_users s' = business_users s.
Proof.
  intro s. eexists. split; [reflexivity|]. split; [reflexivity|].
  exact (proj1 (proj2 (notifyBusinessOwners_one_owner "b1"
                         (InsertNotification.mk None (Some "Nieuwe reservering")
                            (Some "Tafel voor twee") (Some "reservation") None)
                         "n1" Scenario.now s _ eq_refl))).
Defined.

(** ** The business dashboard *)

Lemma get_assign (key : string) (value : Limits.t) (object : list (string * Limits.t)) :
  Dashboard.get key (Dashboard.assign key value object) = Some value.
Proof. unfold Dashboard.get, Dashboard.assign. simpl. rewrite String.eqb_refl. reflexivity. Qed.

Lemma decideFirst_length (dealId : string) (status adminNotes : option string)
    (subs : list Submission.t) (deal : Submission.t) (subs' : list Submission.t) :
  Dashboard.decideFirst dealId status adminNotes subs = Some (deal, subs') ->
  length subs' = length subs /\ map Submission.id subs' = map Submission.id subs.
Proof.
  revert deal subs'. induction subs as [|x rest IH]; intros deal subs' H; [discriminate H|].
  simpl in H. destruct (String.eqb (Submission.id x) dealId).
  - injection H as _ H. subst subs'. split; reflexivity.
  - destruct (Dashboard.decideFirst dealId status adminNotes rest) as [[d r]|]; [|discriminate H].
    injection H as _ H. subst subs'. destruct (IH d r eq_refl) as [L M].
    simpl. rewrite L, M. split; reflexivity.
Qed.

Lemma decideFirst_none (dealId : string) (status adminNotes : option string)
    (subs : list Submission.t) :
  Dashboard.decideFirst dealId status adminNotes subs = None
  <-> ~ In dealId (map Submission.id subs).
Proof.
  induction subs as [|x rest IH]; simpl.
  - split; [intros _ [] | reflexivity].
  - destruct (String.eqb_spec (Submission.id x) dealId) as [E|N].
    + split; [discriminate | intro H; exfalso; apply H; left; exact E].
    + destruct (Dashboard.decideFirst dealId status adminNotes rest) as [[d r]|].
      * split; [discriminate|]. intro H. exfalso.
        assert (~ In dealId (map Submission.id rest)) as H' by (intro I; apply H; right; exact I).
        apply IH in H'. discriminate H'.
      * split; [|reflexivity]. intros _ [E|I]; [exact (N E)|].
        revert I. apply IH. reflexivity.
Qed.

Lemma kept_initial : Dashboard.kept Dashboard.initial.
Proof.
  exists 0, "free". split; [reflexivity|]. split; [lia|]. split; [reflexivity|].
  left. split; [reflexivity | lia].
Qed.

Lemma kept_step (m m' : Dashboard.Memory) :
  Dashboard.kept m -> Dashboard.step m m' -> Dashboard.kept m'.
Proof.
  intros [n [plan [Hget [Hn [Hlen Hplan]]]]] Hstep.
  destruct Hstep as [m body random36 | m | m dealId status adminNotes | m].
  - unfold Dashboard.submit, Dashboard.account. rewrite Hget.
    cbn [Limits.freeDealsUsed Limits.totalDeals Limits.subscriptionStatus Dashboard.atLeastTwo
         Dashboard.plusOne option_map].
    destruct (Z.leb_spec 2 n) as [Hge|Hlt];
      destruct (String.eqb_spec plan "free") as [Hfree|Hpaid]; cbn [andb snd].
    + exists n, plan. repeat split; assumption.
    + exists (n + 1), plan. split; [apply get_assign|]. split; [lia|].
      split; [cbn [Dashboard.businessSubmissions length]; lia|].
      right. destruct Hplan as [[Hf _]|Hp]; [contradiction | exact Hp].
    + exists (n + 1), plan. split; [apply get_assign|]. split; [lia|].
      split; [cbn [Dashboard.businessSubmissions length]; lia|].
      left. split; [exact Hfree | lia].
    + exists (n + 1), plan. split; [apply get_assign|]. split; [lia|].
      split; [cbn [Dashboard.businessSubmissions length]; lia|].
      right. destruct Hplan as [[Hf _]|Hp]; [contradiction | exact Hp].
  - exists n, "paid". unfold Dashboard.purchaseDealCredits. rewrite Hget.
    cbn [Dashboard.businessLimits Dashboard.businessSubmissions
         Limits.freeDealsUsed Limits.totalDeals].
    split; [apply get_assign|]. split; [exact Hn|]. split; [exact Hlen|]. right. reflexivity.
  - unfold Dashboard.review.
    destruct (Dashboard.decideFirst dealId status adminNotes (Dashboard.businessSubmissions m))
      as [[deal subs]|] eqn:E; cbn [snd].
    + exists n, plan. cbn [Dashboard.businessLimits Dashboard.businessSubmissions].
      destruct (decideFirst_length _ _ _ _ _ _ E) as [L _]. rewrite L.
      repeat split; assumption.
    + exists n, plan. repeat split; assumption.
  - exists n, plan. repeat split; assumption.
Qed.

Lemma kept_run (m : Dashboard.Memory) :
  Dashboard.run Dashboard.initial m -> Dashboard.kept m.
Proof.
  intro H. remember Dashboard.initial as m0 eqn:E.
  induction H as [m|m m' m'' _ IH Hstep].
  - subst m. apply kept_initial.
  - apply (kept_step m'); [apply IH; exact E | exact Hstep].
Qed.

(** X16.  In every state the dashboard reaches from its initial values,
    by whatever requests to the submit, purchase and admin routes, the
    two counters of the account are numbers and equal, they count the
    submissions accepted (the list holds that many beyond the two seeded
    ones), and an account still on the free plan has had at most two
    submissions accepted. *)
Theorem free_plan_two_submissions :
  forall m : Dashboard.Memory,
    Dashboard.run Dashboard.initial m ->
    exists (n : Z) (plan : string),
      Dashboard.account m = Limits.mk (Some n) (Some n) plan
      /\ 0 <= n
      /\ Z.of_nat (length (Dashboard.submissions m)) = 2 + n
      /\ (plan = "free" \/ plan = "paid")
      /\ (plan = "free" -> n <= 2).
Proof.
  intros m H. destruct (kept_run m H) as [n [plan [Hget [Hn [Hlen Hplan]]]]].
  exists n, plan. unfold Dashboard.account. rewrite Hget.
  split; [reflexivity|]. split; [exact Hn|]. split; [exact Hlen|].
  destruct Hplan as [[Hf Hle]|Hp].
  - split; [left; exact Hf | intros _; exact Hle].
  - split; [right; exact Hp | intro Hf; rewrite Hp in Hf; discriminate Hf].
Qed.

Lemma free_plan_two_submissions_witness :
  let body := SubmitBody.mk None (Some "Lunch") None None None None in
  let m3 :=
    snd (Dashboard.submit body "0.c3c3c3c3"
           (snd (Dashboard.submit body "0.b2b2b2b2"
                   (snd (Dashboard.submit body "0.a1a1a1a1" Dashboard.initial))))) in
  Dashboard.run Dashboard.initial m3
  /\ Dashboard.account m3 = Limits.mk (Some 2) (Some 2) "free"
  /\ length (Dashboard.submissions m3) = 4%nat.
Proof.
  intros body m3.
  assert (Dashboard.run Dashboard.initial m3) as R.
  { subst m3. eapply Dashboard.run_step; [|apply Dashboard.submits].
    eapply Dashboard.run_step; [|apply Dashboard.submits].
    eapply Dashboard.run_step; [|apply Dashboard.submits].
    apply Dashboard.run_nil. }
  split; [exact R|].
  destruct (free_plan_two_submissions m3 R) as [n [plan [Ha [_ [Hl _]]]]].
  split; reflexivity.
Defined.

Lemma paid_step (m m' : Dashboard.Memory) :
  Limits.subscriptionStatus (Dashboard.account m) = "paid" ->
  Dashboard.step m m' ->
  Limits.subscriptionStatus (Dashboard.account m') = "paid".
Proof.
  intros Hp Hstep.
  destruct Hstep as [m body random36 | m | m dealId status adminNotes | m].
  - unfold Dashboard.submit. rewrite Hp. rewrite andb_false_r. cbn [snd].
    unfold Dashboard.account at 1. cbn [Dashboard.businessLimits].
    rewrite get_assign. reflexivity.
  - unfold Dashboard.purchaseDealCredits, Dashboard.account.
    cbn [Dashboard.businessLimits]. rewrite get_assign.
    destruct (Dashboard.get _ _); reflexivity.
  - unfold Dashboard.review.
    destruct (Dashboard.decideFirst _ _ _ _) as [[deal subs]|]; exact Hp.
  - exact Hp.
Qed.

Lemma purchase_paid (m : Dashboard.Memory) :
  Limits.subscriptionStatus (Dashboard.account (Dashboard.purchaseDealCredits m)) = "paid".
Proof.
  unfold Dashboard.purchaseDealCredits, Dashboard.account.
  cbn [Dashboard.businessLimits]. rewrite get_assign.
  destruct (Dashboard.get _ _); reflexivity.
Qed.

(** X17.  Once the purchase route has been called, the submit route
    never answers 402 again: whatever requests follow, every submission
    is accepted, stored at the head of the list with status pending, and
    the account stays on the paid plan. *)
Theorem paid_plan_never_refused :
  forall (m m' : Dashboard.Memory),
    Dashboard.run (Dashboard.purchaseDealCredits m) m' ->
    Limits.subscriptionStatus (Dashboard.account m') = "paid"
    /\ forall (body : SubmitBody.t) (random36 : string),
         let r := Dashboard.submit body random36 m' in
         SubmitReply.http (fst r) = 200
         /\ SubmitReply.success (fst r) = Some true
         /\ exists submission,
              SubmitReply.submission (fst r) = Some submission
              /\ Submission.status submission = Some "pending"
              /\ Dashboard.submissions (snd r) = submission :: Dashboard.submissions m'.
Proof.
  intros m m' H.
  assert (Limits.subscriptionStatus (Dashboard.account m') = "paid") as Hp.
  { remember (Dashboard.purchaseDealCredits m) as m0 eqn:E.
    induction H as [m1|m1 m2 m3 _ IH Hstep].
    - subst m1. apply purchase_paid.
    - apply (paid_step m2); [apply IH; exact E | exact Hstep]. }
  split; [exact Hp|]. intros body random36 r. subst r.
  unfold Dashboard.submit. rewrite Hp, andb_false_r. cbn [fst snd].
  split; [reflexivity|]. split; [reflexivity|].
  eexists. split; [reflexivity|]. split; reflexivity.
Qed.

Lemma paid_plan_never_refused_witness :
  let body := SubmitBody.mk None (Some "Lunch") None None None None in
  let m2 :=
    snd (Dashboard.submit body "0.b2b2b2b2"
           (snd (Dashboard.submit body "0.a1a1a1a1" Dashboard.initial))) in
  SubmitReply.http (fst (Dashboard.submit body "0.c3c3c3c3" m2)) = 402
  /\ SubmitReply.http
       (fst (Dashboard.submit body "0.c3c3c3c3" (Dashboard.purchaseDealCredits m2))) = 200.
Proof.
  intros body m2. split; [reflexivity|].
  exact (proj1 (proj2 (paid_plan_never_refused m2 (Dashboard.purchaseDealCredits m2)
                         (Dashboard.run_nil _)) body "0.c3c3c3c3")).
Defined.

(** X18.  In every state the dashboard reaches from its initial values,
    the limits route shows between zero and two remaining free deals,
    and on the free plan the used and the remaining ones add up to two;
    the submit route answers 402 exactly when the limits route shows the
    free plan with nothing remaining, and then it stores nothing. *)
Theorem limits_agree_with_submit :
  forall m : Dashboard.Memory,
    Dashboard.run Dashboard.initial m ->
    let shown := Dashboard.limits m in
    (exists used remaining,
       LimitsReply.freeDealsUsed shown = Some used
       /\ LimitsReply.remainingFreeDeals shown = Some remaining
       /\ 0 <= remaining <= 2
       /\ (LimitsReply.subscriptionStatus shown = "free" -> used + remaining = 2))
    /\ forall (body : SubmitBody.t) (random36 : string),
         let r := Dashboard.submit body random36 m in
         (SubmitReply.http (fst r) = 402
          <-> LimitsReply.subscriptionStatus shown = "free"
              /\ LimitsReply.remainingFreeDeals shown = Some 0)
         /\ (SubmitReply.http (fst r) = 402 -> snd r = m)
         /\ (SubmitReply.http (fst r) <> 402 -> SubmitReply.http (fst r) = 200).
Proof.
  intros m H shown. destruct (kept_run m H) as [n [plan [Hget [Hn [Hlen Hplan]]]]].
  assert (Dashboard.account m = Limits.mk (Some n) (Some n) plan) as Ha
    by (unfold Dashboard.account; rewrite Hget; reflexivity).
  subst shown. unfold Dashboard.limits. rewrite Ha.
  cbn [Limits.freeDealsUsed Limits.totalDeals Limits.subscriptionStatus option_map
       LimitsReply.freeDealsUsed LimitsReply.remainingFreeDeals LimitsReply.subscriptionStatus].
  split.
  - exists n, (Z.max 0 (2 - n)). split; [reflexivity|]. split; [reflexivity|].
    split; [lia|]. intro Hf. destruct Hplan as [[_ Hle]|Hp]; [lia|].
    rewrite Hp in Hf. discriminate Hf.
  - intros body random36. unfold Dashboard.submit. rewrite Ha.
    cbn [Limits.freeDealsUsed Limits.totalDeals Limits.subscriptionStatus
         Dashboard.atLeastTwo].
    destruct (Z.leb_spec 2 n) as [Hge|Hlt];
      destruct (String.eqb_spec plan "free") as [Hfree|Hpaid]; cbn [andb fst snd SubmitReply.http].
    + split; [|split; [reflexivity | intro N; exfalso; apply N; reflexivity]].
      split; [intros _|reflexivity]. split; [exact Hfree|]. f_equal. lia.
    + split; [|split; [discriminate | reflexivity]].
      split; [discriminate|]. intros [Hf _]. contradiction.
    + split; [|split; [discriminate | reflexivity]].
      split; [discriminate|]. intros [_ Hz].
      assert (Z.max 0 (2 - n) = 0) as Hz' by congruence. lia.
    + split; [|split; [discriminate | reflexivity]].
      split; [discriminate|]. intros [Hf _]. contradiction.
Qed.

Lemma limits_agree_with_submit_witness :
  let body := SubmitBody.mk None (Some "Lunch") None None None None in
  let m1 := snd (Dashboard.submit body "0.a1a1a1a1" Dashboard.initial) in
  Dashboard.run Dashboard.initial m1
  /\ LimitsReply.remainingFreeDeals (Dashboard.limits m1) = Some 1
  /\ SubmitReply.http (fst (Dashboard.submit body "0.b2b2b2b2" m1)) = 200.
Proof.
  intros body m1.
  assert (Dashboard.run Dashboard.initial m1) as R.
  { subst m1. eapply Dashboard.run_step; [|apply Dashboard.submits]. apply Dashboard.run_nil. }
  split; [exact R|]. split; [reflexivity|].
  destruct (limits_agree_with_submit m1 R) as [_ Hsub].
  destruct (Hsub body "0.b2b2b2b2") as [_ [_ H200]].
  apply H200. vm_compute. discriminate.
Defined.

(** X19.  A submission takes the [id] of its request body when the body
    has one, also when a stored submission has that id already.  It then
    shadows the older one: the admin route, called with that id, decides
    the new submission and leaves every older submission as it was. *)
Theorem submission_id_shadows :
  forall (body : SubmitBody.t) (random36 dealId : string) (m : Dashboard.Memory)
         (status adminNotes : option string),
    SubmitBody.id body = Some dealId ->
    SubmitReply.http (fst (Dashboard.submit body random36 m)) = 200 ->
    let m1 := snd (Dashboard.submit body random36 m) in
    let r := Dashboard.review dealId status adminNotes m1 in
    exists new,
      Dashboard.submissions m1 = new :: Dashboard.submissions m
      /\ Submission.id new = dealId
      /\ Submission.status new = Some "pending"
      /\ ReviewReply.http (fst r) = 200
      /\ Dashboard.submissions (snd r)
         = Submission.mk dealId (Submission.title new) status (Submission.businessId new)
             (Submission.business new)
             (if falsy adminNotes then Submission.adminNotes new else adminNotes)
           :: Dashboard.submissions m.
Proof.
  intros body random36 dealId m status adminNotes Hid H m1 r.
  subst r m1. revert H. unfold Dashboard.submit.
  destruct (_ && _)%bool; cbn [fst snd SubmitReply.http]; [discriminate|]. intros _.
  rewrite Hid. eexists. split; [reflexivity|]. split; [reflexivity|]. split; [reflexivity|].
  unfold Dashboard.review, Dashboard.submissions. cbn [Dashboard.businessSubmissions].
  cbn [Dashboard.decideFirst Submission.id]. rewrite String.eqb_refl.
  split; reflexivity.
Qed.

Lemma submission_id_shadows_witness :
  let body := SubmitBody.mk (Some "2") (Some "Lunch") None None None None in
  let m1 := snd (Dashboard.submit body "0.a1a1a1a1" Dashboard.initial) in
  let r := Dashboard.review "2" (Some "approved") None m1 in
  map Submission.id (Dashboard.submissions (snd r)) = ["2"; "1"; "2"]
  /\ map Submission.status (Dashboard.submissions (snd r))
     = [Some "approved"; Some "approved"; Some "pending"].
Proof.
  intros body m1 r.
  destruct (submission_id_shadows body "0.a1a1a1a1" "2" Dashboard.initial
              (Some "approved") None eq_refl eq_refl) as [new [_ [_ [_ [_ H]]]]].
  fold m1 in H. fold r in H. rewrite H. split; reflexivity.
Defined.

(** X20.  The admin route answers 404 exactly when no submission has the
    id, and then changes nothing.  Otherwise it decides the first
    submission of that id and no other: ids, order and number of the
    submissions stay, every submission of another id stays as it was,
    and the account limits are not touched. *)
Theorem review_decides_first :
  forall (dealId : string) (status adminNotes : option string) (m : Dashboard.Memory),
    let r := Dashboard.review dealId status adminNotes m in
    (ReviewReply.http (fst r) = 404
     <-> ~ In dealId (map Submission.id (Dashboard.submissions m)))
    /\ (ReviewReply.http (fst r) = 404 -> snd r = m)
    /\ (ReviewReply.http (fst r) <> 404 ->
          ReviewReply.http (fst r) = 200
          /\ exists before old after,
               Dashboard.submissions m = (before ++ old :: after)%list
               /\ ~ In dealId (map Submission.id before)
               /\ Submission.id old = dealId
               /\ Dashboard.submissions (snd r)
                  = (before
                     ++ Submission.mk dealId (Submission.title old) status
                          (Submission.businessId old) (Submission.business old)
                          (if falsy adminNotes then Submission.adminNotes old
                           else adminNotes)
                        :: after)%list)
    /\ Dashboard.businessLimits (snd r) = Dashboard.businessLimits m.
Proof.
  intros dealId status adminNotes m r. subst r.
  unfold Dashboard.review, Dashboard.submissions.
  destruct (Dashboard.decideFirst dealId status adminNotes (Dashboard.businessSubmissions m))
    as [[deal subs]|] eqn:E; cbn [fst snd ReviewReply.http Dashboard.businessLimits].
  - split; [|split; [discriminate|split; [|reflexivity]]].
    + split; [discriminate|]. intro N. apply decideFirst_none with (status := status)
        (adminNotes := adminNotes) in N. congruence.
    + intros _. split; [reflexivity|].
      cbn [Dashboard.businessSubmissions].
      revert deal subs E.
      induction (Dashboard.businessSubmissions m) as [|x rest IH]; intros deal subs E;
        [discriminate E|].
      simpl in E. destruct (String.eqb_spec (Submission.id x) dealId) as [Ex|Nx].
      * injection E as _ E. subst subs. exists [], x, rest.
        split; [reflexivity|]. split; [intros []|]. split; [exact Ex|].
        rewrite Ex. reflexivity.
      * destruct (Dashboard.decideFirst dealId status adminNotes rest) as [[d r]|];
          [|discriminate E].
        injection E as _ E. subst subs.
        destruct (IH d r eq_refl) as [before [old [after [H1 [H2 [H3 H4]]]]]].
        exists (x :: before), old, after.
        split; [rewrite H1; reflexivity|].
        split; [intros [Hx|Hin]; [exact (Nx Hx) | exact (H2 Hin)]|].
        split; [exact H3|]. rewrite H4. reflexivity.
  - split; [|split; [reflexivity|split; [|reflexivity]]].
    + split; [intros _|reflexivity]. apply decideFirst_none in E. exact E.
    + intro N. exfalso. apply N. reflexivity.
Qed.

(** ** Reviews *)

(** The reviews of a business and the sum of their ratings. *)
Lemma createReview_parts (toFixed1 : Z -> Z -> Z) (review : InsertReview.t) (uuid : string)
    (dbNow : Timestamp) (s : Reviewed) :
  let new := Review.mk uuid (InsertReview.userId review) (InsertReview.businessId review)
               (InsertReview.dealId review) (InsertReview.rating review)
               (InsertReview.comment review) (Some dbNow) in
  let theirs :=
    filter (fun r => String.eqb (Review.businessId r) (InsertReview.businessId review))
      (reviews s ++ [new]) in
  let total := fold_left (fun sum r => sum + Review.rating r) theirs 0 in
  let average := toFixed1 total (Z.of_nat (length theirs)) in
  DatabaseStorage.createReview toFixed1 review uuid dbNow s
  = if negb (DatabaseStorage.reviewsAccept new s) then (Thrown, s)
    else if negb (Z.abs average <? 100) then (Thrown, set_reviews (reviews s ++ [new]) s)
    else (Ok new,
          mkReviewed (members s) (offers s)
            (map (fun l =>
                    if String.eqb (Business.id (Listing.business l))
                         (InsertReview.businessId review)
                    then Listing.mk (Listing.business l) (Some average)
                           (Some (Z.of_nat (length theirs)))
                    else l) (listings s))
            (reviews s ++ [new])).
Proof. reflexivity. Qed.

Lemma nearestTenthb_spec (total count tenths : Z) :
  nearestTenthb total count tenths = true <-> nearestTenth total count tenths.
Proof. unfold nearestTenthb, nearestTenth. apply Z.leb_le. Qed.

Lemma upTo_In (n z : Z) : 0 <= z <= n -> In z (upTo n).
Proof.
  intro H. unfold upTo. apply in_map_iff. exists (Z.to_nat z). split; [lia|].
  apply in_seq. lia.
Qed.

(** The quotient of two doubles and [toFixed(1)] give a tenth nearest to
    the average, for up to fifty ratings of nought to five stars. *)
Lemma average1_nearest (total count : Z) :
  1 <= count <= 50 ->
  0 <= total <= 5 * count ->
  nearestTenth total count (Double.average1 total count).
Proof.
  intros Hc Ht. apply nearestTenthb_spec.
  assert (forallb (fun c => forallb (fun t => (c =? 0) || (5 * c <? t)
                                              || nearestTenthb t c (Double.average1 t c))
                              (upTo 250))
            (upTo 50) = true) as All by (vm_compute; reflexivity).
  rewrite forallb_forall in All.
  pose proof (All count (upTo_In 50 count ltac:(lia))) as Row.
  rewrite forallb_forall in Row.
  pose proof (Row total (upTo_In 250 total ltac:(lia))) as Cell.
  destruct (Z.eqb_spec count 0) as [E|_]; [lia|].
  destruct (Z.ltb_spec (5 * count) total) as [L|_]; [lia|].
  exact Cell.
Qed.

(** X21.  When [createReview] returns, the review is stored, and every
    business row of the reviewed id shows as its [reviewCount] the number
    of stored reviews of that business, the new one included, and as its
    rating what [toFixed(1)] makes of the sum of their ratings divided by
    that number: a tenth nearest to their average, below 10.0 in size,
    whenever [toFixed(1)] of the quotient is a nearest tenth, which the
    doubles of JS give for up to fifty ratings of nought to five stars.
    There is such a row; the rows of other businesses are as they
    were. *)
Theorem createReview_averages :
  forall (toFixed1 : Z -> Z -> Z) (review : InsertReview.t) (uuid : string)
         (dbNow : Timestamp) (s : Reviewed) (new : Review.t) (s' : Reviewed),
    DatabaseStorage.createReview toFixed1 review uuid dbNow s = (Ok new, s') ->
    let theirs :=
      filter (fun r => String.eqb (Review.businessId r) (InsertReview.businessId review))
        (reviews s') in
    let total := fold_left (fun sum r => sum + Review.rating r) theirs 0 in
    let count := Z.of_nat (length theirs) in
    reviews s' = (reviews s ++ [new])%list
    /\ Review.id new = uuid
    /\ Review.rating new = InsertReview.rating review
    /\ In new theirs
    /\ 1 <= count
    /\ (exists l, In l (listings s')
          /\ Business.id (Listing.business l) = InsertReview.businessId review)
    /\ (forall l, In l (listings s') ->
          Business.id (Listing.business l) = InsertReview.businessId review ->
          Listing.reviewCount l = Some count
          /\ Listing.rating l = Some (toFixed1 total count)
          /\ (nearestTenth total count (toFixed1 total count) ->
              exists tenths,
                Listing.rating l = Some tenths
                /\ nearestTenth total count tenths
                /\ -100 < tenths < 100)
          /\ ((forall t c, toFixed1 t c = Double.average1 t c) ->
              count <= 50 -> 0 <= total <= 5 * count ->
              Listing.rating l = Some (Double.average1 total count)
              /\ nearestTenth total count (Double.average1 total count)
              /\ 0 <= Double.average1 total count <= 50))
    /\ (forall l, Business.id (Listing.business l) <> InsertReview.businessId review ->
          (In l (listings s') <-> In l (listings s)))
    /\ map Listing.business (listings s') = map Listing.business (listings s).
Proof.
  intros toFixed1 review uuid dbNow s new s' H theirs total count.
  rewrite createReview_parts in H. cbv zeta in H.
  destruct (DatabaseStorage.reviewsAccept _ s) eqn:Ea; cbn [negb] in H; [|discriminate H].
  destruct (Z.abs _ <? 100) eqn:Efit; cbn [negb] in H; [|discriminate H].
  injection H as Hnew Hs'. subst new s'.
  cbn [reviews listings] in *. subst count total theirs.
  set (theirs := filter _ (reviews s ++ [_])%list) in *.
  set (total := fold_left _ theirs 0) in *.
  apply Z.ltb_lt in Efit.
  assert (In (Review.mk uuid (InsertReview.userId review) (InsertReview.businessId review)
                (InsertReview.dealId review) (InsertReview.rating review)
                (InsertReview.comment review) (Some dbNow)) theirs) as Hin.
  { subst theirs. apply filter_In. split.
    - apply in_or_app. right. left. reflexivity.
    - cbn [Review.businessId]. apply String.eqb_refl. }
  assert (1 <= Z.of_nat (length theirs)) as Hcount.
  { destruct theirs as [|r rest]; [destruct Hin | simpl length; lia]. }
  split; [reflexivity|]. split; [reflexivity|]. split; [reflexivity|].
  split; [exact Hin|]. split; [exact Hcount|].
  split; [|split; [|split]].
  - unfold DatabaseStorage.reviewsAccept in Ea. cbn [Review.businessId] in Ea.
    repeat (apply andb_true_iff in Ea; destruct Ea as [Ea ?]).
    match goal with
    | Hb : existsb _ (listings s) = true |- _ =>
      apply existsb_exists in Hb; destruct Hb as [l [Hl Hid]]
    end.
    apply String.eqb_eq in Hid.
    eexists. split.
    + apply in_map_iff. exists l. split; [reflexivity | exact Hl].
    + cbn beta. rewrite Hid, String.eqb_refl. exact Hid.
  - intros l Hl Hid. apply in_map_iff in Hl. destruct Hl as [l0 [E Hl]].
    destruct (String.eqb_spec (Business.id (Listing.business l0))
                (InsertReview.businessId review)) as [E0|N0].
    + subst l. cbn [Listing.reviewCount Listing.rating].
      split; [reflexivity|]. split; [reflexivity|]. split.
      * intro Hnear. eexists. split; [reflexivity|]. split; [exact Hnear | lia].
      * intros Hjs Hmax Hstars. rewrite Hjs. split; [reflexivity|].
        pose proof (average1_nearest total (Z.of_nat (length theirs))
                      (conj Hcount Hmax) Hstars) as Hnear.
        split; [exact Hnear|]. unfold nearestTenth in Hnear. nia.
    + subst l. contradiction.
  - intros l Hne. rewrite in_map_iff. split.
    + intros [l0 [E Hl]].
      destruct (String.eqb_spec (Business.id (Listing.business l0))
                  (InsertReview.businessId review)) as [E0|N0].
      * subst l. cbn [Listing.business] in Hne. contradiction.
      * subst l. exact Hl.
    + intro Hl. exists l. split; [|exact Hl].
      destruct (String.eqb_spec (Business.id (Listing.business l))
                  (InsertReview.businessId review)) as [E0|N0]; [contradiction | reflexivity].
  - rewrite map_map. apply map_ext. intro l.
    destruct (String.eqb _ _); reflexivity.
Qed.

Lemma createReview_averages_witness :
  let s :=
    set_reviews
      [Review.mk "r1" "u1" "b1" (Some "d1") 5 None (Some Scenario.now);
       Review.mk "r2" "u1" "b1" None 5 (Some "Top") (Some Scenario.now)]
      Demo.reviewed in
  exists new s',
    DatabaseStorage.createReview Demo.toFixed1
      (InsertReview.mk "u1" "b1" (Some "d1") 4 (Some "Lekker")) "r3" Scenario.now s
    = (Ok new, s')
    /\ map Listing.reviewCount (listings s') = [Some 3; Some 0]
    /\ map Listing.rating (listings s') = [Some 47; Some 0]
    /\ nearestTenth 14 3 47
    /\ length (reviews s') = 3%nat.
Proof.
  intro s. eexists. eexists. split; [vm_compute; reflexivity|].
  split; [vm_compute; reflexivity|]. split; [vm_compute; reflexivity|].
  pose proof (createReview_averages Demo.toFixed1
                (InsertReview.mk "u1" "b1" (Some "d1") 4 (Some "Lekker")) "r3" Scenario.now
                s _ _ ltac:(vm_compute; reflexivity)) as [Hr [_ [_ [_ [_ [_ [Hrow _]]]]]]].
  split.
  - destruct (Hrow (Listing.mk (Business.mk "b1" "Bistro Een" "Kade 1" "Amsterdam")
                      (Some 47) (Some 3))
                ltac:(left; vm_compute; reflexivity) eq_refl) as [_ [_ [Hnear _]]].
    destruct (Hnear ltac:(vm_compute; discriminate)) as [tenths [E [N _]]].
    vm_compute in E. injection E as E. subst tenths. exact N.
  - rewrite Hr. reflexivity.
Defined.

(** X22.  [createReview] is not atomic: when the insert is accepted and
    the average of the business's ratings, the new one included, does not
    fit the rating column (10.0 or more), the call throws, yet the review
    stays stored and the business rows keep the rating and the review
    count they had. *)
Theorem createReview_not_atomic :
  forall (toFixed1 : Z -> Z -> Z) (review : InsertReview.t) (uuid : string)
         (dbNow : Timestamp) (s : Reviewed),
    let new := Review.mk uuid (InsertReview.userId review) (InsertReview.businessId review)
                 (InsertReview.dealId review) (InsertReview.rating review)
                 (InsertReview.comment review) (Some dbNow) in
    let theirs :=
      filter (fun r => String.eqb (Review.businessId r) (InsertReview.businessId review))
        (reviews s ++ [new]) in
    DatabaseStorage.reviewsAccept new s = true ->
    100 <= Z.abs (toFixed1 (fold_left (fun sum r => sum + Review.rating r) theirs 0)
                    (Z.of_nat (length theirs))) ->
    let r := DatabaseStorage.createReview toFixed1 review uuid dbNow s in
    fst r = Thrown
    /\ reviews (snd r) = (reviews s ++ [new])%list
    /\ listings (snd r) = listings s.
Proof.
  intros toFixed1 review uuid dbNow s new theirs Ha Hbig r. subst r.
  rewrite createReview_parts. cbv zeta. fold new. rewrite Ha. cbn [negb].
  fold theirs.
  destruct (Z.ltb_spec (Z.abs (toFixed1 (fold_left (fun sum r => sum + Review.rating r) theirs 0)
                                 (Z.of_nat (length theirs)))) 100) as [Hlt|_]; [lia|].
  cbn [negb fst snd]. split; [reflexivity|]. split; reflexivity.
Qed.

Lemma createReview_not_atomic_witness :
  let r := DatabaseStorage.createReview Demo.toFixed1
             (InsertReview.mk "u1" "b1" None 10 None) "r1" Scenario.now Demo.reviewed in
  fst r = Thrown
  /\ map Review.rating (reviews (snd r)) = [10]
  /\ map Listing.reviewCount (listings (snd r)) = [Some 0; Some 0].
Proof.
  destruct (createReview_not_atomic Demo.toFixed1 (InsertReview.mk "u1" "b1" None 10 None)
              "r1" Scenario.now Demo.reviewed eq_refl ltac:(vm_compute; discriminate))
    as [H1 [H2 H3]].
  split; [exact H1|]. split; [rewrite H2; reflexivity | rewrite H3; reflexivity].
Defined.

(** ** The manual flow of the scanner page *)

(** X23.  The redeem button redeems the code that is in the input field
    when it is clicked, not the code that was verified.  After a code has
    been verified as valid and another code has been typed, a click on
    the button, which is still shown, marks the voucher of the typed code
    used in the store and leaves the verified voucher active there, while
    the page shows the verified voucher as used.  The manual flow stores
    no notification and no payment. *)
Theorem manual_redeem_takes_typed_code :
  forall (throws : Reply -> bool) (trim : string -> string) (businessId : string)
         (verified typed : string) (now1 now2 writeAt replyAt pageAt : Timestamp) (db : Db)
         (v w : Voucher.t) (o : Business.t),
    (forall r, http r = 200 -> throws r = false) ->
    trim verified = verified ->
    trim typed = typed ->
    verified <> EmptyString ->
    typed <> EmptyString ->
    businessId <> EmptyString ->
    Spec.lookup verified db = Some v ->
    Voucher.status v = Some "active" ->
    now1 <= Voucher.expiresAt v ->
    now2 <= Voucher.expiresAt v ->
    Spec.lookup typed db = Some w ->
    Voucher.status w = Some "active" ->
    now2 <= Voucher.expiresAt w ->
    Spec.owner db w = Some o ->
    Business.id o = businessId ->
    Voucher.id w <> Voucher.id v ->
    let p1 := fst (Manual.handleVerifyVoucher throws trim now1 (Manual.mkPage verified None) db) in
    let p2 := Manual.setVoucherCode typed p1 in
    let done := Manual.handleRedeemVoucher throws trim businessId now2 writeAt replyAt pageAt
                  p2 db in
    Manual.redeemButton now2 p2 = true
    /\ Spec.lookup typed (snd done) = Some (Storage.markUsed writeAt w)
    /\ Spec.lookup verified (snd done) = Some v
    /\ option_map voucher (Manual.verificationResult (fst done))
       = Some (Some (Routes.shownUsed pageAt (Storage.view db v)))
    /\ notifications (snd done) = notifications db
    /\ business_payments (snd done) = business_payments db.
Proof.
  intros throws trim businessId verified typed now1 now2 writeAt replyAt pageAt db v w o
         Hok Tv Tt Nv Nt Nb Lv Sv E1 E2 Lw Sw E3 Ho Hid Hne p1 p2 done.
  assert (p1 = Manual.mkPage verified
                 (Some (mkReply 200 (Some "Voucher is valid and ready to use") (Some true)
                          None None (Some (Storage.view db v)) None))) as Hp1.
  { subst p1. unfold Manual.handleVerifyVoucher. cbn [Manual.voucherCode].
    rewrite Tv, (not_empty_eqb _ Nv), (verify_active verified now1 db v Nv Lv Sv E1).
    rewrite Hok by reflexivity. reflexivity. }
  assert (done
          = (Manual.mkPage typed
               (Some (mkReply 200 (Some "Voucher is valid and ready to use") (Some true)
                        None None (Some (Routes.shownUsed pageAt (Storage.view db v))) None)),
             snd (Storage.useVoucher (Voucher.id w) writeAt db))) as Hdone.
  { subst done p2. rewrite Hp1. unfold Manual.handleRedeemVoucher, Manual.setVoucherCode.
    cbn [Manual.verificationResult Manual.voucherCode voucher].
    rewrite Tt, (redeem_pass typed businessId now2 writeAt replyAt db w o Nt Nb Lw Ho Hid Sw E3).
    rewrite Hok by reflexivity. reflexivity. }
  split; [|rewrite Hdone; cbn [fst snd Manual.verificationResult option_map voucher];
           split; [|split; [|split; [|split]]]].
  - subst p2. rewrite Hp1. unfold Manual.redeemButton, Manual.setVoucherCode.
    cbn [Manual.verificationResult valid voucher].
    rewrite view_status, view_expiresAt, Sv. cbn [Storage.statusIs].
    destruct (Z.ltb_spec (Voucher.expiresAt v) now2) as [Hlt|_]; [lia | reflexivity].
  - exact (lookup_redeemed typed writeAt db w Lw Sw).
  - rewrite lookup_useVoucher, Lv. cbn [option_map].
    assert (Storage.usable (Voucher.id w) v = false) as U.
    { destruct (Storage.usable (Voucher.id w) v) eqn:U; [|reflexivity].
      apply usable_spec in U. destruct U as [U _]. exfalso. apply Hne. symmetry. exact U. }
    rewrite U. reflexivity.
  - reflexivity.
  - reflexivity.
  - reflexivity.
Qed.

Lemma manual_redeem_takes_typed_code_witness :
  let db :=
    set_vouchers
      (vouchers Scenario.db
       ++ [Voucher.mk "v2" "u1" "d1" "DS-1700000600001-4FZYO8" (Some "active")
             (Some 1700000600003) None (Scenario.now + Scenario.day)])
      Scenario.db in
  let p1 := fst (Manual.handleVerifyVoucher Scenario.throws Scenario.trim Scenario.now
                   (Manual.mkPage "DS-1700000000000-AB12CD" None) db) in
  let p2 := Manual.setVoucherCode "DS-1700000600001-4FZYO8" p1 in
  let done := Manual.handleRedeemVoucher Scenario.throws Scenario.trim "b1"
                Scenario.now Scenario.now Scenario.now Scenario.now p2 db in
  option_map Voucher.status (Spec.lookup "DS-1700000600001-4FZYO8" (snd done))
  = Some (Some "used")
  /\ option_map Voucher.status (Spec.lookup "DS-1700000000000-AB12CD" (snd done))
     = Some (Some "active")
  /\ business_payments (snd done) = [].
Proof.
  intros db p1 p2 done.
  destruct (manual_redeem_takes_typed_code Scenario.throws Scenario.trim "b1"
              "DS-1700000000000-AB12CD" "DS-1700000600001-4FZYO8"
              Scenario.now Scenario.now Scenario.now Scenario.now Scenario.now db
              (Voucher.mk "v1" "u1" "d1" "DS-1700000000000-AB12CD" (Some "active")
                 (Some 1700000000000) None (Scenario.now + Scenario.day))
              (Voucher.mk "v2" "u1" "d1" "DS-1700000600001-4FZYO8" (Some "active")
                 (Some 1700000600003) None (Scenario.now + Scenario.day))
              (Business.mk "b1" "Bistro Een" "Kade 1" "Amsterdam")
              scenario_throws_ok eq_refl eq_refl
              ltac:(discriminate) ltac:(discriminate) ltac:(discriminate)
              eq_refl eq_refl ltac:(vm_compute; discriminate) ltac:(vm_compute; discriminate)
              eq_refl eq_refl ltac:(vm_compute; discriminate) eq_refl eq_refl
              ltac:(discriminate))
    as [_ [H2 [H3 [_ [_ H6]]]]].
  fold p1 in H2, H3, H6. fold p2 in H2, H3, H6. fold done in H2, H3, H6.
  rewrite H2, H3. split; [reflexivity|]. split; [reflexivity | exact H6].
Defined.

(** ** What the requests keep of the tables *)

Lemma payout_failure (businessId voucherId : option string) (amount : option Decimal)
    (description : option string) (uuid : string) (createdAt : Timestamp) (db : Db) :
  success (fst (Routes.payout businessId voucherId amount description uuid createdAt db))
  <> Some true ->
  snd (Routes.payout businessId voucherId amount description uuid createdAt db) = db.
Proof.
  unfold Routes.payout. destruct amount as [a|]; [|reflexivity].
  destruct (Storage.createBusinessPayment _ _ _ _) as [[p db']|]; [|reflexivity].
  destruct (Storage.updateBusinessPaymentStatus _ _ _) as [ok db''].
  cbn [fst success]. intro H. exfalso. apply H. reflexivity.
Qed.

Lemma payout_pays (businessId voucherId : option string) (amount : option Decimal)
    (description : option string) (uuid : string) (createdAt : Timestamp) (db : Db) :
  Ledger.pays db
    (snd (Routes.payout businessId voucherId amount description uuid createdAt db)).
Proof.
  destruct (success (fst (Routes.payout businessId voucherId amount description
                            uuid createdAt db))) as [[|]|] eqn:E.
  - destruct (payout_success _ _ _ _ _ _ _ E) as [b [v [a [_ [_ [_ [_ [Hv [_ Hdb]]]]]]]]].
    right. exists v. split; [exact Hv|]. rewrite Hdb.
    cbn [business_payments set_business_payments]. rewrite map_app. reflexivity.
  - left. rewrite payout_failure; [reflexivity|]. rewrite E. discriminate.
  - left. rewrite payout_failure; [reflexivity|]. rewrite E. discriminate.
Qed.

Lemma pays_same (d d' : Db) :
  business_payments d' = business_payments d -> Ledger.pays d d'.
Proof. intro H. left. rewrite H. reflexivity. Qed.

Lemma useVoucher_changes (voucherId : string) (now : Timestamp) (db : Db) :
  Ledger.changes (vouchers db) (vouchers (snd (Storage.useVoucher voucherId now db))).
Proof. right. left. exists voucherId, now. reflexivity. Qed.

Lemma createVoucher_changes (voucher : InsertVoucher.t)
    (nowCode : Timestamp) (random36 uuid : string) (nowExpiry dbNow : Timestamp)
    (db : Db) (v : Voucher.t) (db' : Db) :
  Storage.createVoucher voucher nowCode random36 uuid nowExpiry dbNow db = Ok (v, db') ->
  Ledger.changes (vouchers db) (vouchers db')
  /\ business_payments db' = business_payments db.
Proof.
  intro H. destruct (createVoucher_stored _ _ _ _ _ _ _ _ _ H) as [Hv [Hdb [F1 [F2 _]]]].
  split; [|rewrite Hdb; reflexivity].
  right. right. exists v. split; [rewrite Hdb; reflexivity|].
  rewrite Hv. cbn [Voucher.id Voucher.code]. split; assumption.
Qed.

Section Steps.

Variable throws : Reply -> bool.
Variable trim : string -> string.

(** What one request does to the voucher table and to the payments. *)
Lemma step_changes (s s' : System.t) :
  System.step throws trim s s' ->
  Ledger.changes (vouchers (System.db s)) (vouchers (System.db s'))
  /\ Ledger.pays (System.db s) (System.db s').
Proof.
  intro H.
  destruct H as [s businessId code
                | d d' before after businessId stage stage' env Hadv
                | s code now
                | s code businessId now writeAt replyAt
                | s user id writeAt
                | s user dealId isSuccessful nowV nowExpires nowCode random36 uuid nowExpiry dbNow
                | s voucher nowCode random36 uuid nowExpiry dbNow v d' Hc
                | s notification uuid dbNow n d' Hn
                | s us bs ds ns];
    cbn [System.db].
  - split; [left; reflexivity | apply pays_same; reflexivity].
  - destruct stage as [code | code v | v voucher | v | v |]; cbn [Scanner.advance] in Hadv.
    + pose proof (afterScan_writes_nothing throws trim businessId code (Scanner.now env) d) as W.
      rewrite Hadv in W. cbn [snd] in W. subst d'.
      split; [left; reflexivity | apply pays_same; reflexivity].
    + destruct (redeemSent_stage throws trim businessId code v (Scanner.now env) d) as [W _].
      rewrite Hadv in W. cbn [snd] in W. subst d'.
      split; [left; reflexivity | apply pays_same; reflexivity].
    + pose proof (redeemAnswered_stage throws v voucher (Scanner.writeAt env)
                    (Scanner.replyAt env) d) as W.
      cbv zeta in W. destruct W as [W _]. rewrite Hadv in W. cbn [snd] in W. subst d'.
      split; [apply useVoucher_changes | apply pays_same; reflexivity].
    + injection Hadv as _ Hd. subst d'.
      destruct (sendRedemptionNotification_keeps v (Scanner.uuid env) (Scanner.now env) d)
        as [K1 K2].
      split; [left; exact K1 | apply pays_same; exact K2].
    + injection Hadv as _ Hd. subst d'. unfold Scanner.processBusinessPayment.
      destruct (VoucherView.deal v) as [deal|].
      * split; [left; apply payout_keeps_vouchers | apply payout_pays].
      * split; [left; reflexivity | apply pays_same; reflexivity].
    + injection Hadv as _ Hd. subst d'.
      split; [left; reflexivity | apply pays_same; reflexivity].
  - rewrite verify_reads_only. split; [left; reflexivity | apply pays_same; reflexivity].
  - split.
    + destruct (redeem_writes code businessId now writeAt replyAt (System.db s)) as [E|[id E]];
        rewrite E; [left; reflexivity | apply useVoucher_changes].
    + apply pays_same. apply redeem_grows.
  - rewrite use_writes. split; [apply useVoucher_changes | apply pays_same; reflexivity].
  - pose proof (purchase_writes user dealId isSuccessful nowV nowExpires nowCode random36
                  uuid nowExpiry dbNow (System.db s)) as W.
    cbv zeta in W. destruct W as [[E _]|[deal [c [v [Hc _]]]]].
    + rewrite E. split; [left; reflexivity | apply pays_same; reflexivity].
    + destruct (createVoucher_changes _ _ _ _ _ _ _ _ _ Hc) as [C P].
      split; [exact C | apply pays_same; exact P].
  - destruct (createVoucher_changes _ _ _ _ _ _ _ _ _ Hc) as [C P].
    split; [exact C | apply pays_same; exact P].
  - destruct (createNotification_keeps _ _ _ _ _ _ Hn) as [K1 K2].
    split; [left; exact K1 | apply pays_same; exact K2].
  - split; [left; reflexivity | apply pays_same; reflexivity].
Qed.

Lemma changes_ids (vs vs' : list Voucher.t) (id : string) :
  Ledger.changes vs vs' -> In id (map Voucher.id vs) -> In id (map Voucher.id vs').
Proof.
  intros [E|[[voucherId [now E]]|[v [E _]]]] H; subst vs'.
  - exact H.
  - rewrite map_map.
    rewrite (map_ext _ Voucher.id); [exact H|].
    intro x. destruct (Storage.usable voucherId x); reflexivity.
  - rewrite map_app. apply in_or_app. left. exact H.
Qed.

Lemma referenced_step (s s' : System.t) :
  System.step throws trim s s' ->
  Ledger.referenced (System.db s) -> Ledger.referenced (System.db s').
Proof.
  intros Hstep Href. destruct (step_changes s s' Hstep) as [C P].
  intros p Hp. apply (changes_ids _ _ _ C).
  assert (In (BusinessPayment.voucherId p)
            (map BusinessPayment.voucherId (business_payments (System.db s')))) as Hin
    by (apply in_map; exact Hp).
  destruct P as [E|[v [Hv E]]]; rewrite E in Hin.
  - apply in_map_iff in Hin. destruct Hin as [p0 [E0 H0]]. rewrite <- E0. apply Href. exact H0.
  - apply in_app_or in Hin. destruct Hin as [Hin|[Hin|[]]].
    + apply in_map_iff in Hin. destruct Hin as [p0 [E0 H0]]. rewrite <- E0. apply Href.
      exact H0.
    + subst v. exact Hv.
Qed.

End Steps.

(** X24.  Whatever requests reach the server and however the scanner
    pages interleave with them, every payment stored is for a stored
    voucher: starting from a store where that holds, no request stores a
    payment for a voucher id that is not in the voucher table, and no
    request removes a voucher. *)
Theorem payments_reference_vouchers :
  forall (throws : Reply -> bool) (trim : string -> string) (s s' : System.t),
    Ledger.referenced (System.db s) ->
    System.run throws trim s s' ->
    Ledger.referenced (System.db s')
    /\ (forall id, In id (map Voucher.id (vouchers (System.db s))) ->
          In id (map Voucher.id (vouchers (System.db s')))).
Proof.
  intros throws trim s s' Href Hrun.
  induction Hrun as [s|s s' s'' _ IH Hstep]; [split; [exact Href | tauto]|].
  destruct (IH Href) as [R I]. split.
  - exact (referenced_step throws trim s' s'' Hstep R).
  - intros id Hid. destruct (step_changes throws trim s' s'' Hstep) as [C _].
    apply (changes_ids _ _ _ C). apply I. exact Hid.
Qed.

Lemma payments_reference_vouchers_witness :
  let shown :=
    Storage.view Scenario.db
      (Voucher.mk "v1" "u1" "d1" "DS-1700000000000-AB12CD" (Some "active")
         (Some 1700000000000) None (Scenario.now + Scenario.day)) in
  let s := System.mk Scenario.db [("b1", Scanner.Notified shown)] in
  let s' :=
    System.mk
      (snd (Scanner.advance Scenario.throws Scenario.trim "b1" (Scanner.Notified shown)
              (Scenario.env "p1") Scenario.db))
      [("b1", Scanner.Finished)] in
  Ledger.referenced (System.db s)
  /\ System.run Scenario.throws Scenario.trim s s'
  /\ map BusinessPayment.voucherId (business_payments (System.db s')) = ["v1"]
  /\ Ledger.referenced (System.db s').
Proof.
  intros shown s s'.
  assert (Ledger.referenced (System.db s)) as R0 by (intros p []).
  assert (System.run Scenario.throws Scenario.trim s s') as R.
  { eapply System.run_step; [apply System.run_nil|].
    apply (System.advances Scenario.throws Scenario.trim Scenario.db _ [] [] "b1"
             (Scanner.Notified shown) Scanner.Finished (Scenario.env "p1")).
    reflexivity. }
  split; [exact R0|]. split; [|split; [reflexivity|]].
  - exact R.
  - exact (proj1 (payments_reference_vouchers Scenario.throws Scenario.trim s s' R0 R)).
Defined.

Lemma NoDup_appended {A : Type} (xs : list A) (x : A) :
  NoDup xs -> ~ In x xs -> NoDup (xs ++ [x]).
Proof.
  intros Hn Hx. induction Hn as [|y ys Hy Hn IH]; simpl.
  - constructor; [intros [] | constructor].
  - constructor.
    + intro H. apply in_app_or in H. destruct H as [H|[H|[]]]; [exact (Hy H)|].
      apply Hx. left. symmetry. exact H.
    + apply IH. intro H. apply Hx. right. exact H.
Qed.

Lemma changes_distinct (d d' : Db) :
  Ledger.changes (vouchers d) (vouchers d') -> Ledger.distinct d -> Ledger.distinct d'.
Proof.
  unfold Ledger.distinct.
  intros [E|[[voucherId [now E]]|[v [E [F1 F2]]]]] [N1 N2]; rewrite E.
  - split; assumption.
  - rewrite !map_map.
    rewrite (map_ext (fun x => Voucher.id (if Storage.usable voucherId x
                                           then Storage.markUsed now x else x)) Voucher.id),
            (map_ext (fun x => Voucher.code (if Storage.usable voucherId x
                                             then Storage.markUsed now x else x)) Voucher.code).
    + split; assumption.
    + intro x. destruct (Storage.usable voucherId x); reflexivity.
    + intro x. destruct (Storage.usable voucherId x); reflexivity.
  - rewrite !map_app. cbn [map]. split; apply NoDup_appended; assumption.
Qed.

Lemma NoDup_map_unique {A B : Type} (f : A -> B) (xs : list A) (x y : A) :
  NoDup (map f xs) -> In x xs -> In y xs -> f x = f y -> x = y.
Proof.
  induction xs as [|z zs IH]; intros Hn Hx Hy E; [destruct Hx|].
  simpl in Hn. inversion Hn as [|? ? Hz Hn']; subst.
  destruct Hx as [Hx|Hx], Hy as [Hy|Hy].
  - congruence.
  - subst z. exfalso. apply Hz. rewrite E. apply in_map. exact Hy.
  - subst z. exfalso. apply Hz. rewrite <- E. apply in_map. exact Hx.
  - apply IH; assumption.
Qed.

(** X25.  Whatever requests reach the server, no two stored vouchers
    ever share an id or a code, provided none did at the start: a code
    resolves to one voucher only, the one that both the verify and the
    redeem route find. *)
Theorem voucher_codes_stay_unique :
  forall (throws : Reply -> bool) (trim : string -> string) (s s' : System.t),
    Ledger.distinct (System.db s) ->
    System.run throws trim s s' ->
    Ledger.distinct (System.db s')
    /\ (forall v w,
          In v (vouchers (System.db s')) -> In w (vouchers (System.db s')) ->
          Voucher.code v = Voucher.code w -> v = w)
    /\ (forall code v,
          In v (vouchers (System.db s')) -> Voucher.code v = code ->
          Storage.verifyVoucherByCode code (System.db s')
          = Some (Storage.view (System.db s') v)).
Proof.
  intros throws trim s s' Hd Hrun.
  assert (Ledger.distinct (System.db s')) as D.
  { induction Hrun as [s|s s' s'' _ IH Hstep]; [exact Hd|].
    destruct (step_changes throws trim s' s'' Hstep) as [C _].
    exact (changes_distinct _ _ C (IH Hd)). }
  split; [exact D|]. destruct D as [_ Dc].
  assert (forall v w,
            In v (vouchers (System.db s')) -> In w (vouchers (System.db s')) ->
            Voucher.code v = Voucher.code w -> v = w) as U
    by (intros v w; apply NoDup_map_unique; exact Dc).
  split; [exact U|].
  intros code v Hin Hc. rewrite verifyVoucherByCode_lookup.
  destruct (Spec.lookup code (System.db s')) as [w|] eqn:L.
  - destruct (lookup_stored _ _ _ L) as [Hw Hcw].
    rewrite (U v w Hin Hw); [reflexivity | congruence].
  - exfalso. unfold Spec.lookup in L.
    pose proof (find_none _ _ L v Hin) as N. cbn beta in N.
    rewrite Hc, String.eqb_refl in N. discriminate N.
Qed.

Lemma voucher_codes_stay_unique_witness :
  let s := System.mk Scenario.db [] in
  let s' :=
    System.mk
      (snd (Routes.purchase "u1" (Some "d1") true 1700000600000 1700000600000
              1700000600001 "0.4fzyo82mvyr" "v2" 1700000600002 1700000600003 Scenario.db))
      [] in
  Ledger.distinct (System.db s)
  /\ System.run Scenario.throws Scenario.trim s s'
  /\ map Voucher.code (vouchers (System.db s'))
     = ["DS-1700000000000-AB12CD"; "DS-1700000600001-4FZYO8"]
  /\ Ledger.distinct (System.db s').
Proof.
  intros s s'.
  assert (Ledger.distinct (System.db s)) as D0.
  { split; (constructor; [intros [] | constructor]). }
  assert (System.run Scenario.throws Scenario.trim s s') as R.
  { eapply System.run_step; [apply System.run_nil|].
    exact (System.purchases Scenario.throws Scenario.trim s "u1" (Some "d1") true
             1700000600000 1700000600000 1700000600001 "0.4fzyo82mvyr" "v2"
             1700000600002 1700000600003). }
  split; [exact D0|]. split; [exact R|]. split; [reflexivity|].
  exact (proj1 (voucher_codes_stay_unique Scenario.throws Scenario.trim s s' D0 R)).
Defined.

Lemma changes_lookup (vs vs' : list Voucher.t) (code : string) (v : Voucher.t) :
  Ledger.changes vs vs' ->
  find (fun r => String.eqb (Voucher.code r) code) vs = Some v ->
  exists v',
    find (fun r => String.eqb (Voucher.code r) code) vs' = Some v'
    /\ Voucher.id v' = Voucher.id v
    /\ Voucher.expiresAt v' = Voucher.expiresAt v.
Proof.
  intros [E|[[voucherId [now E]]|[w [E _]]]] H; subst vs'.
  - exists v. split; [exact H | split; reflexivity].
  - rewrite find_update.
    + rewrite H. cbn [option_map]. eexists. split; [reflexivity|].
      destruct (Storage.usable voucherId v); split; reflexivity.
    + intro r. destruct (Storage.usable voucherId r); reflexivity.
  - exists v. split; [apply find_insert; exact H | split; reflexivity].
Qed.

(** X26.  An expired voucher stays expired for the business routes: once
    the expiry time of a stored voucher has passed, then whatever
    requests reach the server afterwards, the redeem route rejects its
    code and writes nothing, and the verify route answers that the
    voucher is expired.  No request changes the expiry time of a stored
    voucher. *)
Theorem expired_stays_unredeemable :
  forall (throws : Reply -> bool) (trim : string -> string) (s s' : System.t)
         (code : string) (v : Voucher.t) (now : Timestamp),
    Spec.lookup code (System.db s) = Some v ->
    Voucher.expiresAt v < now ->
    System.run throws trim s s' ->
    (exists v',
       Spec.lookup code (System.db s') = Some v'
       /\ Voucher.id v' = Voucher.id v
       /\ Voucher.expiresAt v' = Voucher.expiresAt v)
    /\ (forall businessId writeAt replyAt,
          let r := Routes.redeem (Some code) businessId now writeAt replyAt (System.db s') in
          success (fst r) <> Some true /\ snd r = System.db s')
    /\ (code <> EmptyString ->
          message (fst (Routes.verify (Some code) now (System.db s')))
          = Some "Voucher is expired").
Proof.
  intros throws trim s s' code v now Hv Hexp Hrun.
  assert (exists v',
            Spec.lookup code (System.db s') = Some v'
            /\ Voucher.id v' = Voucher.id v
            /\ Voucher.expiresAt v' = Voucher.expiresAt v) as Hkept.
  { induction Hrun as [s|s s' s'' _ IH Hstep].
    - exists v. split; [exact Hv | split; reflexivity].
    - destruct (IH Hv) as [v' [L [I X]]].
      destruct (step_changes throws trim s' s'' Hstep) as [C _].
      destruct (changes_lookup _ _ code v' C L) as [v'' [L' [I' X']]].
      exists v''. split; [exact L' | split; congruence]. }
  split; [exact Hkept|]. destruct Hkept as [v' [L [_ X]]]. split.
  - intros businessId writeAt replyAt r.
    assert (success (fst r) <> Some true) as Hrej.
    { intro Hs. destruct (redeem_success _ _ _ _ _ _ Hs)
        as [c [b [w [o [Ec [_ [_ [_ [Lw [_ [_ [Ht _]]]]]]]]]]]].
      injection Ec as Ec. subst c. rewrite L in Lw. injection Lw as Lw. subst w. lia. }
    split; [exact Hrej|]. apply redeem_rejection_writes_nothing. exact Hrej.
  - intro Hc. unfold Routes.verify.
    rewrite (not_empty_eqb _ Hc), verifyVoucherByCode_lookup, L.
    cbn [option_map]. rewrite view_expiresAt.
    destruct (Z.ltb_spec (Voucher.expiresAt v') now) as [_|Hge]; [reflexivity | lia].
Qed.

Lemma expired_stays_unredeemable_witness :
  let late := Scenario.now + 2 * Scenario.day in
  let s := System.mk Scenario.db [] in
  let s' :=
    System.mk
      (snd (Routes.purchase "u1" (Some "d1") true 1700000600000 1700000600000
              1700000600001 "0.4fzyo82mvyr" "v2" 1700000600002 1700000600003 Scenario.db))
      [] in
  System.run Scenario.throws Scenario.trim s s'
  /\ success (fst (Routes.redeem (Some "DS-1700000000000-AB12CD") (Some "b1")
                     late late late (System.db s'))) <> Some true
  /\ message (fst (Routes.verify (Some "DS-1700000000000-AB12CD") late (System.db s')))
     = Some "Voucher is expired".
Proof.
  intros late s s'.
  assert (System.run Scenario.throws Scenario.trim s s') as R.
  { eapply System.run_step; [apply System.run_nil|].
    exact (System.purchases Scenario.throws Scenario.trim s "u1" (Some "d1") true
             1700000600000 1700000600000 1700000600001 "0.4fzyo82mvyr" "v2"
             1700000600002 1700000600003). }
  split; [exact R|].
  destruct (expired_stays_unredeemable Scenario.throws Scenario.trim s s'
              "DS-1700000000000-AB12CD"
              (Voucher.mk "v1" "u1" "d1" "DS-1700000000000-AB12CD" (Some "active")
                 (Some 1700000000000) None (Scenario.now + Scenario.day))
              late eq_refl ltac:(vm_compute; reflexivity) R) as [_ [H2 H3]].
  split; [exact (proj1 (H2 (Some "b1") late late)) | apply H3; discriminate].
Defined.

(** X27.  [updateBusinessPaymentStatus] answers true exactly when a
    payment of that id is stored; answering false it changes nothing.
    It writes the status of the payments of that id and nothing else:
    every payment keeps its place, id, business, voucher and amount, and
    the payments of other ids keep their status too.  Calling it again
    with the same arguments changes nothing more. *)
Theorem updateBusinessPaymentStatus_only_status :
  forall (id status : string) (db : Db),
    let r := Storage.updateBusinessPaymentStatus id status db in
    (fst r = true <-> In id (map BusinessPayment.id (business_payments db)))
    /\ (fst r = false -> snd r = db)
    /\ (forall n p, nth_error (business_payments db) n = Some p ->
          exists p',
            nth_error (business_payments (snd r)) n = Some p'
            /\ BusinessPayment.id p' = BusinessPayment.id p
            /\ BusinessPayment.businessId p' = BusinessPayment.businessId p
            /\ BusinessPayment.voucherId p' = BusinessPayment.voucherId p
            /\ BusinessPayment.amount p' = BusinessPayment.amount p
            /\ BusinessPayment.status p'
               = (if String.eqb (BusinessPayment.id p) id
                  then Some status else BusinessPayment.status p))
    /\ length (business_payments (snd r)) = length (business_payments db)
    /\ vouchers (snd r) = vouchers db
    /\ snd (Storage.updateBusinessPaymentStatus id status (snd r)) = snd r.
Proof.
  intros id status db r. subst r. unfold Storage.updateBusinessPaymentStatus.
  cbn [fst snd business_payments set_business_payments vouchers].
  split; [|split; [|split; [|split; [|split]]]].
  - rewrite returned_some. rewrite in_map_iff. split.
    + intros [p [Hin Hp]]. exists p. split; [apply String.eqb_eq; exact Hp | exact Hin].
    + intros [p [Hp Hin]]. exists p. split; [exact Hin | apply String.eqb_eq; exact Hp].
  - intro H. pose proof (proj1 (returned_none _ _) H) as N.
    rewrite update_none by exact N. destruct db; reflexivity.
  - intros n p Hn.
    rewrite (update_at _ _ _ _ _ Hn).
    destruct (String.eqb (BusinessPayment.id p) id);
      (eexists; split; [reflexivity|]; repeat split).
  - apply length_map.
  - reflexivity.
  - unfold set_business_payments. cbn [users businesses deals vouchers notifications].
    f_equal. rewrite map_map. apply map_ext. intro p.
    destruct (String.eqb (BusinessPayment.id p) id) eqn:E.
    + cbn [Storage.withStatus BusinessPayment.id]. rewrite E. reflexivity.
    + rewrite E. reflexivity.
Qed.

(** ** The voucher after later requests *)

(** A row found under a code after one request: the row as it was, or,
    when it was active, the row marked used. *)
Lemma changes_lookup_status (vs vs' : list Voucher.t) (code : string) (v : Voucher.t) :
  Ledger.changes vs vs' ->
  find (fun r => String.eqb (Voucher.code r) code) vs = Some v ->
  find (fun r => String.eqb (Voucher.code r) code) vs' = Some v
  \/ (Voucher.status v = Some "active"
      /\ exists moment,
           find (fun r => String.eqb (Voucher.code r) code) vs'
           = Some (Storage.markUsed moment v)).
Proof.
  intros [E|[[voucherId [now E]]|[w [E _]]]] H; subst vs'.
  - left. exact H.
  - rewrite find_update.
    + rewrite H. cbn [option_map].
      destruct (Storage.usable voucherId v) eqn:U.
      * right. apply usable_spec in U. split; [apply U|]. exists now. reflexivity.
      * left. reflexivity.
    + intro r. destruct (Storage.usable voucherId r); reflexivity.
  - left. apply find_insert. exact H.
Qed.

Section Later.

Variable throws : Reply -> bool.
Variable trim : string -> string.

(** A used voucher is the same row after any requests. *)
Lemma run_lookup_used (s s' : System.t) (code : string) (v : Voucher.t) :
  Spec.lookup code (System.db s) = Some v ->
  Voucher.status v = Some "used" ->
  System.run throws trim s s' ->
  Spec.lookup code (System.db s') = Some v.
Proof.
  intros Hv Hs Hrun. induction Hrun as [s|s s' s'' _ IH Hstep]; [exact Hv|].
  destruct (step_changes throws trim s' s'' Hstep) as [C _].
  destruct (changes_lookup_status _ _ code v C (IH Hv)) as [L|[A _]]; [exact L|].
  rewrite Hs in A. discriminate A.
Qed.

(** An active voucher is, after any requests, the same row or that row
    marked used. *)
Lemma run_lookup_active (s s' : System.t) (code : string) (v : Voucher.t) :
  Spec.lookup code (System.db s) = Some v ->
  System.run throws trim s s' ->
  Spec.lookup code (System.db s') = Some v
  \/ exists moment, Spec.lookup code (System.db s') = Some (Storage.markUsed moment v).
Proof.
  intros Hv Hrun. induction Hrun as [s|s s' s'' Hrun IH Hstep]; [left; exact Hv|].
  destruct (step_changes throws trim s' s'' Hstep) as [C _].
  destruct (IH Hv) as [L|[moment0 L]].
  - destruct (changes_lookup_status _ _ code v C L) as [L'|[_ [moment1 L']]].
    + left. exact L'.
    + right. exists moment1. exact L'.
  - right. exists moment0.
    destruct (changes_lookup_status _ _ code _ C L) as [L'|[A _]]; [exact L'|].
    discriminate A.
Qed.

End Later.

(** The verify route on a stored voucher whose expiry has passed. *)
Lemma verify_expired (code : string) (now : Timestamp) (db : Db) (v : Voucher.t) :
  code <> EmptyString ->
  Spec.lookup code db = Some v ->
  Voucher.expiresAt v < now ->
  fst (Routes.verify (Some code) now db)
  = mkReply 200 (Some "Voucher is expired") (Some false) None None
      (Some (Storage.view db v)) None.
Proof.
  intros Hc Hv Ht. unfold Routes.verify.
  rewrite (not_empty_eqb _ Hc), verifyVoucherByCode_lookup, Hv.
  cbn [option_map fst]. rewrite view_expiresAt.
  destruct (Z.ltb_spec (Voucher.expiresAt v) now) as [_|Hge]; [reflexivity | lia].
Qed.

(** X1.  A voucher that the purchase route has issued is active and
    expires thirty days after the route's clock read.  In every state the
    server reaches afterwards, whatever requests arrive, its code
    resolves to that voucher, as issued or marked used.  While it is as
    issued, and so on the store the purchase left, the verify route
    answers at every moment up to the expiry that it is valid; once it is
    marked used, the verify route answers at every moment up to the
    expiry that it has already been used; at every moment after the
    expiry the verify route answers that it is expired. *)
Theorem purchased_voucher_verifies :
  forall (throws : Reply -> bool) (trim : string -> string)
         (user : string) (dealId : option string) (isSuccessful : bool)
         (nowV nowExpires nowCode : Timestamp) (random36 uuid : string)
         (nowExpiry dbNow : Timestamp) (db : Db) (v : Voucher.t),
    let r := Routes.purchase user dealId isSuccessful nowV nowExpires
               nowCode random36 uuid nowExpiry dbNow db in
    issued (fst r) = Some v ->
    Voucher.expiresAt v = nowExpires + 30 * 24 * 60 * 60 * 1000
    /\ Voucher.status v = Some "active"
    /\ Spec.lookup (Voucher.code v) (snd r) = Some v
    /\ VoucherView.deal (Storage.view (snd r) v) <> None
    /\ (forall s s',
          System.db s = snd r ->
          System.run throws trim s s' ->
          let d := System.db s' in
          exists v',
            Spec.lookup (Voucher.code v) d = Some v'
            /\ (v' = v \/ exists moment, v' = Storage.markUsed moment v)
            /\ (forall now, now <= Voucher.expiresAt v ->
                  Routes.verify (Some (Voucher.code v)) now d
                  = (mkReply 200
                       (Some (if Storage.statusIs "active" (Voucher.status v')
                              then "Voucher is valid and ready to use"
                              else "Voucher has already been used"))
                       (Some (Storage.statusIs "active" (Voucher.status v')))
                       None None (Some (Storage.view d v')) None, d))
            /\ (forall now, Voucher.expiresAt v < now ->
                  fst (Routes.verify (Some (Voucher.code v)) now d)
                  = mkReply 200 (Some "Voucher is expired") (Some false) None None
                      (Some (Storage.view d v')) None)).
Proof.
  intros throws trim user dealId isSuccessful nowV nowExpires nowCode random36 uuid
         nowExpiry dbNow db v r Hi.
  destruct (purchase_issued _ _ _ _ _ _ _ _ _ _ _ _ Hi)
    as [deal [_ [Hv [Hdb [_ [F [_ D]]]]]]].
  fold r in Hdb.
  assert (Voucher.code v = Storage.generateCode nowCode random36) as Hcode
    by (rewrite Hv; reflexivity).
  assert (Voucher.status v = Some "active") as Hact by (rewrite Hv; reflexivity).
  assert (Spec.lookup (Voucher.code v) (snd r) = Some v) as Hl.
  { rewrite Hdb. apply lookup_appended. rewrite Hcode. exact F. }
  assert (Voucher.code v <> EmptyString) as Hne
    by (rewrite Hcode; apply generateCode_not_empty).
  split; [rewrite Hv; reflexivity|]. split; [exact Hact|]. split; [exact Hl|].
  split.
  { unfold Storage.view. cbn [VoucherView.deal].
    assert (Storage.joinDeal (snd r) v <> None) as Hd.
    { unfold Storage.joinDeal. rewrite Hdb. cbn [deals set_vouchers].
      apply in_map_iff in D. destruct D as [d [Hid Hin]].
      intro Hnone.
      pose proof (find_none _ _ Hnone d Hin) as Hf. cbn beta in Hf.
      rewrite Hv in Hf. cbn [Voucher.dealId] in Hf. rewrite Hid, String.eqb_refl in Hf.
      discriminate Hf. }
    destruct (Storage.joinDeal (snd r) v); [discriminate | contradiction]. }
  intros s s' Hs Hrun d. rewrite <- Hs in Hl.
  assert (exists v', Spec.lookup (Voucher.code v) d = Some v'
                     /\ (v' = v \/ exists moment, v' = Storage.markUsed moment v)) as [v' [L Hv']].
  { destruct (run_lookup_active throws trim s s' _ v Hl Hrun) as [L|[moment0 L]].
    - exists v. split; [exact L | left; reflexivity].
    - exists (Storage.markUsed moment0 v). split; [exact L | right; exists moment0; reflexivity]. }
  assert (Voucher.expiresAt v' = Voucher.expiresAt v) as Hx
    by (destruct Hv' as [->|[moment0 ->]]; reflexivity).
  exists v'. split; [exact L|]. split; [exact Hv'|]. split.
  - intros now Hnow. destruct Hv' as [->|[moment0 ->]].
    + rewrite Hact. cbn [Storage.statusIs String.eqb Ascii.eqb Bool.eqb].
      apply verify_active; assumption.
    + cbn [Storage.markUsed Voucher.status Storage.statusIs].
      rewrite (surjective_pairing (Routes.verify _ _ _)), verify_reads_only.
      rewrite (verify_used _ now d _ Hne L eq_refl).
      cbn [Storage.markUsed Voucher.expiresAt].
      destruct (Z.ltb_spec (Voucher.expiresAt v) now) as [Hlt|_]; [lia|]. reflexivity.
  - intros now Hnow. apply verify_expired; [exact Hne | exact L | lia].
Qed.

Lemma purchased_voucher_verifies_witness :
  let r := Routes.purchase "u1" (Some "d1") true 1700000600000 1700000600000
             1700000600001 "0.4fzyo82mvyr" "v2" 1700000600002 1700000600003 Scenario.db in
  let code := "DS-1700000600001-4FZYO8" in
  let soon := 1700000600000 + Scenario.day in
  let s := System.mk (snd r) [] in
  let s' := System.mk (snd (Routes.redeem (Some code) (Some "b1") soon soon soon (snd r))) [] in
  System.run Scenario.throws Scenario.trim s s'
  /\ valid (fst (Routes.verify (Some code) soon (System.db s))) = Some true
  /\ message (fst (Routes.verify (Some code) soon (System.db s')))
     = Some "Voucher has already been used".
Proof.
  intros r code soon s s'.
  assert (System.run Scenario.throws Scenario.trim s s') as R.
  { eapply System.run_step; [apply System.run_nil|].
    exact (System.redeems Scenario.throws Scenario.trim s (Some code) (Some "b1")
             soon soon soon). }
  split; [exact R|].
  destruct (purchased_voucher_verifies Scenario.throws Scenario.trim
              "u1" (Some "d1") true 1700000600000 1700000600000
              1700000600001 "0.4fzyo82mvyr" "v2" 1700000600002 1700000600003 Scenario.db
              _ eq_refl) as [_ [_ [_ [_ H]]]].
  split.
  - destruct (H s s eq_refl (System.run_nil _ _ s)) as [v' [L [_ [Hvalid _]]]].
    vm_compute in L. injection L as L. subst v'.
    pose proof (Hvalid soon ltac:(vm_compute; discriminate)) as E.
    apply (f_equal (fun answer => valid (fst answer))) in E. exact E.
  - destruct (H s s' eq_refl R) as [v' [L [_ [Hvalid _]]]].
    vm_compute in L. injection L as L. subst v'.
    pose proof (Hvalid soon ltac:(vm_compute; discriminate)) as E.
    apply (f_equal (fun answer => message (fst answer))) in E. exact E.
Defined.

(** X2.  Once the redeem route has answered success for a code, then in
    every state the server reaches afterwards, whatever requests arrive,
    the code resolves to the voucher as that redemption marked it, the
    verify route answers for the code that the voucher is not valid (it
    has already been used, or, asked after the expiry time, it is
    expired), and the redeem route does not answer success for the code
    again. *)
Theorem redeemed_voucher_verifies_used :
  forall (throws : Reply -> bool) (trim : string -> string)
         (code businessId : string) (now writeAt replyAt : Timestamp) (db : Db),
    let r := Routes.redeem (Some code) (Some businessId) now writeAt replyAt db in
    success (fst r) = Some true ->
    exists v,
      Spec.lookup code db = Some v
      /\ forall s s',
           System.db s = snd r ->
           System.run throws trim s s' ->
           let d := System.db s' in
           Spec.lookup code d = Some (Storage.markUsed writeAt v)
           /\ (forall later,
                 Routes.verify (Some code) later d
                 = (mkReply 200
                      (Some (if Voucher.expiresAt v <? later
                             then "Voucher is expired" else "Voucher has already been used"))
                      (Some false) None None
                      (Some (Storage.view d (Storage.markUsed writeAt v))) None, d))
           /\ (forall business later writeLater replyLater,
                 let again := Routes.redeem (Some code) business later writeLater replyLater d in
                 success (fst again) <> Some true /\ snd again = d).
Proof.
  intros throws trim code businessId now writeAt replyAt db r H.
  destruct (redeem_success _ _ _ _ _ _ H)
    as [c [b [v [o [Ec [Eb [Hc [Hb [Hv [Ho [Hid [Ht [Hs Hdb]]]]]]]]]]]]].
  injection Ec as Ec. subst c. exists v. split; [exact Hv|].
  fold r in Hdb. intros s s' Hdbs Hrun d.
  pose proof (lookup_redeemed code writeAt db v Hv Hs) as L0.
  rewrite <- Hdb, <- Hdbs in L0.
  pose proof (run_lookup_used throws trim s s' code _ L0 eq_refl Hrun) as L.
  fold d in L. split; [exact L|]. split.
  - intro later.
    rewrite (surjective_pairing (Routes.verify _ _ _)), verify_reads_only.
    rewrite (verify_used code later d _ Hc L eq_refl). reflexivity.
  - intros business later writeLater replyLater again.
    assert (success (fst again) <> Some true) as Hrej.
    { intro Hok. destruct (redeem_success _ _ _ _ _ _ Hok)
        as [c [b' [w [o' [Ec [_ [_ [_ [Lw [_ [_ [_ [Hw _]]]]]]]]]]]]].
      injection Ec as Ec. subst c. fold d in Lw. rewrite L in Lw.
      injection Lw as Lw. subst w. discriminate Hw. }
    split; [exact Hrej|]. apply redeem_rejection_writes_nothing. exact Hrej.
Qed.

Lemma redeemed_voucher_verifies_used_witness :
  let code := "DS-1700000000000-AB12CD" in
  let r := Routes.redeem (Some code) (Some "b1")
             Scenario.now Scenario.now Scenario.now Scenario.db in
  let s := System.mk (snd r) [] in
  let s' := System.mk (snd (Routes.use "u1" "v1" (Scenario.now + 1) (snd r))) [] in
  success (fst r) = Some true
  /\ System.run Scenario.throws Scenario.trim s s'
  /\ message (fst (Routes.verify (Some code) (Scenario.now + 2) (System.db s')))
     = Some "Voucher has already been used"
  /\ success (fst (Routes.redeem (Some code) (Some "b1") (Scenario.now + 2)
                     (Scenario.now + 2) (Scenario.now + 2) (System.db s'))) <> Some true.
Proof.
  intros code r s s'.
  assert (System.run Scenario.throws Scenario.trim s s') as R.
  { eapply System.run_step; [apply System.run_nil|].
    exact (System.uses Scenario.throws Scenario.trim s "u1" "v1" (Scenario.now + 1)). }
  split; [reflexivity|]. split; [exact R|].
  destruct (redeemed_voucher_verifies_used Scenario.throws Scenario.trim code "b1"
              Scenario.now Scenario.now Scenario.now Scenario.db eq_refl)
    as [v [Hv H]].
  destruct (H s s' eq_refl R) as [_ [Hverify Hredeem]].
  split.
  - rewrite Hverify. cbn [fst message]. injection Hv as Hv. subst v. reflexivity.
  - exact (proj1 (Hredeem (Some "b1") (Scenario.now + 2) (Scenario.now + 2)
                    (Scenario.now + 2))).
Defined.
